(** * multigpu.py: multi-GPU training of GraphSAGE and GAT node classifiers

    A shallow embedding of [src/multigpu.py].  The script is orchestration
    over DGL and PyTorch: what is embedded here is the script's own control
    flow (argument post-processing, model construction, the loops of
    [train], [evaluate] and [inference], and the node-frame updates), with
    every call into the frameworks either recorded in a call log or taken
    from the [Library] interface below.  Floating-point arithmetic, the
    sampling engine and the collective-communication backend are library
    code and stay abstract.

    - A process is a state [world]: the tensor objects, the process group
      and the log of framework calls.  Code runs in the monad [M], which
      threads the state and stops at the first Python exception.
    - A graph is passed by value; its node frame maps keys to tensor
      objects, so that a write through one key is seen through every key
      that names the same tensor.
    - Left out, as nothing below depends on them: what is printed and
      written to the log file (only that a report is made, and to which
      file), the clock, the accumulated loss, the progress bar, and the
      value given to [OMP_NUM_THREADS].  Decimal literals of the source
      ([0.2], [0.6], [0.003], [5e-4]) are kept as rationals. *)

From Stdlib Require Import ZArith QArith Ascii String.
From stdpp Require Import base option list strings gmap pretty.

Local Open Scope Z_scope.
Local Open Scope string_scope.
Local Open Scope list_scope.

(** ** Python exceptions and the result of a fallible computation *)

Inductive exn :=
| ValueError | IndexError | KeyError | AssertionError | UnboundLocalError
| TypeError | RuntimeError | OSError | SystemExit.

Inductive result (A : Type) :=
| Ok (a : A)
| Raise (e : exn).
Arguments Ok {A} a.
Arguments Raise {A} e.

#[global] Instance result_ret : MRet result := @Ok.
#[global] Instance result_bind : MBind result := λ A B f r,
  match r with Ok a => f a | Raise e => Raise e end.
#[global] Instance result_fmap : FMap result := λ A B f r,
  match r with Ok a => Ok (f a) | Raise e => Raise e end.

Definition of_option {A} (e : exn) (o : option A) : result A :=
  match o with Some a => Ok a | None => Raise e end.

(** [[f(x) for x in xs]] where [f] may raise. *)
Fixpoint mapR {A B} (f : A → result B) (xs : list A) : result (list B) :=
  match xs with
  | [] => Ok []
  | x :: xs' => y ← f x; ys ← mapR f xs'; Ok (y :: ys)
  end.

(** ** Python built-ins used on the command line *)

Module Py.

(** [s.split(sep)] for a one-character separator: one more field than there
    are separators, empty fields included. *)
Fixpoint split (sep : ascii) (s : string) : list string :=
  match s with
  | EmptyString => [EmptyString]
  | String c s' =>
      if Ascii.eqb c sep then EmptyString :: split sep s'
      else match split sep s' with
           | p :: ps => String c p :: ps
           | [] => [String c EmptyString]
           end
  end.

(** [sep.join(fields)] *)
Fixpoint join (sep : ascii) (fields : list string) : string :=
  match fields with
  | [] => EmptyString
  | [f] => f
  | f :: fs => f +:+ String sep (join sep fs)
  end.

Fixpoint count (sep : ascii) (s : string) : nat :=
  match s with
  | EmptyString => 0%nat
  | String c s' => ((if Ascii.eqb c sep then 1 else 0) + count sep s')%nat
  end.

(** ASCII white space as [int()] strips it: TAB..CR, FS..US and SPACE. *)
Definition is_space (c : ascii) : bool :=
  let n := nat_of_ascii c in
  ((9 <=? n) && (n <=? 13) || (28 <=? n) && (n <=? 32))%nat.

Definition digit_of (c : ascii) : option Z :=
  let n := nat_of_ascii c in
  if ((48 <=? n) && (n <=? 57))%nat then Some (Z.of_nat n - 48) else None.

Fixpoint lstrip (s : string) : string :=
  match s with
  | String c s' => if is_space c then lstrip s' else s
  | EmptyString => EmptyString
  end.

Definition strip (s : string) : string :=
  String.rev (lstrip (String.rev (lstrip s))).

(** Decimal digits, where single underscores may separate digits.
    [prev] tells whether the previous character was a digit. *)
Fixpoint digits (acc : Z) (prev : bool) (s : string) : option Z :=
  match s with
  | EmptyString => if prev then Some acc else None
  | String c s' =>
      match digit_of c with
      | Some d => digits (acc * 10 + d) true s'
      | None => if Ascii.eqb c "_"%char && prev then digits acc false s'
                else None
      end
  end.

(** [int(s)] on an ASCII string: optional white space around an optional
    sign and a decimal literal; [ValueError] otherwise.  Digits outside
    ASCII and the interpreter's limit on the length of a literal are not
    modelled. *)
Definition int (s : string) : result Z :=
  of_option ValueError
    match strip s with
    | String c r =>
        if Ascii.eqb c "+" then digits 0 false r
        else if Ascii.eqb c "-" then Z.opp <$> digits 0 false r
        else digits 0 false (String c r)
    | EmptyString => None
    end.

(** [xs[i]] for a non-negative index. *)
Definition index {A} (xs : list A) (i : nat) : result A :=
  of_option IndexError (xs !! i).

(** [xs[-1]] *)
Definition index_last {A} (xs : list A) : result A :=
  of_option IndexError (last xs).

(** [assert b] *)
Definition assert (b : bool) : result unit :=
  if b then Ok () else Raise AssertionError.

End Py.

(** ** Data model *)

(** A device: the host, or the GPU with a given id. *)
Inductive device := Cpu | Cuda (id : Z).
#[global] Instance device_eq_dec : EqDecision device.
Proof. solve_decision. Defined.

(** A 2-D tensor: one row per node.  [R] is what a row holds; the script
    never looks inside a row. *)
Record tensor (R : Type) := Tensor {
  t_dev : device;
  t_dim1 : Z;               (* shape[1] *)
  t_rows : list R;          (* shape[0] = length t_rows *)
}.
Arguments Tensor {R}.
Arguments t_dev {R}.
Arguments t_dim1 {R}.
Arguments t_rows {R}.

(** Tensors are objects: the node frame of a graph holds references into a
    store, so that two keys may name one tensor. *)
Abbreviation loc := nat (only parsing).

(** A 1-D tensor of node ids; [squeeze] turns a one-element tensor into a
    0-d one. *)
Inductive ids :=
| Ids0 (d : device) (i : nat)
| Ids1 (d : device) (ns : list nat).

Definition ids_to (d : device) (t : ids) : ids :=
  match t with Ids0 _ i => Ids0 d i | Ids1 _ ns => Ids1 d ns end.

Definition squeeze (d : device) (ns : list nat) : ids :=
  match ns with [i] => Ids0 d i | _ => Ids1 d ns end.

(** [torch.arange(n, device=d)] *)
Definition arange (n : nat) (d : device) : ids := Ids1 d (seq 0 n).

(** A DGL graph: only the node count, the placement and the node frame
    [g.ndata] matter to the script. *)
Record graph := Graph {
  num_nodes : nat;
  g_dev : device;
  ndata : gmap string loc;
}.

(** What [load_graphs] reads from disk. *)
Record stored_graph (R : Type) := StoredGraph {
  sg_nodes : nat;
  sg_ndata : list (string * tensor R);
}.
Arguments StoredGraph {R}.
Arguments sg_nodes {R}.
Arguments sg_ndata {R}.

Inductive sampler :=
| NeighborSampler (fanouts : list Z) (prefetch_node_feats prefetch_labels : list string)
                  (fused : bool)
| MultiLayerFullNeighborSampler (num_layers : Z) (prefetch_node_feats : list string).

(** The arguments of [DataLoader(...)], in the order of the call. *)
Record dataloader := DataLoader {
  dl_graph : graph;
  dl_indices : ids;
  dl_sampler : sampler;
  dl_device : Z;
  dl_batch_size : Z;
  dl_shuffle : bool;
  dl_drop_last : bool;
  dl_num_workers : Z;
  dl_use_ddp : bool;
  dl_use_uva : bool;
}.

(** One item of a data loader: [(input_nodes, output_nodes, blocks)]. *)
Record batch (B : Type) := Batch {
  input_nodes : list nat;
  output_nodes : list nat;
  blocks : list B;
}.
Arguments Batch {B}.
Arguments input_nodes {B}.
Arguments output_nodes {B}.
Arguments blocks {B}.

Inductive activation := relu_fn.

Inductive conv :=
| SAGEConv (in_feats out_feats : Z) (aggregator_type : string)
| GATConv (in_feats out_feats num_heads : Z) (feat_drop attn_drop : Q)
          (act : option activation) (allow_zero_in_degree : bool).

Record SAGE := MkSAGE {
  sage_layers : list conv;
  sage_dropout : Q;
  sage_hid_size : Z;
  sage_out_size : Z;
}.

Record GAT := MkGAT {
  gat_n_layers : nat;
  gat_hid_size : Z;
  gat_out_size : Z;
  gat_n_heads : list Z;
  gat_layers : list conv;
}.

Inductive model := Sage (m : SAGE) | Gat (m : GAT).

(** [args] after [parse_args] and the two list conversions of the main
    block. *)
Record args := Args {
  mode : string;
  gpu : string;
  model_name : string;
  num_epochs : Z;
  dataset_name : string;
  dataset_dir : string;
  num_workers : Z;
  hidden_dim : Z;
  head : list Z;
}.

(** The command line as [argparse] hands it over: [--head] is still a
    string. *)
Record cli := Cli {
  cli_mode : string;
  cli_gpu : string;
  cli_model : string;
  cli_num_epochs : Z;
  cli_dataset_name : string;
  cli_dataset_dir : string;
  cli_num_workers : Z;
  cli_hidden_dim : Z;
  cli_head : string;
}.

(** The defaults of the parser. *)
Definition default_cli : cli :=
  Cli "mixed" "0" "sage" 10 "ogbn-products" "dataset" 0 32 "0".

(** Calls into PyTorch and DGL that the script makes for their effect, in
    program order. *)
Inductive call :=
| CudaSetDevice (d : Z)
| InitProcessGroup (backend init_method : string) (world_size rank : nat)
| ModuleTo (m : model) (d : Z)
| DistributedDataParallel (m : model) (device_ids : list Z) (output_device : Z)
| NewDataLoader (dl : dataloader)
| Adam (lr weight_decay : Q)
| ModelTrain
| ModelEval
| CrossEntropy
| ZeroGrad
| Backward
| OptStep
| Accuracy (num_classes : Z)
| Reduce (dst : nat)
| SharedTensor (rows : nat) (cols : Z)
| Barrier
| GraphTo (d : device)
| NdataSet (key : string)
| NdataPop (key : string)
| Report (path : string)
| DestroyProcessGroup
| CreateFormats
| ToBidirected
| AddSelfLoop
| SetEnv (key : string).

(** ** The framework interface

    What PyTorch and DGL compute and the script only passes on.  Every
    theorem below holds for all implementations of this interface. *)

Class Library := {
  row : Type;                 (* what a tensor holds for one node *)
  block : Type;               (* a message-flow graph made by a sampler *)
  row0 : row;                 (* a row of freshly allocated shared memory *)
  item : row → Z;             (* the integer stored in a label row *)
  nonzero : row → bool;       (* whether a mask row is set *)
  conv_apply : conv → block → list row → list row;   (* layer(block, h) *)
  relu : list row → list row;                         (* F.relu(h) *)
  dropout : Q → list row → list row;                  (* nn.Dropout(p)(h) *)
  flatten1 : list row → list row;                     (* h.flatten(1) *)
  mean1 : list row → list row;                        (* h.mean(1) *)
  (* the items of the n-th pass over a data loader in the process of the
     given rank *)
  batches : nat → dataloader → nat → list (batch block);
  (* np.random.rand(n, 1).reshape(-1, 1).repeat(768, axis=1) *)
  random_features : nat → list row;
}.

(** What the main block finds outside of the process. *)
Record env `{Library} := Env {
  cuda_is_available : bool;
  load_graphs : string → result (list (stored_graph row));
}.
Arguments Env {_} cuda_is_available load_graphs.

(** ** State of one process and the monad of the script *)

Record world `{Library} := World {
  heap : list (tensor row);          (* the tensor objects *)
  pg : option (nat * nat);           (* process group: world size, rank *)
  calls : list call;                 (* framework calls made so far *)
}.
Arguments World {_} heap pg calls.

Definition M `{Library} (A : Type) : Type := world → result A * world.

#[global] Instance M_ret `{Library} : MRet M := λ A a w, (Ok a, w).
#[global] Instance M_bind `{Library} : MBind M := λ A B f m w,
  match m w with
  | (Ok a, w') => f a w'
  | (Raise e, w') => (Raise e, w')
  end.

Section Script.
Context `{Library}.

Definition raise {A} (e : exn) : M A := λ w, (Raise e, w).

Definition lift {A} (r : result A) : M A := λ w, (r, w).

Definition log (c : call) : M unit :=
  λ w, (Ok (), World (heap w) (pg w) (calls w ++ [c])).

Definition alloc (t : tensor row) : M loc :=
  λ w, (Ok (length (heap w)), World (heap w ++ [t]) (pg w) (calls w)).

Definition load (l : loc) : M (tensor row) :=
  λ w, (of_option RuntimeError (heap w !! l), w).

Definition store (l : loc) (t : tensor row) : M unit :=
  λ w, (Ok (), World (<[l:=t]> (heap w)) (pg w) (calls w)).

(** [for x in xs: body], carrying the variables the body assigns. *)
Fixpoint foldM {A S} (body : S → A → M S) (s : S) (xs : list A) : M S :=
  match xs with
  | [] => mret s
  | x :: xs' => s' ← body s x; foldM body s' xs'
  end.

Definition forM_ {A} (xs : list A) (body : A → M unit) : M unit :=
  foldM (λ _ x, body x) () xs.

Fixpoint mapM {A B} (f : A → M B) (xs : list A) : M (list B) :=
  match xs with
  | [] => mret []
  | x :: xs' => y ← f x; ys ← mapM f xs'; mret (y :: ys)
  end.

Definition enumerate {A} (xs : list A) : list (nat * A) :=
  zip (seq 0 (length xs)) xs.

(** [l != len(layers) - 1], on Python integers. *)
Definition not_last {A} (l : nat) (layers : list A) : bool :=
  negb (Z.of_nat l =? Z.of_nat (length layers) - 1)%Z.

(** *** torch.distributed *)

Definition init_process_group (backend init_method : string)
    (world_size rank : nat) : M unit :=
  λ w, (Ok (), World (heap w) (Some (world_size, rank))
                 (calls w ++ [InitProcessGroup backend init_method world_size rank])).

Definition get_rank : M nat :=
  λ w, (of_option RuntimeError (snd <$> pg w), w).

Definition destroy_process_group : M unit :=
  λ w, (Ok (), World (heap w) None (calls w ++ [DestroyProcessGroup])).

(** *** Tensors *)

(** [t.to(device)]: the tensor itself when it is already there, a copy
    otherwise. *)
Definition tensor_to (l : loc) (d : device) : M loc :=
  t ← load l;
  if decide (t_dev t = d) then mret l
  else alloc (Tensor d (t_dim1 t) (t_rows t)).

(** [shared_tensor((n, c))] *)
Definition shared_tensor (n : nat) (c : Z) : M loc :=
  log (SharedTensor n c);;
  if (c <? 0)%Z then raise RuntimeError
  else alloc (Tensor Cpu c (replicate n row0)).

(** [t[nodes]] *)
Definition gather (l : loc) (nodes : list nat) : M (list row) :=
  t ← load l;
  lift (mapR (Py.index (t_rows t)) nodes).

(** [y[nodes] = h] *)
Definition index_put (y : loc) (nodes : list nat) (h : list row) : M unit :=
  t ← load y;
  if negb (forallb (λ i, i <? length (t_rows t))%nat nodes) then raise IndexError
  else if negb (length nodes =? length h)%nat then raise RuntimeError
  else store y (Tensor (t_dev t) (t_dim1 t)
                  (foldl (λ rs '(i, r), <[i:=r]> rs) (t_rows t) (zip nodes h))).

(** [t.max().item()] *)
Definition max_item (l : loc) : M Z :=
  t ← load l;
  match t_rows t with
  | [] => raise RuntimeError
  | r :: rs => mret (foldl Z.max (item r) (item <$> rs))
  end.

(** [t.nonzero().squeeze()] *)
Definition nonzero_squeeze (l : loc) : M ids :=
  t ← load l;
  mret (squeeze (t_dev t)
          (fst <$> filter (λ p, nonzero (snd p) = true) (enumerate (t_rows t)))).

Definition ids_list (t : ids) : list nat :=
  match t with Ids0 _ i => [i] | Ids1 _ ns => ns end.

(** [len(t)] *)
Definition ids_len (t : ids) : result nat :=
  match t with Ids0 _ _ => Raise TypeError | Ids1 _ ns => Ok (length ns) end.

(** *** The node frame of a graph *)

(** [g.ndata[key]] *)
Definition ndata_get (g : graph) (key : string) : M loc :=
  lift (of_option KeyError (ndata g !! key)).

(** [g.ndata[key] = t] *)
Definition ndata_set (g : graph) (key : string) (l : loc) : M graph :=
  log (NdataSet key);;
  mret (Graph (num_nodes g) (g_dev g) (<[key:=l]> (ndata g))).

(** [g.ndata.pop(key)] *)
Definition ndata_pop (g : graph) (key : string) : M (loc * graph) :=
  l ← ndata_get g key;
  log (NdataPop key);;
  mret (l, Graph (num_nodes g) (g_dev g) (delete key (ndata g))).

(** [g.to(device)]: the graph itself when it is already there, otherwise a
    graph whose frame holds copies on [device]. *)
Definition graph_to (g : graph) (d : device) : M graph :=
  log (GraphTo d);;
  if decide (g_dev g = d) then mret g
  else
    kls ← mapM (λ kl, l ← tensor_to (snd kl) d; mret (fst kl, l))
               (map_to_list (ndata g));
    mret (Graph (num_nodes g) d (list_to_map kls)).

(** [block.srcdata[key]] and [block.dstdata[key]] of an item: the rows of
    the prefetched frame column at the item's nodes. *)
Definition prefetched (g : graph) (key : string) (nodes : list nat) : M (list row) :=
  l ← ndata_get g key;
  gather l nodes.

(** The items of the [n]-th pass over a data loader built with
    [use_ddp=True]. *)
Definition iterate (dl : dataloader) (n : nat) : M (list (batch block)) :=
  rank ← get_rank;
  mret (batches rank dl n).

(** [tqdm.tqdm(it)] shows progress and yields the items of [it]. *)
Definition tqdm {A} (it : list A) : list A := it.

(** ** class SAGE *)

(** [SAGE.__init__] *)
Definition SAGE_init (in_size hid_size out_size : Z) : SAGE :=
  MkSAGE [SAGEConv in_size hid_size "mean";
          SAGEConv hid_size hid_size "mean";
          SAGEConv hid_size out_size "mean"]
         (2 # 10) hid_size out_size.

(** [SAGE.forward] *)
Definition SAGE_forward (self : SAGE) (blocks : list block) (x : list row) : list row :=
  foldl (λ h '(l, (layer, block)),
           let h := conv_apply layer block h in
           if not_last l (sage_layers self)
           then dropout (sage_dropout self) (relu h)
           else h)
        x (enumerate (zip (sage_layers self) blocks)).

(** The loop shared, word for word, by [SAGE.inference] and
    [GAT.inference]: [width l] is the second dimension of the output of
    layer [l] and [post l] what follows the convolution. *)
Definition inference_layers (layers : list conv) (width : nat → result Z)
    (post : nat → list row → list row)
    (g : graph) (device : Z) (batch_size : Z) (use_uva : bool) : M (loc * graph) :=
  feats ← ndata_get g "features";
  g ← ndata_set g "h" feats;
  let sampler := MultiLayerFullNeighborSampler 1 ["h"] in
  '(y, g) ← foldM (λ '(_, g) '(l, layer),
      let dataloader :=
        DataLoader g (arange (num_nodes g) (Cuda device)) sampler device
                   batch_size false false 0 true use_uva in
      log (NewDataLoader dataloader);;
      c ← lift (width l);
      y ← shared_tensor (num_nodes g) c;
      rank ← get_rank;
      items ← iterate dataloader 0;
      let items := if decide (rank = 0%nat) then tqdm items else items in
      forM_ items (λ b,
        blk ← lift (Py.index (blocks b) 0);
        x ← prefetched g "h" (input_nodes b);
        index_put y (output_nodes b) (post l (conv_apply layer blk x)));;
      log Barrier;;
      h ← (if use_uva then mret y else tensor_to y (Cuda device));
      g ← ndata_set g "h" h;
      mret (Some y, g))
    (@None loc, g) (enumerate layers);
  '(_, g) ← ndata_pop g "h";
  match y with
  | Some y => mret (y, g)
  | None => raise UnboundLocalError
  end.

(** [SAGE.inference] *)
Definition SAGE_inference (self : SAGE) (g : graph) (device batch_size : Z)
    (use_uva : bool) : M (loc * graph) :=
  inference_layers (sage_layers self)
    (λ l, Ok (if not_last l (sage_layers self)
              then sage_hid_size self else sage_out_size self))
    (λ l h, if not_last l (sage_layers self)
            then dropout (sage_dropout self) (relu h) else h)
    g device batch_size use_uva.

(** ** class GAT *)

(** The body of the loop of [GAT.__init__]: layer [i]. *)
Definition GAT_layer (in_size hid_size out_size : Z) (n_heads : list Z)
    (act : option activation) (feat_dropout attn_dropout : Q)
    (i : nat) : result conv :=
  let n_layers := length n_heads in
  in_dim ← (if decide (i = 0%nat) then Ok in_size
            else p ← Py.index n_heads (i - 1); Ok (hid_size * p));
  let last := (Z.of_nat i =? Z.of_nat n_layers - 1)%Z in
  let out_dim := if last then out_size else hid_size in
  let layer_activation := if last then None else act in
  heads ← Py.index n_heads i;
  Ok (GATConv in_dim out_dim heads feat_dropout attn_dropout
              layer_activation true).

(** [GAT.__init__] *)
Definition GAT_init (in_size hid_size out_size : Z) (n_heads : list Z)
    (act : option activation) (feat_dropout attn_dropout : Q) : result GAT :=
  let n_layers := length n_heads in
  h ← Py.index_last n_heads;
  Py.assert (h =? 1)%Z;;
  layers ← mapR (GAT_layer in_size hid_size out_size n_heads act
                           feat_dropout attn_dropout)
                (seq 0 n_layers);
  Ok (MkGAT n_layers hid_size out_size n_heads layers).

(** [GAT.forward] *)
Definition GAT_forward (self : GAT) (blocks : list block) (inputs : list row) : list row :=
  foldl (λ h '(i, (layer, block)),
           let h := conv_apply layer block h in
           if (Z.of_nat i =? Z.of_nat (gat_n_layers self) - 1)%Z
           then mean1 h else flatten1 h)
        inputs (enumerate (zip (gat_layers self) blocks)).

(** [GAT.inference] *)
Definition GAT_inference (self : GAT) (g : graph) (device batch_size : Z)
    (use_uva : bool) : M (loc * graph) :=
  inference_layers (gat_layers self)
    (λ l, heads ← Py.index (gat_n_heads self) l;
          Ok (if not_last l (gat_layers self)
              then gat_hid_size self * heads else gat_out_size self * heads))
    (λ l h, if not_last l (gat_layers self) then flatten1 h else mean1 h)
    g device batch_size use_uva.

(** [model(blocks, x)] and [model.module.inference(...)] by the class of
    the model. *)
Definition model_forward (m : model) (blocks : list block) (x : list row) : list row :=
  match m with
  | Sage self => SAGE_forward self blocks x
  | Gat self => GAT_forward self blocks x
  end.

Definition model_inference (m : model) (g : graph) (device batch_size : Z)
    (use_uva : bool) : M (loc * graph) :=
  match m with
  | Sage self => SAGE_inference self g device batch_size use_uva
  | Gat self => GAT_inference self g device batch_size use_uva
  end.

(** ** evaluate, layerwise_infer, train *)

(** [evaluate]; [n] counts the passes made over [dataloader].  Moving the
    blocks to the device changes nothing here. *)
Definition evaluate (device : Z) (m : model) (g : graph) (num_classes : Z)
    (dataloader : dataloader) (n : nat) : M unit :=
  log ModelEval;;
  items ← iterate dataloader n;
  y_hats ← mapM (λ b,
      _ ← lift (Py.index (blocks b) 0);
      x ← prefetched g "features" (input_nodes b);
      _ ← lift (Py.index_last (blocks b));
      _ ← prefetched g "labels" (output_nodes b);
      mret (model_forward m (blocks b) x)) items;
  (* torch.cat of an empty list *)
  (if decide (y_hats = []) then raise RuntimeError else mret ());;
  log (Accuracy num_classes).

(** [layerwise_infer] *)
Definition layerwise_infer (proc_id : nat) (device : Z) (g : graph)
    (num_classes : Z) (nid : ids) (m : model) (use_uva : bool)
    (log_path : string) (batch_size : Z) : M unit :=
  log ModelEval;;
  g ← (if negb use_uva then graph_to g (Cuda device) else mret g);
  '(pred, g) ← model_inference m g device batch_size use_uva;
  _ ← gather pred (ids_list nid);
  labels ← ndata_get g "labels";
  _ ← gather labels (ids_list nid);
  if decide (proc_id = 0%nat) then
    log (Accuracy num_classes);;
    log (Report log_path)
  else mret ().

(** The path of the log file, as [train] and [run] compute it. *)
Definition log_path_of (a : args) (nprocs : nat) : string :=
  "../logs/2023_12_28_t4_dgl_" +:+ dataset_name a +:+ "_1x" +:+ pretty nprocs
    +:+ "_" +:+ model_name a +:+ ".log".

(** [train] *)
Definition train (proc_id nprocs : nat) (device : Z) (a : args) (g : graph)
    (num_classes : Z) (train_idx val_idx : ids) (m : model) (use_uva : bool) : M unit :=
  let log_path := log_path_of a nprocs in
  let sampler :=
    NeighborSampler [10; 10; 10] ["features"] ["labels"]
                    (negb (String.eqb (mode a) "benchmark")) in
  let train_dataloader :=
    DataLoader g train_idx sampler device 1000 true false (num_workers a)
               true use_uva in
  log (NewDataLoader train_dataloader);;
  let val_dataloader :=
    DataLoader g val_idx sampler device 1000 true false (num_workers a)
               true use_uva in
  log (NewDataLoader val_dataloader);;
  log (Adam (3 # 1000) (5 # 10000));;
  (* [it] is assigned by the inner loop only and survives from one epoch
     to the next *)
  _ ← foldM (λ (it : option nat) (epoch : nat),
      log ModelTrain;;
      items ← iterate train_dataloader epoch;
      it ← foldM (λ _ '(i, b),
          _ ← lift (Py.index (blocks b) 0);
          x ← prefetched g "features" (input_nodes b);
          _ ← lift (Py.index_last (blocks b));
          _ ← prefetched g "labels" (output_nodes b);
          let y_hat := model_forward m (blocks b) x in
          log CrossEntropy;;
          log ZeroGrad;;
          log Backward;;
          log OptStep;;
          mret (Some i))
        it (enumerate items);
      evaluate device m g num_classes val_dataloader epoch;;
      log (Reduce 0);;
      (if decide (proc_id = 0%nat) then
         match it with
         | None => raise UnboundLocalError
         | Some _ => log (Report log_path)
         end
       else mret ());;
      mret it)
    None (seq 0 (Z.to_nat (num_epochs a)));
  log (Reduce 0);;
  if decide (proc_id = 0%nat) then
    _ ← lift (ids_len train_idx);
    log (Report log_path)
  else mret ().

(** ** run *)

(** What [run] has computed when it reaches the model selection. *)
Record prepared := Prepared {
  p_device : Z;
  p_num_classes : Z;
  p_train_idx : ids;
  p_val_idx : ids;
  p_test_idx : ids;
  p_g : graph;
  p_in_size : Z;
}.

(** [run], from its first line to the model selection. *)
Definition run_prepare (proc_id nprocs : nat) (devices : list Z) (g : graph)
    (a : args) : M prepared :=
  device ← lift (Py.index devices proc_id);
  log (CudaSetDevice device);;
  init_process_group "nccl" "tcp://127.0.0.1:12345" nprocs proc_id;;
  labels ← ndata_get g "labels";
  mx ← max_item labels;
  let num_classes := mx + 1 in
  '(t, g) ← ndata_pop g "train_mask";
  train_idx ← nonzero_squeeze t;
  '(t, g) ← ndata_pop g "val_mask";
  val_idx ← nonzero_squeeze t;
  '(t, g) ← ndata_pop g "test_mask";
  test_idx ← nonzero_squeeze t;
  '(train_idx, val_idx, g) ←
    (if negb (String.eqb (mode a) "benchmark") then
       let train_idx := ids_to (Cuda device) train_idx in
       let val_idx := ids_to (Cuda device) val_idx in
       g ← graph_to g (if String.eqb (mode a) "puregpu" then Cuda device else Cpu);
       mret (train_idx, val_idx, g)
     else mret (train_idx, val_idx, g));
  features ← ndata_get g "features";
  t ← load features;
  let in_size := t_dim1 t in
  let num_classes :=
    if String.eqb (dataset_name a) "ogb-paper100M" then 172 else num_classes in
  mret (Prepared device num_classes train_idx val_idx test_idx g in_size).

(** The model selection of [run]: [None] when neither branch assigns
    [model]. *)
Definition build_model (a : args) (in_size num_classes device : Z) : M (option model) :=
  if String.eqb (model_name a) "sage" then
    let m := Sage (SAGE_init in_size (hidden_dim a) num_classes) in
    log (ModuleTo m device);;
    mret (Some m)
  else if String.eqb (model_name a) "gat" then
    self ← lift (GAT_init in_size (hidden_dim a) num_classes (head a)
                          (Some relu_fn) (6 # 10) (6 # 10));
    log (ModuleTo (Gat self) device);;
    mret (Some (Gat self))
  else mret None.

(** [run], from the [DistributedDataParallel] call to its end. *)
Definition run_model (proc_id nprocs : nat) (a : args) (p : prepared)
    (m : option model) : M unit :=
  m ← match m with Some m => mret m | None => raise UnboundLocalError end;
  log (DistributedDataParallel m [p_device p] (p_device p));;
  let use_uva := String.eqb (mode a) "mixed" in
  train proc_id nprocs (p_device p) a (p_g p) (p_num_classes p)
        (p_train_idx p) (p_val_idx p) m use_uva;;
  let log_path := log_path_of a nprocs in
  layerwise_infer proc_id (p_device p) (p_g p) (p_num_classes p)
                  (p_test_idx p) m use_uva log_path (2 ^ 10);;
  destroy_process_group.

(** [run] *)
Definition run (proc_id nprocs : nat) (devices : list Z) (g : graph)
    (a : args) : M unit :=
  p ← run_prepare proc_id nprocs devices g a;
  m ← build_model a (p_in_size p) (p_num_classes p) (p_device p);
  run_model proc_id nprocs a p m.

(** ** The main block *)

(** [mp.spawn(fn, args=args, nprocs=nprocs)] starts [nprocs] processes;
    process [i] calls [fn(i, *args)].  The calls to be made are returned. *)
Definition mp_spawn {A} (args : A) (nprocs : nat) : list (nat * A) :=
  (λ i, (i, args)) <$> seq 0 nprocs.

Definition worker : Type := nat * (nat * list Z * graph * args).

(** The call of [run] a spawned process makes. *)
Definition worker_run (wk : worker) : M unit :=
  let '(proc_id, (nprocs, devices, g, a)) := wk in
  run proc_id nprocs devices g a.

(** A spawned process starts from a copy of the parent's objects, without
    a process group. *)
Definition child_world (w : world) : world := World (heap w) None [].

(** A graph read from disk, its tensors allocated in host memory. *)
Definition materialise (sg : stored_graph row) : M graph :=
  kls ← mapM (λ kt, l ← alloc (snd kt); mret (fst kt, l)) (sg_ndata sg);
  mret (Graph (sg_nodes sg) Cpu (list_to_map kls)).

(** [[int(x) for x in s.split(",")]] *)
Definition int_list (s : string) : result (list Z) :=
  mapR Py.int (Py.split "," s).

Definition mode_choices : list string := ["mixed"; "puregpu"; "benchmark"].

(** The [if __name__ == "__main__"] block. *)
Definition main (c : cli) (e : env) : M (list worker) :=
  (* parser.parse_args() *)
  (if decide (cli_mode c ∈ mode_choices) then mret () else raise SystemExit);;
  head ← lift (int_list (cli_head c));
  let a := Args (cli_mode c) (cli_gpu c) (cli_model c) (cli_num_epochs c)
                (cli_dataset_name c) (cli_dataset_dir c) (cli_num_workers c)
                (cli_hidden_dim c) head in
  devices ← lift (int_list (gpu a));
  let nprocs := length devices in
  lift (Py.assert (cuda_is_available e));;
  dataset ← lift (load_graphs e ("/home/ubuntu/workspace/partition_dataset/"
                                 +:+ dataset_name a +:+ "_graph.dgl"));
  sg ← lift (Py.index dataset 0);
  g ← materialise sg;
  g ← (if String.eqb (dataset_name a) "mag240m" then
         l ← alloc (Tensor Cpu 768 (random_features (num_nodes g)));
         ndata_set g "features" l
       else mret g);
  log CreateFormats;;
  (if String.eqb (dataset_name a) "ogbn-arxiv" then
     log ToBidirected;; log AddSelfLoop
   else mret ());;
  log (SetEnv "OMP_NUM_THREADS");;
  mret (mp_spawn (nprocs, devices, g, a) nprocs).

End Script.

(** ** A small implementation of the interface, to run the script

    Rows are integers, convolutions pass their input through, and a data
    loader yields a single item holding all of its node ids with one block
    per sampled layer. *)

Definition toy_batches (rank : nat) (dl : dataloader) (n : nat) : list (batch unit) :=
  let nodes := match dl_indices dl with Ids0 _ i => [i] | Ids1 _ ns => ns end in
  let depth := match dl_sampler dl with
               | NeighborSampler fanouts _ _ _ => length fanouts
               | MultiLayerFullNeighborSampler k _ => Z.to_nat k
               end in
  [Batch nodes nodes (replicate depth ())].

Definition toy : Library := {|
  row := Z;
  block := unit;
  row0 := 0;
  item := λ z, z;
  nonzero := λ z, negb (z =? 0)%Z;
  conv_apply := λ _ _ h, h;
  relu := fmap (Z.max 0);
  dropout := λ _ h, h;
  flatten1 := λ h, h;
  mean1 := λ h, h;
  batches := toy_batches;
  random_features := λ n, replicate n 0;
|}.

Definition toy_graph : stored_graph Z :=
  StoredGraph 4
    [("features", Tensor Cpu 2 [5; 6; 7; 8]);
     ("labels", Tensor Cpu 1 [0; 1; 1; 0]);
     ("train_mask", Tensor Cpu 1 [1; 1; 0; 0]);
     ("val_mask", Tensor Cpu 1 [0; 1; 1; 0]);
     ("test_mask", Tensor Cpu 1 [0; 0; 1; 1])].

Definition toy_env : @env toy := @Env toy true (λ _, Ok [toy_graph]).

Definition toy_world : @world toy := @World toy [] None [].

(** The state of worker 0 of the toy run when [run] starts: the five
    tensors of the stored graph, and the graph whose frame names them. *)
Definition toy_loaded : @world toy :=
  @World toy (snd <$> sg_ndata toy_graph) None [].

Definition toy_g : graph :=
  Graph 4 Cpu
    (list_to_map [("features", 0%nat); ("labels", 1%nat); ("train_mask", 2%nat);
                  ("val_mask", 3%nat); ("test_mask", 4%nat)]).

Definition toy_args (model : string) (head : list Z) : args :=
  Args "mixed" "0" model 10 "ogbn-products" "dataset" 0 32 head.

(** The state in which it reaches [layerwise_infer]. *)
Definition toy_ready : @world toy :=
  @World toy (snd <$> sg_ndata toy_graph) (Some (1%nat, 0%nat)) [].

Definition toy_sage : model := Sage (SAGE_init 2 32 2).

Definition four_gpus : cli :=
  Cli "mixed" "0,1,2,3" "sage" 10 "ogbn-products" "dataset" 0 32 "0".

(** * Specification vocabulary

    The predicates in which the theorems below are stated. *)

(** ** Device ids on the command line *)

(** A device id as one writes it: a non-empty string of decimal digits. *)
Definition is_digit (c : ascii) : bool :=
  match Py.digit_of c with Some _ => true | None => false end.

Fixpoint all_digits (s : string) : bool :=
  match s with
  | EmptyString => true
  | String c s' => is_digit c && all_digits s'
  end.

Definition device_id (s : string) : Prop := s ≠ "" ∧ all_digits s = true.

(** The number a string of digits denotes, after the digits [acc]. *)
Fixpoint decimal (acc : Z) (s : string) : Z :=
  match s with
  | EmptyString => acc
  | String c s' =>
      match Py.digit_of c with
      | Some d => decimal (acc * 10 + d) s'
      | None => acc
      end
  end.

(** ** Runs, call logs and the tensor store *)

Section Vocabulary.
Context `{Library}.

(** [wp m Q E w]: run from [w], [m] either returns some [a] in a state [w']
    with [Q a w'], or raises some [e] in a state [w'] with [E e w']. *)
Definition wp {A} (m : M A) (Q : A → world → Prop) (E : exn → world → Prop)
    (w : world) : Prop :=
  match m w with
  | (Ok a, w') => Q a w'
  | (Raise e, w') => E e w'
  end.

(** [w'] was reached from [w] by calls that all satisfy [R]. *)
Definition extends (R : call → Prop) (w w' : world) : Prop :=
  ∃ new, calls w' = calls w ++ new ∧ Forall R new.

(** The tensors of [w] are still there, unchanged, in [w']. *)
Definition heap_keeps (w w' : world) : Prop :=
  (length (heap w) ≤ length (heap w'))%nat ∧
  ∀ l, (l < length (heap w))%nat → heap w' !! l = heap w !! l.

(** Counting calls of one kind in a log. *)
Definition is_ndata_set (c : call) : bool :=
  match c with NdataSet _ => true | _ => false end.
Definition is_ndata_pop (c : call) : bool :=
  match c with NdataPop _ => true | _ => false end.
Definition is_dataloader (c : call) : bool :=
  match c with NewDataLoader _ => true | _ => false end.

Definition count_if (p : call → bool) (cs : list call) : nat :=
  length (List.filter p cs).

(** The framework calls [inference] makes on a graph of [n] nodes placed
    on [d]. *)
Definition inference_call (n : nat) (d : device) (device batch_size : Z)
    (use_uva : bool) (c : call) : Prop :=
  match c with
  | NdataSet key | NdataPop key => key = "h"
  | NewDataLoader dl =>
      ∃ g', dl = DataLoader g' (arange n (Cuda device))
                   (MultiLayerFullNeighborSampler 1 ["h"]) device batch_size
                   false false 0 true use_uva
            ∧ num_nodes g' = n ∧ g_dev g' = d
  | SharedTensor rows _ => rows = n
  | Barrier => True
  | _ => False
  end.

(** What holds when [inference] returns [y] and leaves the graph as [g']. *)
Definition inference_returned (n_layers : nat) (g : graph)
    (device batch_size : Z) (use_uva : bool) (w : world)
    (y : loc) (g' : graph) (w' : world) : Prop :=
  ∃ new t,
    calls w' = calls w ++ new ∧
    Forall (inference_call (num_nodes g) (g_dev g) device batch_size use_uva) new ∧
    count_if is_ndata_set new = S n_layers ∧
    count_if is_dataloader new = n_layers ∧
    count_if is_ndata_pop new = 1%nat ∧
    last new = Some (NdataPop "h") ∧
    g' = Graph (num_nodes g) (g_dev g) (delete "h" (ndata g)) ∧
    heap w' !! y = Some t ∧ length (t_rows t) = num_nodes g ∧
    heap_keeps w w' ∧ pg w' = pg w.

(** What holds when [inference] raises. *)
Definition inference_raised (g : graph) (device batch_size : Z)
    (use_uva : bool) (w : world) (w' : world) : Prop :=
  extends (inference_call (num_nodes g) (g_dev g) device batch_size use_uva)
          w w' ∧
  pg w' = pg w.

(** The invariant of the loop over the layers. *)
Definition inference_inv (g : graph) (device batch_size : Z) (use_uva : bool)
    (w : world) (pre : list (nat * conv)) (s : option loc * graph)
    (wi : world) : Prop :=
  ∃ new hl,
    calls wi = calls w ++ new ∧
    Forall (inference_call (num_nodes g) (g_dev g) device batch_size use_uva) new ∧
    count_if is_ndata_set new = S (length pre) ∧
    count_if is_dataloader new = length pre ∧
    count_if is_ndata_pop new = 0%nat ∧
    s.2 = Graph (num_nodes g) (g_dev g) (<["h":=hl]> (ndata g)) ∧
    heap_keeps w wi ∧ pg wi = pg w ∧
    match s.1 with
    | Some y => ∃ t, heap wi !! y = Some t ∧ length (t_rows t) = num_nodes g
    | None => pre = []
    end.

(** After the calls [c0], only calls that satisfy [R] were made. *)
Definition logs_after (R : call → Prop) (c0 : list call) (w' : world) : Prop :=
  ∃ rest, calls w' = c0 ++ rest ∧ Forall R rest.

(** The calls of the epoch loop of [train]. *)
Definition train_loop_call (c : call) : Prop :=
  match c with
  | ModelTrain | ModelEval | CrossEntropy | ZeroGrad | Backward | OptStep
  | Accuracy _ | Reduce _ | Report _ => True
  | _ => False
  end.

(** The sampler of [train], and the three calls [train] starts with. *)
Definition train_sampler (a : args) : sampler :=
  NeighborSampler [10; 10; 10] ["features"] ["labels"]
                  (negb (String.eqb (mode a) "benchmark")).

Definition train_setup_calls (a : args) (g : graph) (device : Z)
    (train_idx val_idx : ids) (use_uva : bool) : list call :=
  [NewDataLoader (DataLoader g train_idx (train_sampler a) device 1000 true
                             false (num_workers a) true use_uva);
   NewDataLoader (DataLoader g val_idx (train_sampler a) device 1000 true
                             false (num_workers a) true use_uva);
   Adam (3 # 1000) (5 # 10000)].

(** [model.module.layers] *)
Definition model_layers (m : model) : list conv :=
  match m with Sage self => sage_layers self | Gat self => gat_layers self end.

(** The calls of [layerwise_infer] after [model.eval()] and the move of the
    graph. *)
Definition layerwise_call (n : nat) (d : device) (device batch_size : Z)
    (use_uva : bool) (c : call) : Prop :=
  inference_call n d device batch_size use_uva c ∨
  match c with Accuracy _ | Report _ => True | _ => False end.

(** The model [run] may build for [args]. *)
Definition selected (a : args) (m : model) : Prop :=
  (model_name a = "sage" ∧
   ∃ in_size num_classes,
     m = Sage (SAGE_init in_size (hidden_dim a) num_classes)) ∨
  (model_name a = "gat" ∧
   ∃ in_size num_classes self,
     GAT_init in_size (hidden_dim a) num_classes (head a) (Some relu_fn)
              (6 # 10) (6 # 10) = Ok self ∧
     m = Gat self).

(** What holds of every call [run] makes after the process group is
    set up. *)
Definition run_call (a : args) (c : call) : Prop :=
  match c with
  | NewDataLoader dl => dl_use_uva dl = String.eqb (mode a) "mixed"
  | ModuleTo m _ | DistributedDataParallel m _ _ => selected a m
  | _ => True
  end.

(** The two calls [run] starts with on device [d]. *)
Definition run_start (proc_id nprocs : nat) (d : Z) : list call :=
  [CudaSetDevice d; InitProcessGroup "nccl" "tcp://127.0.0.1:12345" nprocs proc_id].


(** What makes a data loader one that walks the whole graph [g]: its
    indices are [torch.arange(g.num_nodes())], in order and without a
    dropped tail, and its sampler takes every neighbour. *)
Definition full_graph_loader (g : graph) (device : Z) (dl : dataloader) : Prop :=
  dl_indices dl = arange (num_nodes g) (Cuda device) ∧
  ids_list (dl_indices dl) = seq 0 (num_nodes g) ∧
  dl_shuffle dl = false ∧
  dl_drop_last dl = false ∧
  dl_sampler dl = MultiLayerFullNeighborSampler 1 ["h"] ∧
  num_nodes (dl_graph dl) = num_nodes g.

End Vocabulary.

Arguments wp : simpl never.

(** ** Vocabulary of the further properties *)

(** The calls of the main block on its way to [mp.spawn]. *)
Definition main_calls (dataset : string) : list call :=
  (if String.eqb dataset "mag240m" then [NdataSet "features"] else [])
  ++ [CreateFormats]
  ++ (if String.eqb dataset "ogbn-arxiv" then [ToBidirected; AddSelfLoop] else [])
  ++ [SetEnv "OMP_NUM_THREADS"].

(** The exceptions a pass over the items of a data loader can raise. *)
Definition loader_error (e : exn) : Prop :=
  e = RuntimeError ∨ e = IndexError ∨ e = KeyError.

(** What holds of every call process [proc_id] makes on device [d] between
    setting up the process group and destroying it: it leaves the group
    alone, works on its own device, and only process 0 writes to the log
    file, at [path]. *)
Definition worker_call (proc_id : nat) (d : Z) (path : string) (c : call) : Prop :=
  match c with
  | CudaSetDevice _ | InitProcessGroup _ _ _ _ | DestroyProcessGroup
  | CreateFormats | ToBidirected | AddSelfLoop | SetEnv _ => False
  | Report p => proc_id = 0%nat ∧ p = path
  | NewDataLoader dl =>
      dl_device dl = d ∧ dl_use_ddp dl = true ∧ dl_drop_last dl = false
  | ModuleTo _ d' => d' = d
  | DistributedDataParallel _ device_ids output_device =>
      device_ids = [d] ∧ output_device = d
  | GraphTo dv => dv = Cuda d ∨ dv = Cpu
  | Reduce dst => dst = 0%nat
  | _ => True
  end.

Section Group.
Context `{Library}.

(** The state of a process that is a member of the process group and has
    made only such calls since the calls [c0]. *)
Definition in_group (proc_id nprocs : nat) (d : Z) (path : string)
    (c0 : list call) (w' : world) : Prop :=
  pg w' = Some (nprocs, proc_id) ∧ logs_after (worker_call proc_id d path) c0 w'.

End Group.

(** [t.device] of a tensor of node ids. *)
Definition ids_dev (t : ids) : device :=
  match t with Ids0 d _ | Ids1 d _ => d end.

(** The calls of one optimisation step, of one epoch over [items] training
    items, and of a whole run of [train] in the process of the given
    rank. *)
Definition step_calls : list call := [CrossEntropy; ZeroGrad; Backward; OptStep].

Definition epoch_calls (proc_id : nat) (path : string) (num_classes : Z)
    (items : nat) : list call :=
  ModelTrain :: concat (replicate items step_calls)
    ++ [ModelEval; Accuracy num_classes; Reduce 0]
    ++ (if decide (proc_id = 0%nat) then [Report path] else []).

Section TrainCalls.
Context `{Library}.

Definition train_calls (proc_id nprocs : nat) (device : Z) (a : args) (g : graph)
    (num_classes : Z) (train_idx val_idx : ids) (use_uva : bool) (rank : nat)
    : list call :=
  let train_dataloader :=
    DataLoader g train_idx (train_sampler a) device 1000 true false
               (num_workers a) true use_uva in
  train_setup_calls a g device train_idx val_idx use_uva
  ++ concat ((λ epoch, epoch_calls proc_id (log_path_of a nprocs) num_classes
                        (length (batches rank train_dataloader epoch)))
            <$> seq 0 (Z.to_nat (num_epochs a)))
  ++ Reduce 0 :: (if decide (proc_id = 0%nat)
                  then [Report (log_path_of a nprocs)] else []).

End TrainCalls.

(** ** A second small implementation

    A loader with ids yields the four nodes of the toy graph as one item
    with one block, a loader without ids yields nothing, and a convolution
    returns four rows. *)

Definition toy4_batches (rank : nat) (dl : dataloader) (n : nat) : list (batch unit) :=
  match dl_indices dl with
  | Ids1 _ [] => []
  | _ => [Batch [0; 1; 2; 3]%nat [0; 1; 2; 3]%nat [()]]
  end.

Definition toy4 : Library := {|
  row := Z;
  block := unit;
  row0 := 0;
  item := λ z, z;
  nonzero := λ z, negb (z =? 0)%Z;
  conv_apply := λ _ _ h, take 4 (h ++ replicate 4 0);
  relu := fmap (Z.max 0);
  dropout := λ _ h, h;
  flatten1 := λ h, h;
  mean1 := λ h, h;
  batches := toy4_batches;
  random_features := λ n, replicate n 0;
|}.

(** A worker of rank 0 that holds the toy graph. *)
Definition toy4_ready : @world toy4 :=
  @World toy4 (snd <$> sg_ndata toy_graph) (Some (1%nat, 0%nat)) [].

(** The two-layer GAT of [--head 2,1] on the toy graph. *)
Definition toy_gat : GAT :=
  MkGAT 2 32 2 [2; 1]
    [GATConv 2 32 2 (6 # 10) (6 # 10) (Some relu_fn) true;
     GATConv 64 2 1 (6 # 10) (6 # 10) None true].

(** The default command line with [--num_epochs 0]. *)
Definition toy_no_epochs : args :=
  Args "mixed" "0" "sage" 0 "ogbn-products" "dataset" 0 32 [0].

(** * Verification *)

(** ** Weakest preconditions for the monad of the script *)

Section Wp.
Context `{Library}.

Lemma wp_ret {A} (a : A) Q E w : wp (mret a) Q E w = Q a w.
Proof. reflexivity. Qed.

Lemma wp_bind {A B} (m : M A) (f : A → M B) Q E w :
  wp (m ≫= f) Q E w = wp m (λ a, wp (f a) Q E) E w.
Proof. unfold wp, mbind, M_bind. by destruct (m w) as [[a|e] w']. Qed.

Lemma wp_raise {A} e (Q : A → world → Prop) E w : wp (raise e) Q E w = E e w.
Proof. reflexivity. Qed.

Lemma wp_lift {A} (r : result A) Q E w :
  wp (lift r) Q E w = match r with Ok a => Q a w | Raise e => E e w end.
Proof. reflexivity. Qed.

Lemma wp_log c Q E w :
  wp (log c) Q E w = Q () (World (heap w) (pg w) (calls w ++ [c])).
Proof. reflexivity. Qed.

Lemma wp_alloc t Q E w :
  wp (alloc t) Q E w = Q (length (heap w)) (World (heap w ++ [t]) (pg w) (calls w)).
Proof. reflexivity. Qed.

Lemma wp_load l Q E w :
  wp (load l) Q E w =
  match heap w !! l with Some t => Q t w | None => E RuntimeError w end.
Proof. unfold wp, load. by destruct (heap w !! l). Qed.

Lemma wp_store l t Q E w :
  wp (store l t) Q E w = Q () (World (<[l:=t]> (heap w)) (pg w) (calls w)).
Proof. reflexivity. Qed.

Lemma wp_get_rank Q E w :
  wp get_rank Q E w =
  match pg w with Some p => Q p.2 w | None => E RuntimeError w end.
Proof. unfold wp, get_rank. by destruct (pg w). Qed.

Lemma wp_init_process_group b i n r Q E w :
  wp (init_process_group b i n r) Q E w =
  Q () (World (heap w) (Some (n, r)) (calls w ++ [InitProcessGroup b i n r])).
Proof. reflexivity. Qed.

Lemma wp_destroy_process_group Q E w :
  wp destroy_process_group Q E w =
  Q () (World (heap w) None (calls w ++ [DestroyProcessGroup])).
Proof. reflexivity. Qed.

Lemma wp_mono {A} (m : M A) (Q Q' : A → world → Prop) (E E' : exn → world → Prop) w :
  wp m Q E w →
  (∀ a w', Q a w' → Q' a w') →
  (∀ e w', E e w' → E' e w') →
  wp m Q' E' w.
Proof. unfold wp. destruct (m w) as [[a|e] w']; eauto. Qed.

(** A loop with an invariant over the items already handled. *)
Lemma wp_foldM_prefix {A S} (body : S → A → M S) (xs : list A)
    (I : list A → S → world → Prop) E :
  (∀ pre x post s w, xs = pre ++ x :: post → I pre s w →
     wp (body s x) (I (pre ++ [x])) E w) →
  ∀ s w, I [] s w → wp (foldM body s xs) (I xs) E w.
Proof.
  intros Hbody.
  enough (∀ post pre s w, xs = pre ++ post → I pre s w →
            wp (foldM body s post) (I xs) E w) as Hgen.
  { intros s w HI. by apply (Hgen xs []). }
  induction post as [|x post IH]; intros pre s w Hxs HI; simpl.
  - rewrite wp_ret. by rewrite Hxs, app_nil_r.
  - rewrite wp_bind. eapply wp_mono; [by eapply Hbody| |done].
    intros s' w' HI'. apply (IH (pre ++ [x])); [|done].
    by rewrite <-app_assoc.
Qed.

Lemma wp_foldM {A S} (body : S → A → M S) (xs : list A)
    (I : S → world → Prop) E :
  (∀ x s w, x ∈ xs → I s w → wp (body s x) I E w) →
  ∀ s w, I s w → wp (foldM body s xs) I E w.
Proof.
  intros Hbody s w HI.
  apply (wp_foldM_prefix body xs (λ _, I)); [|done].
  intros pre x post s' w' -> HI'. apply Hbody; [|done].
  apply elem_of_app. right. by left.
Qed.

Lemma wp_forM_ {A} (xs : list A) (body : A → M unit) (I : world → Prop) E :
  (∀ x w, x ∈ xs → I w → wp (body x) (λ _, I) E w) →
  ∀ w, I w → wp (forM_ xs body) (λ _, I) E w.
Proof.
  intros Hbody w HI. unfold forM_.
  by apply (wp_foldM _ xs (λ _, I)); [intros x [] w'; apply Hbody|].
Qed.

Lemma wp_mapM {A B} (f : A → M B) (xs : list A) (I : world → Prop) E :
  (∀ x w, x ∈ xs → I w → wp (f x) (λ _, I) E w) →
  ∀ w, I w → wp (mapM f xs) (λ ys w', length ys = length xs ∧ I w') E w.
Proof.
  induction xs as [|x xs IH]; intros Hf w HI; simpl.
  - by rewrite wp_ret.
  - rewrite wp_bind. eapply wp_mono; [apply Hf; [by left|done]| |done].
    intros y w' HI'. rewrite wp_bind.
    eapply wp_mono; [apply IH; [|done]| |done].
    + intros x' w'' Hx'. apply Hf. by right.
    + intros ys w'' [Hlen HI'']. rewrite wp_ret. simpl. by rewrite Hlen.
Qed.

End Wp.

(** ** The call log and the tensor store along a run *)

Section Facts.
Context `{Library}.

Lemma count_if_app p cs cs' :
  count_if p (cs ++ cs') = (count_if p cs + count_if p cs')%nat.
Proof. unfold count_if. by rewrite List.filter_app, length_app. Qed.

Lemma extends_refl R w : extends R w w.
Proof. exists []. by rewrite app_nil_r. Qed.

Lemma extends_impl (R R' : call → Prop) w w' :
  (∀ c, R c → R' c) → extends R w w' → extends R' w w'.
Proof. intros HR (n & E & F). exists n. split; [done|]. eapply Forall_impl; eauto. Qed.

Lemma heap_keeps_refl w : heap_keeps w w.
Proof. by split. Qed.

Lemma heap_keeps_alloc w w' t p c :
  heap_keeps w w' → heap_keeps w (World (heap w' ++ [t]) p c).
Proof.
  intros [Hlen Hl]. split; simpl.
  - rewrite length_app. lia.
  - intros l Hlt. rewrite lookup_app_l by lia. by apply Hl.
Qed.

Lemma heap_keeps_store w w' y t p c :
  heap_keeps w w' → (length (heap w) ≤ y)%nat →
  heap_keeps w (World (<[y:=t]> (heap w')) p c).
Proof.
  intros [Hlen Hl] Hy. split; simpl.
  - by rewrite length_insert.
  - intros l Hlt. rewrite list_lookup_insert_ne by lia. by apply Hl.
Qed.

Lemma heap_keeps_same w w' p c :
  heap_keeps w w' → heap_keeps w (World (heap w') p c).
Proof. done. Qed.

(** [y[nodes] = h] keeps the number of rows. *)
Lemma length_index_assign {A} (rs : list A) (ps : list (nat * A)) :
  length (foldl (λ rs '(i, r), <[i:=r]> rs) rs ps) = length rs.
Proof.
  revert rs. induction ps as [|[i r] ps IH]; intros rs; simpl; [done|].
  by rewrite IH, length_insert.
Qed.

End Facts.

Ltac wp_prim :=
  repeat (rewrite ?wp_bind, ?wp_ret, ?wp_raise, ?wp_lift, ?wp_log, ?wp_alloc,
            ?wp_load, ?wp_store, ?wp_get_rank, ?wp_init_process_group,
            ?wp_destroy_process_group; cbv beta).

(** ** Weakest preconditions of the helpers *)

Section WpHelpers.
Context `{Library}.

Lemma wp_ndata_get g key Q E w :
  wp (ndata_get g key) Q E w =
  match ndata g !! key with Some l => Q l w | None => E KeyError w end.
Proof. unfold ndata_get. wp_prim. by destruct (ndata g !! key). Qed.

Lemma wp_ndata_set g key l Q E w :
  wp (ndata_set g key l) Q E w =
  Q (Graph (num_nodes g) (g_dev g) (<[key:=l]> (ndata g)))
    (World (heap w) (pg w) (calls w ++ [NdataSet key])).
Proof. unfold ndata_set. by wp_prim. Qed.

Lemma wp_ndata_pop g key Q E w :
  wp (ndata_pop g key) Q E w =
  match ndata g !! key with
  | Some l => Q (l, Graph (num_nodes g) (g_dev g) (delete key (ndata g)))
                (World (heap w) (pg w) (calls w ++ [NdataPop key]))
  | None => E KeyError w
  end.
Proof.
  unfold ndata_pop. wp_prim. rewrite wp_ndata_get.
  destruct (ndata g !! key); [by wp_prim|done].
Qed.

Lemma wp_shared_tensor n c Q E w :
  wp (shared_tensor n c) Q E w =
  if (c <? 0)%Z
  then E RuntimeError (World (heap w) (pg w) (calls w ++ [SharedTensor n c]))
  else Q (length (heap w))
         (World (heap w ++ [Tensor Cpu c (replicate n row0)]) (pg w)
                (calls w ++ [SharedTensor n c])).
Proof. unfold shared_tensor. wp_prim. destruct (c <? 0)%Z; by wp_prim. Qed.

Lemma wp_tensor_to l d Q E w :
  wp (tensor_to l d) Q E w =
  match heap w !! l with
  | Some t => if decide (t_dev t = d) then Q l w
              else Q (length (heap w))
                     (World (heap w ++ [Tensor d (t_dim1 t) (t_rows t)]) (pg w)
                            (calls w))
  | None => E RuntimeError w
  end.
Proof.
  unfold tensor_to. wp_prim. destruct (heap w !! l) as [t|]; [|done].
  destruct (decide (t_dev t = d)); by wp_prim.
Qed.

Lemma wp_iterate dl n Q E w :
  wp (iterate dl n) Q E w =
  match pg w with
  | Some p => Q (batches p.2 dl n) w
  | None => E RuntimeError w
  end.
Proof. unfold iterate. wp_prim. destruct (pg w); by wp_prim. Qed.

Lemma wp_gather l nodes Q E w :
  wp (gather l nodes) Q E w =
  match heap w !! l with
  | Some t => match mapR (Py.index (t_rows t)) nodes with
              | Ok rs => Q rs w
              | Raise e => E e w
              end
  | None => E RuntimeError w
  end.
Proof. unfold gather. wp_prim. destruct (heap w !! l); by wp_prim. Qed.

(** Reading rows changes nothing. *)
Lemma wp_prefetched_pure g key nodes (I : world → Prop) w :
  I w → wp (prefetched g key nodes) (λ _, I) (λ _, I) w.
Proof.
  intros HI. unfold prefetched. wp_prim. rewrite wp_ndata_get.
  destruct (ndata g !! key); [|done]. rewrite wp_gather.
  destruct (heap w !! _); [|done]. by destruct (mapR _ _).
Qed.

Lemma wp_gather_pure l nodes (I : world → Prop) w :
  I w → wp (gather l nodes) (λ _, I) (λ _, I) w.
Proof.
  intros HI. rewrite wp_gather.
  destruct (heap w !! _); [|done]. by destruct (mapR _ _).
Qed.

Lemma wp_index_put y nodes h Q E w :
  wp (index_put y nodes h) Q E w =
  match heap w !! y with
  | Some t =>
      if negb (forallb (λ i, i <? length (t_rows t))%nat nodes) then E IndexError w
      else if negb (length nodes =? length h)%nat then E RuntimeError w
      else Q () (World (<[y:=Tensor (t_dev t) (t_dim1 t)
                           (foldl (λ rs '(i, r), <[i:=r]> rs) (t_rows t) (zip nodes h))]>
                          (heap w)) (pg w) (calls w))
  | None => E RuntimeError w
  end.
Proof.
  unfold index_put. wp_prim. destruct (heap w !! y) as [t|]; [|done].
  destruct (negb (forallb _ _)); [by wp_prim|].
  destruct (negb (_ =? _)%nat); by wp_prim.
Qed.

End WpHelpers.

Ltac wp_simp :=
  repeat (rewrite ?wp_bind, ?wp_ret, ?wp_raise, ?wp_lift, ?wp_log, ?wp_alloc,
            ?wp_load, ?wp_store, ?wp_get_rank, ?wp_init_process_group,
            ?wp_destroy_process_group, ?wp_ndata_get, ?wp_ndata_set,
            ?wp_ndata_pop, ?wp_shared_tensor, ?wp_tensor_to, ?wp_iterate,
            ?wp_gather, ?wp_index_put; cbv beta).

(** ** Layer-wise inference *)

Section Inference.
Context `{Library}.

Ltac log_ext Hc :=
  eexists; split; [simpl; rewrite Hc, <-?app_assoc; reflexivity|].

Lemma inference_layers_spec layers width post g device batch_size use_uva w :
  wp (inference_layers layers width post g device batch_size use_uva)
     (λ r w', inference_returned (length layers) g device batch_size use_uva w r.1 r.2 w')
     (λ _ w', inference_raised g device batch_size use_uva w w')
     w.
Proof.
  unfold inference_layers. wp_simp.
  destruct (ndata g !! "features") as [feats|] eqn:Hfeats.
  2:{ split; [apply extends_refl|done]. }
  wp_simp.
  eapply (wp_mono _ _ _ (λ _ w', inference_raised g device batch_size use_uva w w')).
  - apply (wp_foldM_prefix _ _ (inference_inv g device batch_size use_uva w)).
    + intros pre [l layer] rest [yo gi] wi Hxs
        (new & hl & Hc & HF & Hs & Hd & Hp & Hg & Hk & Hpg & Hy).
      simpl in Hg. subst gi. clear Hy yo.
      set (gi := Graph _ _ _).
      assert (inference_call (num_nodes g) (g_dev g) device batch_size use_uva
                (NewDataLoader (DataLoader gi (arange (num_nodes gi) (Cuda device))
                   (MultiLayerFullNeighborSampler 1 ["h"]) device batch_size
                   false false 0 true use_uva))) as Hdl.
      { by exists gi. }
      wp_simp. destruct (width l) as [c|e].
      2:{ split; [|done]. log_ext Hc. apply Forall_app. split; [done|]. by repeat constructor. }
      wp_simp. destruct (c <? 0)%Z.
      { split; [|done]. log_ext Hc. apply Forall_app. split; [done|]. by repeat constructor. }
      wp_simp. cbn [pg heap calls]. destruct (pg wi) as [[ws rank]|] eqn:Hpgi.
      2:{ split; [|done]. log_ext Hc. apply Forall_app. split; [done|]. by repeat constructor. }
      wp_simp. cbn [pg heap calls snd].
      set (y := length (heap wi)).
      set (items := if decide (rank = 0%nat) is left _ then _ else _).
      set (wa := World _ _ _).
      set (J := λ wj : world,
        calls wj = calls wa ∧ pg wj = pg wa ∧ heap_keeps w wj ∧
        ∃ t, heap wj !! y = Some t ∧ length (t_rows t) = num_nodes g).
      assert (J wa) as HJ.
      { split; [done|]. split; [done|]. split; [by apply heap_keeps_alloc|].
        eexists. split; [apply list_lookup_middle; done|]. simpl.
        by rewrite length_replicate. }
      assert (length (heap w) ≤ y)%nat as Hwy by apply Hk.
      rewrite wp_bind.
      eapply (wp_mono _ (λ _, J) _ (λ _, J)).
      * apply wp_forM_; [|done]. clear HJ. intros b wj _ HJ. wp_simp.
        destruct (Py.index (blocks b) 0) as [blk|e]; [|done].
        wp_simp. eapply wp_mono; [by apply wp_prefetched_pure| |done].
        intros x wj' HJ'. cbv beta. wp_simp.
        pose proof HJ' as (Hcj & Hpj & Hkj & t & Hyt & Hlen). rewrite Hyt.
        destruct (negb (forallb _ _)); [done|].
        destruct (negb (_ =? _)%nat); [done|].
        split; [done|]. split; [done|]. split; [by apply heap_keeps_store|].
        eexists. cbn [heap]. split.
        { apply list_lookup_insert_eq. by eapply lookup_lt_Some. }
        simpl. by rewrite length_index_assign.
      * clear HJ. intros _ wj (Hcj & Hpj & Hkj & t & Hyt & Hlen). wp_simp.
        assert (∀ a hp, heap_keeps w (World hp (pg wj) []) → hp !! y = Some t →
          inference_inv g device batch_size use_uva w (pre ++ [(l, layer)])
            (Some y, Graph (num_nodes gi) (g_dev gi) (<["h":=a]> (ndata gi)))
            (World hp (pg wj) ((calls wj ++ [Barrier]) ++ [NdataSet "h"]))) as Hfin.
        { intros a hp Hkeep Hlook.
          exists (new ++ [NewDataLoader (DataLoader gi (arange (num_nodes gi) (Cuda device))
                   (MultiLayerFullNeighborSampler 1 ["h"]) device batch_size
                   false false 0 true use_uva); SharedTensor (num_nodes gi) c;
                   Barrier; NdataSet "h"]), a.
          split. { cbn [calls]. rewrite Hcj. unfold wa. cbn [calls]. rewrite Hc.
                   by rewrite <-!app_assoc. }
          split. { apply Forall_app. split; [done|]. by repeat constructor. }
          rewrite !count_if_app, !length_app, Hs, Hd, Hp. cbn.
          split; [lia|]. split; [lia|]. split; [done|].
          split. { unfold gi. cbn. by rewrite insert_insert_eq. }
          split; [done|]. split. { cbn. rewrite Hpj. unfold wa. by cbn. }
          cbn. eauto. }
        destruct use_uva.
        -- wp_simp. apply Hfin; [|done]. by apply heap_keeps_same.
        -- wp_simp. cbn [heap pg calls]. rewrite Hyt.
           destruct (decide (t_dev t = Cuda device)).
           ++ wp_simp. apply Hfin; [|done]. by apply heap_keeps_same.
           ++ wp_simp. cbn [heap pg calls]. apply Hfin.
              ** by apply heap_keeps_alloc.
              ** rewrite lookup_app_l; [done|]. by eapply lookup_lt_Some.
      * intros e wj (Hcj & Hpj & Hkj & _). split.
        -- exists (new ++ [NewDataLoader (DataLoader gi (arange (num_nodes gi) (Cuda device))
                   (MultiLayerFullNeighborSampler 1 ["h"]) device batch_size
                   false false 0 true use_uva); SharedTensor (num_nodes gi) c]).
           split. { rewrite Hcj. unfold wa. cbn [calls]. rewrite Hc.
                    by rewrite <-!app_assoc. }
           apply Forall_app. split; [done|]. by repeat constructor.
        -- rewrite Hpj. unfold wa. by cbn.
    + exists [NdataSet "h"], feats. cbn. split; [done|].
      split; [by repeat constructor|]. do 4 (split; [done|]).
      split; [by apply heap_keeps_same, heap_keeps_refl|]. done.
  - intros [yo gf] wf (new & hl & Hc & HF & Hs & Hd & Hp & Hg & Hk & Hpg & Hy).
    cbn in Hg, Hy. subst gf. wp_simp. cbn [ndata].
    rewrite lookup_insert_eq. destruct yo as [y|].
    + wp_simp. destruct Hy as (t & Hyt & Hlen). exists (new ++ [NdataPop "h"]), t.
      cbn. split; [by rewrite Hc, <-app_assoc|].
      split. { apply Forall_app. split; [done|]. by repeat constructor. }
      rewrite !count_if_app, Hs, Hd, Hp. cbn.
      unfold enumerate. rewrite length_zip, length_seq, Nat.min_id.
      split; [lia|]. split; [lia|]. split; [done|].
      split; [by rewrite last_snoc|]. split; [by rewrite delete_insert_eq|].
      done.
    + wp_simp. split; [|done]. exists (new ++ [NdataPop "h"]). cbn.
      split; [by rewrite Hc, <-app_assoc|].
      apply Forall_app. split; [done|]. by repeat constructor.
  - done.
Qed.

End Inference.

(** ** The call log of [train], [layerwise_infer] and [run] *)

Section Logs.
Context `{Library}.

Lemma logs_after_start R h p c0 : logs_after R c0 (World h p c0).
Proof. exists []. by rewrite app_nil_r. Qed.

Lemma logs_after_log R c0 w' h p c :
  logs_after R c0 w' → R c → logs_after R c0 (World h p (calls w' ++ [c])).
Proof.
  intros (n & E & F) Hc. exists (n ++ [c]). cbn.
  split; [by rewrite E, app_assoc|]. apply Forall_app. split; [done|by constructor].
Qed.

Lemma logs_after_extends R c0 w w' :
  logs_after R c0 w → extends R w w' → logs_after R c0 w'.
Proof.
  intros (n1 & E1 & F1) (n2 & E2 & F2). exists (n1 ++ n2).
  split; [by rewrite E2, E1, app_assoc|by apply Forall_app].
Qed.

Lemma evaluate_spec device m g num_classes dl n c0 w :
  logs_after train_loop_call c0 w →
  wp (evaluate device m g num_classes dl n)
     (λ _, logs_after train_loop_call c0)
     (λ _, logs_after train_loop_call c0) w.
Proof.
  intros Hw. unfold evaluate. wp_simp. cbn [pg heap calls].
  assert (logs_after train_loop_call c0
            (World (heap w) (pg w) (calls w ++ [ModelEval]))) as Hw'
    by by apply logs_after_log.
  destruct (pg w) as [p|]; [|done]. wp_simp.
  eapply (wp_mono _ _ _ (λ _, logs_after train_loop_call c0)).
  - apply (wp_mapM _ _ (logs_after train_loop_call c0)); [|done].
    intros b wj _ Hwj. wp_simp.
    destruct (Py.index (blocks b) 0); [|done]. wp_simp.
    eapply wp_mono; [by apply wp_prefetched_pure| |done].
    intros x wk Hwk. cbv beta. wp_simp.
    destruct (Py.index_last (blocks b)); [|done]. wp_simp.
    eapply wp_mono; [by apply wp_prefetched_pure| |done].
    intros y wl Hwl. cbv beta. by wp_simp.
  - intros y_hats wj [_ Hwj]. cbv beta. wp_simp.
    destruct (decide (y_hats = [])); wp_simp; [done|].
    by apply logs_after_log.
  - done.
Qed.

Lemma train_spec proc_id nprocs device a g num_classes train_idx val_idx m
    use_uva w :
  let c0 := calls w ++ train_setup_calls a g device train_idx val_idx use_uva in
  wp (train proc_id nprocs device a g num_classes train_idx val_idx m use_uva)
     (λ _, logs_after train_loop_call c0)
     (λ _, logs_after train_loop_call c0) w.
Proof.
  intros c0. unfold train. cbv zeta. wp_simp. cbn [pg heap calls].
  assert (∀ h p, logs_after train_loop_call c0
            (World h p
               (((calls w
                  ++ [NewDataLoader
                        (DataLoader g train_idx (train_sampler a) device 1000
                                    true false (num_workers a) true use_uva)])
                 ++ [NewDataLoader
                       (DataLoader g val_idx (train_sampler a) device 1000
                                   true false (num_workers a) true use_uva)])
                ++ [Adam (3 # 1000) (5 # 10000)]))) as Hstart.
  { intros h p. unfold c0, train_setup_calls. rewrite <-!app_assoc.
    apply logs_after_start. }
  eapply (wp_mono _ _ _ (λ _, logs_after train_loop_call c0)).
  - apply (wp_foldM _ _ (λ _, logs_after train_loop_call c0)); [|apply Hstart].
    intros epoch it wi _ Hwi. wp_simp. cbn [pg heap calls].
    destruct (pg wi) as [p|]; [|by apply logs_after_log]. wp_simp.
    eapply (wp_mono _ _ _ (λ _, logs_after train_loop_call c0)).
    + apply (wp_foldM _ _ (λ _, logs_after train_loop_call c0));
        [|by apply logs_after_log].
      intros [i b] it' wj _ Hwj. wp_simp.
      destruct (Py.index (blocks b) 0); [|done]. wp_simp.
      eapply wp_mono; [by apply wp_prefetched_pure| |done].
      intros x wk Hwk. cbv beta. wp_simp.
      destruct (Py.index_last (blocks b)); [|done]. wp_simp.
      eapply wp_mono; [by apply wp_prefetched_pure| |done].
      intros y wl Hwl. cbv beta. wp_simp.
      by repeat (apply logs_after_log; [|done]).
    + intros it' wj Hwj. cbv beta. wp_simp.
      eapply wp_mono; [by apply (evaluate_spec _ _ _ _ _ _ c0)| |done].
      intros [] wk Hwk. cbv beta. wp_simp.
      assert (logs_after train_loop_call c0
                (World (heap wk) (pg wk) (calls wk ++ [Reduce 0]))) as Hred
        by by apply logs_after_log.
      destruct (decide (proc_id = 0%nat)); [destruct it'|]; wp_simp; try done.
      by apply logs_after_log.
    + done.
  - intros it wi Hwi. cbv beta. wp_simp.
    assert (logs_after train_loop_call c0
              (World (heap wi) (pg wi) (calls wi ++ [Reduce 0]))) as Hred
      by by apply logs_after_log.
    destruct (decide (proc_id = 0%nat)); wp_simp; [|done].
    destruct (ids_len train_idx); wp_simp; [|done].
    by apply logs_after_log.
  - done.
Qed.

Lemma logs_after_rebase (R R' : call → Prop) c0 pre w w' :
  logs_after R c0 w →
  logs_after R' (calls w ++ pre) w' →
  Forall R pre → (∀ c, R' c → R c) →
  logs_after R c0 w'.
Proof.
  intros (n1 & E1 & F1) (n2 & E2 & F2) Hpre HR. exists (n1 ++ pre ++ n2).
  split; [by rewrite E2, E1, <-!app_assoc|].
  repeat (apply Forall_app; split); [done..|]. eapply Forall_impl; eauto.
Qed.

Lemma graph_to_spec g d w :
  wp (graph_to g d)
     (λ g' w', num_nodes g' = num_nodes g ∧ g_dev g' = d ∧
               calls w' = calls w ++ [GraphTo d] ∧ pg w' = pg w)
     (λ _ w', calls w' = calls w ++ [GraphTo d] ∧ pg w' = pg w) w.
Proof.
  unfold graph_to. wp_simp. destruct (decide (g_dev g = d)); wp_simp; [done|].
  eapply (wp_mono _ _ _ (λ _ w', calls w' = calls w ++ [GraphTo d] ∧ pg w' = pg w)).
  - apply (wp_mapM _ _ (λ w', calls w' = calls w ++ [GraphTo d] ∧ pg w' = pg w));
      [|done].
    intros [k l] wi _ [Hc Hp]. wp_simp. cbn [snd fst].
    destruct (heap wi !! l) as [t|]; [|done].
    destruct (decide (t_dev t = d)); by wp_simp.
  - intros kls wi [_ [Hc Hp]]. by wp_simp.
  - done.
Qed.

Lemma model_inference_spec m g device batch_size use_uva w :
  wp (model_inference m g device batch_size use_uva)
     (λ r w', inference_returned (length (model_layers m)) g device batch_size
                use_uva w r.1 r.2 w')
     (λ _ w', inference_raised g device batch_size use_uva w w')
     w.
Proof. destruct m; apply inference_layers_spec. Qed.

Lemma layerwise_infer_spec proc_id device g num_classes nid m (use_uva : bool) path
    batch_size w :
  let c0 := calls w ++ ModelEval :: (if use_uva then @nil call else [GraphTo (Cuda device)]) in
  let d := if use_uva then g_dev g else Cuda device in
  wp (layerwise_infer proc_id device g num_classes nid m use_uva path batch_size)
     (λ _, logs_after (layerwise_call (num_nodes g) d device batch_size use_uva) c0)
     (λ _, logs_after (layerwise_call (num_nodes g) d device batch_size use_uva) c0)
     w.
Proof.
  intros c0 d. unfold layerwise_infer. wp_simp.
  set (R := layerwise_call (num_nodes g) d device batch_size use_uva).
  eapply (wp_mono _ (λ g1 w1, num_nodes g1 = num_nodes g ∧ g_dev g1 = d ∧
                              logs_after R c0 w1) _ (λ _, logs_after R c0)).
  - destruct use_uva; cbn [negb].
    + wp_simp. do 2 (split; [done|]). unfold c0. apply logs_after_start.
    + eapply wp_mono; [apply graph_to_spec| |].
      * intros g1 w1 (Hn & Hd & Hc & Hp). do 2 (split; [done|]).
        exists []. rewrite app_nil_r. split; [|done]. rewrite Hc. cbn.
        unfold c0. by rewrite <-app_assoc.
      * intros e w1 [Hc Hp]. exists []. rewrite app_nil_r. split; [|done].
        rewrite Hc. cbn. unfold c0. by rewrite <-app_assoc.
  - intros g1 w1 (Hn & Hd & Hw1). rewrite wp_bind.
    eapply wp_mono; [apply model_inference_spec| |].
    + intros [pred g2] w2 (new & t & Hc & HF & _). cbv beta.
      assert (logs_after R c0 w2) as Hw2.
      { eapply logs_after_extends; [done|]. exists new. split; [done|].
        eapply Forall_impl; [done|]. intros c Hc'. left. by rewrite <-Hn, <-Hd. }
      rewrite wp_bind. eapply wp_mono; [by apply wp_gather_pure| |done].
      intros rs3 w3 Hw3. cbv beta. wp_simp.
      destruct (ndata g2 !! "labels"); [|done].
      rewrite wp_bind. eapply wp_mono; [by apply wp_gather_pure| |done].
      intros rs4 w4 Hw4. cbv beta.
      destruct (decide (proc_id = 0%nat)); wp_simp; [|done].
      apply logs_after_log; [|by right]. apply logs_after_log; [done|by right].
    + intros e w2 [Hext _]. eapply logs_after_extends; [done|].
      eapply extends_impl; [|done]. intros c Hc'. left. by rewrite <-Hn, <-Hd.
  - done.
Qed.

Lemma logs_after_calls R c0 w w' cs :
  logs_after R c0 w → calls w' = calls w ++ cs → Forall R cs →
  logs_after R c0 w'.
Proof.
  intros (n & E & F) Hc Hcs. exists (n ++ cs).
  split; [by rewrite Hc, E, app_assoc|by apply Forall_app].
Qed.

Lemma wp_max_item_pure l (I : world → Prop) w :
  I w → wp (max_item l) (λ _, I) (λ _, I) w.
Proof.
  intros HI. unfold max_item. wp_simp. destruct (heap w !! l) as [t|]; [|done].
  by destruct (t_rows t); wp_simp.
Qed.

Lemma wp_nonzero_squeeze_pure l (I : world → Prop) w :
  I w → wp (nonzero_squeeze l) (λ _, I) (λ _, I) w.
Proof.
  intros HI. unfold nonzero_squeeze. wp_simp.
  by destruct (heap w !! l) as [t|]; wp_simp.
Qed.

Lemma run_prepare_spec proc_id nprocs devices g a d w :
  devices !! proc_id = Some d →
  let c0 := calls w ++ run_start proc_id nprocs d in
  wp (run_prepare proc_id nprocs devices g a)
     (λ p w', p_device p = d ∧ logs_after (run_call a) c0 w')
     (λ _, logs_after (run_call a) c0) w.
Proof.
  intros Hd c0. unfold run_prepare, Py.index. rewrite Hd. cbn [of_option].
  wp_simp. cbn [pg heap calls].
  set (R := logs_after (run_call a) c0).
  assert (R (World (heap w) (Some (nprocs, proc_id))
     ((calls w ++ [CudaSetDevice d]) ++
      [InitProcessGroup "nccl" "tcp://127.0.0.1:12345" nprocs proc_id]))) as Hw0.
  { unfold R, c0, run_start. rewrite <-app_assoc. apply logs_after_start. }
  revert Hw0. generalize (World (heap w) (Some (nprocs, proc_id))
     ((calls w ++ [CudaSetDevice d]) ++
      [InitProcessGroup "nccl" "tcp://127.0.0.1:12345" nprocs proc_id])).
  intros w0 Hw0.
  destruct (ndata g !! "labels") as [labels|]; [|done]. wp_simp.
  eapply (wp_mono _ (λ _, R) _ (λ _, R)); [by apply wp_max_item_pure| |done].
  intros mx w1 Hw1. cbv beta. wp_simp.
  destruct (ndata g !! "train_mask") as [t1|]; [|done]. wp_simp.
  eapply (wp_mono _ (λ _, R) _ (λ _, R));
    [apply wp_nonzero_squeeze_pure; by apply logs_after_log| |done].
  intros train_idx w2 Hw2. cbv beta. wp_simp. cbn [ndata].
  destruct (delete "train_mask" (ndata g) !! "val_mask") as [t2|]; [|done]. wp_simp.
  eapply (wp_mono _ (λ _, R) _ (λ _, R));
    [apply wp_nonzero_squeeze_pure; by apply logs_after_log| |done].
  intros val_idx w3 Hw3. cbv beta. wp_simp. cbn [ndata].
  destruct (delete "val_mask" _ !! "test_mask") as [t3|]; [|done]. wp_simp.
  eapply (wp_mono _ (λ _, R) _ (λ _, R));
    [apply wp_nonzero_squeeze_pure; by apply logs_after_log| |done].
  intros test_idx w4 Hw4. cbv beta. wp_simp.
  eapply (wp_mono _ (λ _, R) _ (λ _, R)).
  - destruct (negb _); wp_simp; [|done].
    eapply wp_mono; [apply graph_to_spec| |].
    + intros g1 w5 (_ & _ & Hc & _). wp_simp.
      eapply logs_after_calls; [done..|]. by repeat constructor.
    + intros e w5 [Hc _]. eapply logs_after_calls; [done..|]. by repeat constructor.
  - intros [[train_idx' val_idx'] g1] w5 Hw5. wp_simp.
    destruct (ndata g1 !! "features") as [features|]; [|done]. wp_simp.
    destruct (heap w5 !! features); [|done]. by wp_simp.
  - done.
Qed.

Lemma build_model_spec a in_size num_classes device c0 w :
  logs_after (run_call a) c0 w →
  wp (build_model a in_size num_classes device)
     (λ om w', logs_after (run_call a) c0 w' ∧ ∀ m, om = Some m → selected a m)
     (λ _, logs_after (run_call a) c0) w.
Proof.
  intros Hw. unfold build_model.
  destruct (String.eqb (model_name a) "sage") eqn:Hsage.
  - apply String.eqb_eq in Hsage. cbv zeta. wp_simp.
    assert (selected a (Sage (SAGE_init in_size (hidden_dim a) num_classes))) as Hsel
      by (left; eauto).
    split; [by apply logs_after_log|]. by intros m [= <-].
  - destruct (String.eqb (model_name a) "gat") eqn:Hgat; [|by wp_simp].
    apply String.eqb_eq in Hgat. wp_simp.
    destruct (GAT_init _ _ _ _ _ _ _) as [self|e] eqn:Hinit; [|done]. wp_simp.
    assert (selected a (Gat self)) as Hsel by (right; eauto 10).
    split; [by apply logs_after_log|]. by intros m [= <-].
Qed.

Lemma train_loop_call_run a c : train_loop_call c → run_call a c.
Proof. by destruct c. Qed.

Lemma layerwise_call_run a n d device batch_size c :
  layerwise_call n d device batch_size (String.eqb (mode a) "mixed") c →
  run_call a c.
Proof. intros [Hc|Hc]; destruct c; try done. by destruct Hc as (g' & -> & _). Qed.

Lemma run_model_spec proc_id nprocs a p om c0 w :
  logs_after (run_call a) c0 w →
  (∀ m, om = Some m → selected a m) →
  wp (run_model proc_id nprocs a p om)
     (λ _, logs_after (run_call a) c0)
     (λ _, logs_after (run_call a) c0) w.
Proof.
  intros Hw Hsel. unfold run_model. destruct om as [m|]; wp_simp; [|done].
  assert (logs_after (run_call a) c0
            (World (heap w) (pg w)
               (calls w ++ [DistributedDataParallel m [p_device p] (p_device p)])))
    as Hw1 by (apply logs_after_log; [done|by apply Hsel]).
  eapply (wp_mono _ (λ _, logs_after (run_call a) c0) _
                    (λ _, logs_after (run_call a) c0)).
  - eapply wp_mono; [apply train_spec| |].
    all: intros ? w2 Hw2; eapply logs_after_rebase;
      [exact Hw1|exact Hw2|by repeat constructor|apply train_loop_call_run].
  - intros [] w2 Hw2. rewrite wp_bind.
    eapply (wp_mono _ (λ _, logs_after (run_call a) c0) _
                      (λ _, logs_after (run_call a) c0)).
    + eapply wp_mono; [apply layerwise_infer_spec| |].
      all: intros ? w3 Hw3; eapply logs_after_rebase;
        [exact Hw2|exact Hw3| |apply layerwise_call_run].
      all: by destruct (String.eqb (mode a) "mixed"); repeat constructor.
    + intros [] w3 Hw3. wp_simp. by apply logs_after_log.
    + done.
  - done.
Qed.

(** The calls of [run]: the device is selected, the process group is
    initialised, and what follows obeys [run_call]. *)
Lemma run_spec proc_id nprocs devices g a d w :
  devices !! proc_id = Some d →
  wp (run proc_id nprocs devices g a)
     (λ _, logs_after (run_call a) (calls w ++ run_start proc_id nprocs d))
     (λ _, logs_after (run_call a) (calls w ++ run_start proc_id nprocs d)) w.
Proof.
  intros Hd. unfold run. rewrite wp_bind.
  eapply wp_mono; [by apply run_prepare_spec| |done].
  intros p w1 [_ Hw1]. cbv beta. rewrite wp_bind.
  eapply wp_mono; [by apply build_model_spec| |done].
  intros om w2 [Hw2 Hsel]. cbv beta. by apply run_model_spec.
Qed.

End Logs.

(** ** Command-line lists *)

Lemma split_length sep s : length (Py.split sep s) = S (Py.count sep s).
Proof.
  induction s as [|c s IH]; simpl; [done|].
  destruct (Ascii.eqb c sep); simpl; [by rewrite IH|].
  destruct (Py.split sep s); simpl in *; lia.
Qed.

Lemma mapR_length {A B} (f : A → result B) xs ys :
  mapR f xs = Ok ys → length ys = length xs.
Proof.
  revert ys. induction xs as [|x xs IH]; intros ys; simpl; [by intros [= <-]|].
  destruct (f x) as [y|]; [|done]. simpl.
  destruct (mapR f xs) as [ys'|]; [|done]. simpl. intros [= <-]. simpl.
  by rewrite (IH ys').
Qed.

Lemma mapR_ok {A B} (f : A → result B) xs :
  (∀ x, x ∈ xs → ∃ y, f x = Ok y) →
  ∃ ys, mapR f xs = Ok ys ∧ length ys = length xs.
Proof.
  induction xs as [|x xs IH]; intros Hf; simpl; [by exists []|].
  destruct (Hf x) as [y Hy]; [by left|]. rewrite Hy. simpl.
  destruct IH as (ys & -> & Hlen); [intros x' Hx'; apply Hf; by right|].
  exists (y :: ys). simpl. by rewrite Hlen.
Qed.

Lemma int_list_length s zs :
  int_list s = Ok zs → length zs = S (Py.count "," s).
Proof.
  unfold int_list. intros Hzs. apply mapR_length in Hzs.
  by rewrite Hzs, split_length.
Qed.

Section Main.
Context `{Library}.

Lemma mp_spawn_length {A} (x : A) n : length (mp_spawn x n) = n.
Proof. unfold mp_spawn. by rewrite length_fmap, length_seq. Qed.

Lemma mp_spawn_lookup {A} (x : A) n p :
  (p < n)%nat → mp_spawn x n !! p = Some (p, x).
Proof.
  intros Hp. unfold mp_spawn. rewrite list_lookup_fmap, lookup_seq_lt by done.
  done.
Qed.

Lemma materialise_returns sg w :
  wp (materialise sg) (λ g _, num_nodes g = sg_nodes sg) (λ _ _, False) w.
Proof.
  unfold materialise. wp_simp.
  eapply (wp_mono _ _ _ (λ _ _, False)).
  - apply (wp_mapM _ _ (λ _, True)); [|done]. intros kt wi _ _. by wp_simp.
  - intros kls wi _. by wp_simp.
  - done.
Qed.

(** The main block reaches [mp.spawn] and hands it one call of [run] per
    parsed device id. *)
Lemma main_spec c e w head devices sg sgs :
  cli_mode c ∈ mode_choices →
  int_list (cli_head c) = Ok head →
  int_list (cli_gpu c) = Ok devices →
  cuda_is_available e = true →
  load_graphs e ("/home/ubuntu/workspace/partition_dataset/"
                 +:+ cli_dataset_name c +:+ "_graph.dgl") = Ok (sg :: sgs) →
  wp (main c e)
     (λ workers _, ∃ g,
        workers = mp_spawn (length devices, devices, g,
                            Args (cli_mode c) (cli_gpu c) (cli_model c)
                                 (cli_num_epochs c) (cli_dataset_name c)
                                 (cli_dataset_dir c) (cli_num_workers c)
                                 (cli_hidden_dim c) head)
                           (length devices))
     (λ _ _, False) w.
Proof.
  intros Hmode Hhead Hgpu Hcuda Hload. unfold main.
  rewrite decide_True by done. wp_simp. rewrite Hhead. cbv zeta. wp_simp.
  cbn [gpu dataset_name]. rewrite Hgpu. wp_simp. rewrite Hcuda. cbn [Py.assert].
  wp_simp. rewrite Hload. wp_simp. cbn [Py.index lookup list_lookup of_option].
  wp_simp.
  eapply wp_mono; [apply materialise_returns| |done].
  intros g w1 _. cbv beta. wp_simp.
  destruct (String.eqb (cli_dataset_name c) "mag240m"); wp_simp;
    destruct (String.eqb (cli_dataset_name c) "ogbn-arxiv"); wp_simp; eauto.
Qed.

End Main.

(** ** Lists of device ids on the command line *)

Lemma digit_not_space c : is_digit c = true → Py.is_space c = false.
Proof.
  unfold is_digit, Py.digit_of, Py.is_space.
  destruct ((48 <=? nat_of_ascii c)%nat && (nat_of_ascii c <=? 57)%nat) eqn:E;
    [|done].
  intros _. apply andb_true_iff in E as [E1 E2].
  apply Nat.leb_le in E1. apply Nat.leb_le in E2.
  apply orb_false_iff. split; apply andb_false_iff.
  - right. apply Nat.leb_gt. lia.
  - right. apply Nat.leb_gt. lia.
Qed.

Lemma digit_not_char c c' :
  is_digit c = true → is_digit c' = false → Ascii.eqb c c' = false.
Proof. intros Hc Hc'. destruct (Ascii.eqb_spec c c'); [congruence|done]. Qed.

Lemma lstrip_digits s : all_digits s = true → Py.lstrip s = s.
Proof.
  destruct s as [|c s]; [done|]. cbn. intros [Hc _]%andb_true_iff.
  by rewrite digit_not_space.
Qed.

Lemma string_app_cons a s t : String a s +:+ t = String a (s +:+ t).
Proof. reflexivity. Qed.

Lemma rev_app_rev_app s t u :
  String.rev_app (String.rev_app s t) u = String.rev_app t (s +:+ u).
Proof.
  revert t u. induction s as [|a s IH]; intros t u; cbn; [done|].
  by rewrite IH, string_app_cons.
Qed.

Lemma string_app_empty s : s +:+ "" = s.
Proof. induction s as [|a s IH]; [done|]. by rewrite string_app_cons, IH. Qed.

Lemma string_rev_involutive s : String.rev (String.rev s) = s.
Proof. unfold String.rev. by rewrite rev_app_rev_app, string_app_empty. Qed.

Lemma all_digits_rev_app s t :
  all_digits s = true → all_digits t = true →
  all_digits (String.rev_app s t) = true.
Proof.
  revert t. induction s as [|a s IH]; intros t; cbn; [done|].
  intros [Ha Hs]%andb_true_iff Ht. apply IH; [done|]. cbn. by rewrite Ha.
Qed.

Lemma strip_digits s : all_digits s = true → Py.strip s = s.
Proof.
  intros Hs. unfold Py.strip. rewrite (lstrip_digits s Hs).
  rewrite lstrip_digits; [apply string_rev_involutive|].
  by apply all_digits_rev_app.
Qed.

Lemma digits_decimal acc prev s :
  all_digits s = true → s ≠ "" ∨ prev = true →
  Py.digits acc prev s = Some (decimal acc s).
Proof.
  revert acc prev. induction s as [|c s IH]; intros acc prev; cbn.
  - by intros _ [?| ->].
  - intros [Hc Hs]%andb_true_iff _. unfold is_digit in Hc.
    destruct (Py.digit_of c) as [d|]; [|done]. apply IH; [done|by right].
Qed.

(** [int] reads a device id as the number it denotes. *)
Lemma int_device_id s : device_id s → Py.int s = Ok (decimal 0 s).
Proof.
  intros [Hne Hs]. unfold Py.int. rewrite (strip_digits s Hs).
  destruct s as [|c r]; [done|]. cbn in Hs. apply andb_true_iff in Hs as [Hc Hr].
  rewrite !(digit_not_char c) by done.
  rewrite digits_decimal; [done| |by left]. cbn. by rewrite Hc.
Qed.

Lemma split_no_sep sep s : Py.count sep s = 0%nat → Py.split sep s = [s].
Proof.
  induction s as [|c s IH]; cbn; [done|].
  destruct (Ascii.eqb c sep); [done|]. cbn. intros Hs. by rewrite IH.
Qed.

Lemma split_field sep f rest :
  Py.count sep f = 0%nat →
  Py.split sep (f +:+ String sep rest) = f :: Py.split sep rest.
Proof.
  induction f as [|c f IH]; intros Hf.
  - change (Py.split sep (String sep rest) = "" :: Py.split sep rest). cbn.
    by rewrite Ascii.eqb_refl.
  - rewrite string_app_cons. cbn in *.
    destruct (Ascii.eqb c sep); [done|]. by rewrite IH.
Qed.

Lemma split_join sep fields :
  fields ≠ [] → Forall (λ f, Py.count sep f = 0%nat) fields →
  Py.split sep (Py.join sep fields) = fields.
Proof.
  intros Hne HF. induction HF as [|f fs Hf HF IH]; [done|].
  destruct fs as [|f' fs]; cbn.
  - by apply split_no_sep.
  - rewrite split_field by done. f_equal. by apply IH.
Qed.

Lemma digits_no_comma s : all_digits s = true → Py.count "," s = 0%nat.
Proof.
  induction s as [|c s IH]; cbn; [done|]. intros [Hc Hs]%andb_true_iff.
  by rewrite (digit_not_char c ","), IH.
Qed.

(** X1. A [--gpu] argument that lists [n] device ids separated by commas
    is read as the list of these [n] numbers. *)
Lemma int_list_device_ids fields :
  fields ≠ [] → Forall device_id fields →
  int_list (Py.join "," fields) = Ok (decimal 0 <$> fields).
Proof.
  intros Hne HF. unfold int_list. rewrite split_join; [|done|].
  2:{ eapply Forall_impl; [done|]. intros f [_ Hf]. by apply digits_no_comma. }
  clear Hne. induction HF as [|f fs Hf HF IH]; [done|].
  cbn. rewrite (int_device_id f Hf). cbn. by rewrite IH.
Qed.

(** ** Inference returns

    On a process with an initialised process group, a graph whose
    ["features"] column has one row per node, non-negative layer widths and
    a data loader whose items stay within the graph, the loop of
    [inference] raises nothing. *)

Section Returns.
Context `{Library}.





End Returns.

(** ** The script on small inputs *)

Example split_gpu : Py.split "," "0,1,2,3" = ["0"; "1"; "2"; "3"].
Proof. reflexivity. Qed.

Example split_empty : Py.split "," "" = [""].
Proof. reflexivity. Qed.

Example int_spaces : Py.int " 12 " = Ok 12.
Proof. reflexivity. Qed.

Example int_underscore : Py.int "1_0" = Ok 10 ∧ Py.int "1__0" = Raise ValueError.
Proof. split; reflexivity. Qed.

Example int_list_gpus : int_list "0,1,2,3" = Ok [0; 1; 2; 3].
Proof. reflexivity. Qed.

Example int_list_trailing_comma : int_list "0,1," = Raise ValueError.
Proof. reflexivity. Qed.

Example gat_two_layers :
  GAT_init 100 32 47 [4; 1] (Some relu_fn) (6 # 10) (6 # 10)
  = Ok (MkGAT 2 32 47 [4; 1]
          [GATConv 100 32 4 (6 # 10) (6 # 10) (Some relu_fn) true;
           GATConv 128 47 1 (6 # 10) (6 # 10) None true]).
Proof. reflexivity. Qed.

Example gat_no_heads :
  GAT_init 100 32 47 [] (Some relu_fn) (6 # 10) (6 # 10) = Raise IndexError.
Proof. reflexivity. Qed.

(** The head list the main block passes on is never empty. *)
Lemma int_list_nonempty s zs : int_list s = Ok zs → zs ≠ [].
Proof. intros Hzs%int_list_length ->. by cbn in Hzs. Qed.

(** [SAGE.forward] stops with the shorter of the layers and the blocks: on
    two blocks the second layer is the last one applied, and it is followed
    by ReLU and dropout. *)
Lemma SAGE_forward_two_blocks `{Library} in_size hid_size out_size b1 b2 x :
  let self := SAGE_init in_size hid_size out_size in
  SAGE_forward self [b1; b2] x =
    dropout (sage_dropout self) (relu
      (conv_apply (SAGEConv hid_size hid_size "mean") b2
         (dropout (sage_dropout self) (relu
            (conv_apply (SAGEConv in_size hid_size "mean") b1 x))))).
Proof. reflexivity. Qed.

(** Worker 0 of the default command line runs to its end on the toy
    graph, and so does a two-layer GAT. *)
Example toy_run_sage :
  (@run toy 0 1 [0] toy_g (toy_args "sage" [0]) toy_loaded).1 = Ok ().
Proof. vm_compute. reflexivity. Qed.

Example toy_run_gat :
  (@run toy 0 1 [0] toy_g (toy_args "gat" [2; 1]) toy_loaded).1 = Ok ().
Proof. vm_compute. reflexivity. Qed.

(** * The claims *)

Section Claims.
Context `{Library}.

(** C1. For every [--gpu] argument that splits at its commas into [n]
    integers [devices], the main block (given a well-formed [--head], a
    CUDA runtime and a stored graph) reaches [mp.spawn] and spawns exactly
    [n = len(devices)] workers, where [n] is one more than the number of
    commas; the worker with process id [p] is the call
    [run(p, nprocs, devices, g, args)] and the first thing it does is to
    select device [devices[p]]. *)
Theorem main_one_worker_per_device c e w head devices sg sgs :
  cli_mode c ∈ mode_choices →
  int_list (cli_head c) = Ok head →
  int_list (cli_gpu c) = Ok devices →
  cuda_is_available e = true →
  load_graphs e ("/home/ubuntu/workspace/partition_dataset/"
                 +:+ cli_dataset_name c +:+ "_graph.dgl") = Ok (sg :: sgs) →
  ∃ workers w',
    main c e w = (Ok workers, w') ∧
    length devices = S (Py.count "," (cli_gpu c)) ∧
    length workers = length devices ∧
    ∀ p d, devices !! p = Some d →
      ∃ wk, workers !! p = Some wk ∧
            wk.1 = p ∧ wk.2.1.1.1 = length devices ∧ wk.2.1.1.2 = devices ∧
            ∀ w0, ∃ rest,
              calls (worker_run wk w0).2 = calls w0 ++ CudaSetDevice d :: rest.
Proof.
  intros Hmode Hhead Hgpu Hcuda Hload.
  pose proof (main_spec c e w head devices sg sgs Hmode Hhead Hgpu Hcuda Hload) as Hmain.
  unfold wp in Hmain. destruct (main c e w) as [[workers|ex] w']; [|done].
  destruct Hmain as [g ->]. eexists _, w'. split; [done|].
  split; [by apply int_list_length|]. split; [by apply mp_spawn_length|].
  intros p d Hd. eexists. split.
  { apply mp_spawn_lookup. by eapply lookup_lt_Some. }
  cbn [fst snd]. do 3 (split; [done|]). intros w0. cbn [worker_run].
  pose proof (run_spec p (length devices) devices g
                (Args (cli_mode c) (cli_gpu c) (cli_model c) (cli_num_epochs c)
                      (cli_dataset_name c) (cli_dataset_dir c)
                      (cli_num_workers c) (cli_hidden_dim c) head) d w0 Hd) as Hrun.
  unfold wp in Hrun. destruct (run _ _ _ _ _ w0) as [[[]|ex] w1]; cbn [snd].
  all: destruct Hrun as (rest & -> & _); unfold run_start;
    rewrite <-app_assoc; by eexists.
Qed.

Lemma inference_call_full_graph g device batch_size use_uva dl :
  inference_call (num_nodes g) (g_dev g) device batch_size use_uva (NewDataLoader dl) →
  full_graph_loader g device dl.
Proof. intros (g' & -> & Hn & _). by repeat split. Qed.

Lemma model_inference_calls m g device batch_size use_uva w :
  ∃ new,
    calls (model_inference m g device batch_size use_uva w).2 = calls w ++ new ∧
    Forall (inference_call (num_nodes g) (g_dev g) device batch_size use_uva) new.
Proof.
  pose proof (model_inference_spec m g device batch_size use_uva w) as Hspec.
  unfold wp in Hspec.
  destruct (model_inference m g device batch_size use_uva w) as [[[y g']|ex] w'];
    cbn [fst snd] in *.
  - destruct Hspec as (new & t & Hc & HF & _). by exists new.
  - by destruct Hspec as [(new & Hc & HF) _]; exists new.
Qed.

(** C2. Inference is full-graph.  Whatever [SAGE.inference] or
    [GAT.inference] does on a graph [g], every data loader it builds is
    over [torch.arange(g.num_nodes())] with [shuffle=False] and
    [drop_last=False] and uses [MultiLayerFullNeighborSampler]; and when it
    returns, it has built one such loader per layer and the tensor it
    returns has exactly [g.num_nodes()] rows. *)
Theorem inference_is_full_graph m g device batch_size use_uva w :
  ∃ new,
    calls (model_inference m g device batch_size use_uva w).2 = calls w ++ new ∧
    Forall (λ c, ∀ dl, c = NewDataLoader dl → full_graph_loader g device dl) new ∧
    ∀ y g', (model_inference m g device batch_size use_uva w).1 = Ok (y, g') →
      count_if is_dataloader new = length (model_layers m) ∧
      ∃ t, heap (model_inference m g device batch_size use_uva w).2 !! y = Some t ∧
           length (t_rows t) = num_nodes g.
Proof.
  pose proof (model_inference_spec m g device batch_size use_uva w) as Hspec.
  unfold wp in Hspec.
  destruct (model_inference m g device batch_size use_uva w) as [[[y g']|ex] w'];
    cbn [fst snd] in *.
  - destruct Hspec as (new & t & Hc & HF & _ & Hd & _ & _ & _ & Hy & Hlen & _).
    exists new. split; [done|]. split.
    + eapply Forall_impl; [done|]. intros c Hc' dl ->.
      by eapply inference_call_full_graph.
    + intros ? ? [= <- <-]. eauto.
  - destruct Hspec as [(new & Hc & HF) _]. exists new. split; [done|].
    split; [|done]. eapply Forall_impl; [done|]. intros c Hc' dl ->.
    by eapply inference_call_full_graph.
Qed.

(** C10. When [SAGE.inference] or [GAT.inference] returns, the node frame
    of the graph is the frame it was given without the key ["h"]: no
    ["h"] is left, every other field names the tensor it named before, a
    frame that had no ["h"] is back as it was, and the tensors that existed
    before the call are unchanged.  Along the way ["h"] was set once before
    the loop and once per layer, by frame writes to ["h"] only, and popped
    once, as the last call. *)
Theorem inference_restores_frame m g device batch_size use_uva w y g' w' :
  model_inference m g device batch_size use_uva w = (Ok (y, g'), w') →
  ndata g' = delete "h" (ndata g) ∧
  ndata g' !! "h" = None ∧
  (∀ key, key ≠ "h" → ndata g' !! key = ndata g !! key) ∧
  (ndata g !! "h" = None → g' = g) ∧
  (∀ l t, heap w !! l = Some t → heap w' !! l = Some t) ∧
  ∃ new,
    calls w' = calls w ++ new ∧
    count_if is_ndata_set new = S (length (model_layers m)) ∧
    count_if is_ndata_pop new = 1%nat ∧
    last new = Some (NdataPop "h") ∧
    Forall (λ c, ∀ key, c = NdataSet key ∨ c = NdataPop key → key = "h") new.
Proof.
  intros Hrun.
  pose proof (model_inference_spec m g device batch_size use_uva w) as Hspec.
  unfold wp in Hspec. rewrite Hrun in Hspec. cbn [fst snd] in Hspec.
  destruct Hspec as (new & t & Hc & HF & Hs & _ & Hp & Hlast & -> & _ & _ & Hk & _).
  cbn [ndata]. split; [done|]. split; [by rewrite lookup_delete_eq|].
  split; [by intros key Hkey; rewrite lookup_delete_ne|].
  split. { intros Hh. destruct g. cbn in *. by rewrite delete_id. }
  split.
  { intros l t' Hl. destruct Hk as [_ Hk]. rewrite Hk; [done|].
    by eapply lookup_lt_Some. }
  exists new. do 4 (split; [done|]).
  eapply Forall_impl; [done|]. intros c Hc' key [-> | ->]; exact Hc'.
Qed.

(** The index test of [SAGE.forward] picks out the last layer: before it,
    every layer is followed by ReLU and dropout. *)
Lemma SAGE_forward_hidden (self : SAGE) (zs : list (conv * block)) j h :
  (j + length zs < length (sage_layers self))%nat →
  foldl (λ h '(l, (layer, block)),
           let h := conv_apply layer block h in
           if not_last l (sage_layers self)
           then dropout (sage_dropout self) (relu h)
           else h)
        h (zip (seq j (length zs)) zs)
  = foldl (λ h lb, dropout (sage_dropout self) (relu (conv_apply lb.1 lb.2 h)))
          h zs.
Proof.
  revert j h. induction zs as [|[layer b] zs IH]; intros j h Hj; [done|].
  cbn [length seq zip zip_with foldl] in *. rewrite IH by lia. cbn.
  unfold not_last. by destruct (Z.eqb_spec (Z.of_nat j)
                                  (Z.of_nat (length (sage_layers self)) - 1)); [lia|].
Qed.

(** [SAGE.forward] on one block per layer, for any number of layers. *)
Lemma SAGE_forward_layers (self : SAGE) ls last bs b_last more x :
  sage_layers self = ls ++ [last] → length bs = length ls →
  SAGE_forward self (bs ++ b_last :: more) x
  = conv_apply last b_last
      (foldl (λ h lb, dropout (sage_dropout self) (relu (conv_apply lb.1 lb.2 h)))
             x (zip ls bs)).
Proof.
  intros Hls Hlen. unfold SAGE_forward, enumerate.
  assert (zip (sage_layers self) (bs ++ b_last :: more)
          = zip ls bs ++ [(last, b_last)]) as ->.
  { rewrite Hls. by rewrite zip_with_app. }
  rewrite length_app, Nat.add_1_r, seq_S.
  rewrite zip_with_app by by rewrite length_seq.
  rewrite foldl_app. cbn [zip_with foldl].
  rewrite SAGE_forward_hidden.
  - unfold not_last. rewrite Hls, length_app, length_zip, Hlen, Nat.min_id.
    cbn [length Nat.add].
    by destruct (Z.eqb_spec (Z.of_nat (length ls))
                            (Z.of_nat (length ls + 1) - 1)); [|lia].
  - rewrite Hls, length_app, length_zip, Hlen, Nat.min_id. cbn. lia.
Qed.

(** C6. A SAGE model has exactly three [SAGEConv] layers with ["mean"]
    aggregation, of sizes in -> hid -> hid -> out, and [SAGE.forward]
    applies them in this order to the blocks of a three-layer sample, with
    ReLU and then dropout after the first and the second layer and neither
    after the third. *)
Theorem sage_three_mean_layers in_size hid_size out_size b1 b2 b3 more x :
  let self := SAGE_init in_size hid_size out_size in
  let l1 := SAGEConv in_size hid_size "mean" in
  let l2 := SAGEConv hid_size hid_size "mean" in
  let l3 := SAGEConv hid_size out_size "mean" in
  sage_layers self = [l1; l2; l3] ∧
  SAGE_forward self (b1 :: b2 :: b3 :: more) x =
    conv_apply l3 b3
      (dropout (sage_dropout self) (relu
         (conv_apply l2 b2
            (dropout (sage_dropout self) (relu
               (conv_apply l1 b1 x)))))).
Proof.
  intros self l1 l2 l3. split; [done|].
  change (b1 :: b2 :: b3 :: more) with ([b1; b2] ++ b3 :: more).
  by rewrite (SAGE_forward_layers self [l1; l2] l3 [b1; b2] b3 more x).
Qed.

Lemma GAT_init_layers in_size hid_size out_size n_heads act fd ad :
  ∃ layers,
    mapR (GAT_layer in_size hid_size out_size n_heads act fd ad)
         (seq 0 (length n_heads)) = Ok layers ∧
    length layers = length n_heads.
Proof.
  destruct (mapR_ok (GAT_layer in_size hid_size out_size n_heads act fd ad)
                    (seq 0 (length n_heads))) as (layers & Hl & Hlen).
  - intros i Hi. apply elem_of_seq in Hi as [_ Hi]. cbn in Hi.
    destruct (lookup_lt_is_Some_2 n_heads i Hi) as [hi Hhi].
    unfold GAT_layer, Py.index. rewrite Hhi. cbn.
    destruct (decide (i = 0%nat)); cbn; [by eexists|].
    destruct (lookup_lt_is_Some_2 n_heads (i - 1)) as [hp Hhp]; [lia|].
    rewrite Hhp. cbn. by eexists.
  - exists layers. by rewrite length_seq in Hlen.
Qed.

Lemma GAT_init_assert in_size hid_size out_size n_heads act fd ad h :
  last n_heads = Some h → h ≠ 1 →
  GAT_init in_size hid_size out_size n_heads act fd ad = Raise AssertionError.
Proof.
  intros Hlast Hh. unfold GAT_init, Py.index_last. rewrite Hlast. cbn.
  by destruct (Z.eqb_spec h 1).
Qed.

(** C8. [GAT.__init__] raises [AssertionError] for every head list whose
    last element is not 1.  The default [--head] value ["0"] parses to
    [[0]], with which the model selection of [--model gat] raises
    [AssertionError], and so does [run] once it gets there.  When the last
    element is 1 the model is built with exactly [len(n_heads)] layers. *)
Theorem gat_needs_last_head_one :
  (∀ in_size hid_size out_size n_heads act fd ad h,
     last n_heads = Some h → h ≠ 1 →
     GAT_init in_size hid_size out_size n_heads act fd ad = Raise AssertionError) ∧
  (cli_head default_cli = "0" ∧ int_list "0" = Ok [0]) ∧
  (∀ a in_size num_classes device w,
     model_name a = "gat" → head a = [0] →
     build_model a in_size num_classes device w = (Raise AssertionError, w)) ∧
  (∀ proc_id nprocs devices g a w p w1,
     model_name a = "gat" → head a = [0] →
     run_prepare proc_id nprocs devices g a w = (Ok p, w1) →
     run proc_id nprocs devices g a w = (Raise AssertionError, w1)) ∧
  (∀ in_size hid_size out_size n_heads act fd ad,
     last n_heads = Some 1 →
     ∃ self, GAT_init in_size hid_size out_size n_heads act fd ad = Ok self ∧
             length (gat_layers self) = length n_heads ∧
             gat_n_layers self = length n_heads).
Proof.
  assert (∀ a in_size num_classes device w,
     model_name a = "gat" → head a = [0] →
     build_model a in_size num_classes device w = (Raise AssertionError, w)) as Hbuild.
  { intros a in_size num_classes device w Hm Hh. unfold build_model.
    rewrite Hm, Hh. cbn [String.eqb Ascii.eqb Bool.eqb]. by cbn. }
  split; [apply GAT_init_assert|]. split; [done|]. split; [done|]. split.
  - intros proc_id nprocs devices g a w p w1 Hm Hh Hp. unfold run.
    unfold mbind at 1, M_bind. rewrite Hp.
    unfold mbind at 1, M_bind. by rewrite Hbuild.
  - intros in_size hid_size out_size n_heads act fd ad Hlast.
    unfold GAT_init, Py.index_last. rewrite Hlast.
    destruct (GAT_init_layers in_size hid_size out_size n_heads act fd ad)
      as (layers & Hl & Hlen).
    cbn [of_option]. unfold mbind at 1, result_bind. cbn [Z.eqb Pos.eqb Py.assert].
    unfold mbind at 1, result_bind. rewrite Hl.
    unfold mbind at 1, result_bind. by eexists.
Qed.

(** C9. For every [args.model] other than ["sage"] and ["gat"] the model
    selection assigns nothing and makes no call, and [run], when it gets
    there, raises [UnboundLocalError] at the [DistributedDataParallel]
    call, before anything else is called. *)
Theorem unknown_model_is_unbound a :
  model_name a ≠ "sage" → model_name a ≠ "gat" →
  (∀ in_size num_classes device w,
     build_model a in_size num_classes device w = (Ok None, w)) ∧
  (∀ proc_id nprocs devices g w p w1,
     run_prepare proc_id nprocs devices g a w = (Ok p, w1) →
     run proc_id nprocs devices g a w = (Raise UnboundLocalError, w1)) ∧
  (∀ proc_id nprocs devices g w,
     ∃ e, (run proc_id nprocs devices g a w).1 = Raise e).
Proof.
  intros Hs Hg.
  assert (∀ in_size num_classes device w,
     build_model a in_size num_classes device w = (Ok None, w)) as Hbuild.
  { intros. unfold build_model.
    destruct (String.eqb_spec (model_name a) "sage"); [done|].
    by destruct (String.eqb_spec (model_name a) "gat"). }
  split; [done|].
  assert (∀ proc_id nprocs devices g w p w1,
     run_prepare proc_id nprocs devices g a w = (Ok p, w1) →
     run proc_id nprocs devices g a w = (Raise UnboundLocalError, w1)) as Hrun.
  { intros proc_id nprocs devices g w p w1 Hp. unfold run.
    unfold mbind at 1, M_bind. rewrite Hp.
    unfold mbind at 1, M_bind. by rewrite Hbuild. }
  split; [done|].
  intros proc_id nprocs devices g w.
  destruct (run_prepare proc_id nprocs devices g a w) as [[p|e] w1] eqn:Hp.
  - rewrite (Hrun _ _ _ _ _ _ _ Hp). by eexists.
  - unfold run. unfold mbind at 1, M_bind. rewrite Hp. by eexists.
Qed.

(** Every call [run] makes, whatever its outcome, obeys [run_call]. *)
Lemma run_calls proc_id nprocs devices g a w :
  ∃ new, calls (run proc_id nprocs devices g a w).2 = calls w ++ new ∧
         Forall (run_call a) new.
Proof.
  destruct (devices !! proc_id) as [d|] eqn:Hd.
  - pose proof (run_spec proc_id nprocs devices g a d w Hd) as Hrun.
    unfold wp in Hrun.
    destruct (run proc_id nprocs devices g a w) as [[[]|e] w']; cbn [snd].
    all: destruct Hrun as (rest & -> & HF); rewrite <-app_assoc; eexists;
      (split; [done|]); apply Forall_app; split; [by repeat constructor|done].
  - exists []. rewrite app_nil_r. split; [|done].
    unfold run, run_prepare, Py.index. rewrite Hd. done.
Qed.

(** C3. The model is selected by the string [args.model]: ["sage"] builds
    [SAGE(in_size, args.hidden_dim, num_classes)], and ["gat"] builds what
    [GAT(in_size, args.hidden_dim, num_classes, args.head)] returns, a GAT
    with [args.hidden_dim] hidden units and [num_classes] outputs, or
    raises what it raises.  No other string builds a model, and every model
    [run] moves to the device or wraps in [DistributedDataParallel] is one
    of these two. *)
Theorem model_selected_by_name a in_size num_classes device w :
  (model_name a = "sage" →
     let m := Sage (SAGE_init in_size (hidden_dim a) num_classes) in
     build_model a in_size num_classes device w
       = (Ok (Some m), World (heap w) (pg w) (calls w ++ [ModuleTo m device])) ∧
     sage_hid_size (SAGE_init in_size (hidden_dim a) num_classes) = hidden_dim a ∧
     sage_out_size (SAGE_init in_size (hidden_dim a) num_classes) = num_classes) ∧
  (model_name a = "gat" →
     match GAT_init in_size (hidden_dim a) num_classes (head a) (Some relu_fn)
                    (6 # 10) (6 # 10) with
     | Ok self =>
         build_model a in_size num_classes device w
           = (Ok (Some (Gat self)),
              World (heap w) (pg w) (calls w ++ [ModuleTo (Gat self) device])) ∧
         gat_hid_size self = hidden_dim a ∧ gat_out_size self = num_classes
     | Raise e => build_model a in_size num_classes device w = (Raise e, w)
     end) ∧
  (∀ m, (build_model a in_size num_classes device w).1 = Ok (Some m) →
        model_name a = "sage" ∨ model_name a = "gat") ∧
  (∀ proc_id nprocs devices g,
     ∃ new, calls (run proc_id nprocs devices g a w).2 = calls w ++ new ∧
       Forall (λ c, ∀ m, (∃ d, c = ModuleTo m d) ∨
                         (∃ ids out, c = DistributedDataParallel m ids out) →
                         selected a m) new).
Proof.
  split; [|split; [|split]].
  - intros Hm. unfold build_model. rewrite Hm. by cbn.
  - intros Hm. unfold build_model. rewrite Hm.
    cbn [String.eqb Ascii.eqb Bool.eqb].
    destruct (GAT_init _ _ _ _ _ _ _) as [self|e] eqn:Hinit; [|done].
    split; [done|]. unfold GAT_init in Hinit.
    destruct (Py.index_last (head a)); [|done]. cbn in Hinit.
    destruct (Py.assert _); [|done]. cbn in Hinit.
    destruct (mapR _ _); [|done]. cbn in Hinit. by injection Hinit as <-.
  - intros m. unfold build_model.
    destruct (String.eqb_spec (model_name a) "sage"); [by left|].
    destruct (String.eqb_spec (model_name a) "gat"); [by right|done].
  - intros proc_id nprocs devices g.
    destruct (run_calls proc_id nprocs devices g a w) as (new & Hc & HF).
    exists new. split; [done|]. eapply Forall_impl; [done|].
    intros c Hc' m [[d ->]|(ids & out & ->)]; exact Hc'.
Qed.

(** C4. The training and the validation data loader of [train] are the
    first two calls it makes and the only data loaders it builds; both use
    [NeighborSampler([10, 10, 10])], three layers with at most ten sampled
    neighbours each.  The data loaders of inference use the full-neighbour
    sampler instead. *)
Theorem train_samples_inference_does_not
    proc_id nprocs device a g num_classes train_idx val_idx m use_uva w :
  let sampler :=
    NeighborSampler [10; 10; 10] ["features"] ["labels"]
                    (negb (String.eqb (mode a) "benchmark")) in
  let train_dataloader :=
    DataLoader g train_idx sampler device 1000 true false (num_workers a) true
               use_uva in
  let val_dataloader :=
    DataLoader g val_idx sampler device 1000 true false (num_workers a) true
               use_uva in
  (∃ rest,
     calls (train proc_id nprocs device a g num_classes train_idx val_idx m
                  use_uva w).2
       = calls w ++ NewDataLoader train_dataloader
                    :: NewDataLoader val_dataloader :: rest ∧
     Forall (λ c, is_dataloader c = false) rest) ∧
  (∀ g' batch_size w',
     ∃ new,
       calls (model_inference m g' device batch_size use_uva w').2 = calls w' ++ new ∧
       Forall (λ c, ∀ dl, c = NewDataLoader dl →
                 dl_sampler dl = MultiLayerFullNeighborSampler 1 ["h"]) new).
Proof.
  intros sampler train_dataloader val_dataloader. split.
  - pose proof (train_spec proc_id nprocs device a g num_classes train_idx
                  val_idx m use_uva w) as Htrain.
    unfold wp in Htrain.
    destruct (train _ _ _ _ _ _ _ _ _ _ w) as [[[]|e] w']; cbn [snd].
    all: destruct Htrain as (rest & -> & HF); rewrite <-app_assoc;
      exists (Adam (3 # 1000) (5 # 10000) :: rest); (split; [done|]);
      constructor; [done|]; eapply Forall_impl; [done|]; by intros [].
  - intros g' batch_size w'.
    destruct (model_inference_calls m g' device batch_size use_uva w')
      as (new & Hc & HF).
    exists new. split; [done|]. eapply Forall_impl; [done|].
    intros c Hc' dl ->. by destruct Hc' as (g'' & -> & _).
Qed.

(** C5. [run] passes [use_uva = (args.mode == "mixed")] to every data
    loader it builds, in training, validation and inference, so that a
    loader uses UVA exactly when the mode is ["mixed"].  Without UVA,
    [layerwise_infer] first moves the graph to the device, and inference
    runs on the moved graph; with UVA the graph is not moved. *)
Theorem uva_iff_mixed proc_id nprocs devices g a device num_classes nid m path
    batch_size w :
  (∃ new,
     calls (run proc_id nprocs devices g a w).2 = calls w ++ new ∧
     Forall (λ c, ∀ dl, c = NewDataLoader dl →
               dl_use_uva dl = String.eqb (mode a) "mixed" ∧
               (dl_use_uva dl = true ↔ mode a = "mixed")) new) ∧
  (∃ rest,
     calls (layerwise_infer proc_id device g num_classes nid m false path
                            batch_size w).2
       = calls w ++ ModelEval :: GraphTo (Cuda device) :: rest ∧
     Forall (λ c, ∀ dl, c = NewDataLoader dl →
               g_dev (dl_graph dl) = Cuda device ∧ dl_use_uva dl = false) rest) ∧
  (∃ rest,
     calls (layerwise_infer proc_id device g num_classes nid m true path
                            batch_size w).2
       = calls w ++ ModelEval :: rest ∧
     Forall (λ c, (∀ d, c ≠ GraphTo d) ∧
                  ∀ dl, c = NewDataLoader dl →
                    g_dev (dl_graph dl) = g_dev g ∧ dl_use_uva dl = true) rest).
Proof.
  split; [|split].
  - destruct (run_calls proc_id nprocs devices g a w) as (new & Hc & HF).
    exists new. split; [done|]. eapply Forall_impl; [done|].
    intros c Hc' dl ->. cbn in Hc'. split; [done|].
    rewrite Hc'. apply String.eqb_eq.
  - pose proof (layerwise_infer_spec proc_id device g num_classes nid m false
                  path batch_size w) as Hspec.
    unfold wp in Hspec.
    destruct (layerwise_infer _ _ _ _ _ _ false _ _ w) as [[[]|e] w']; cbn [snd].
    all: destruct Hspec as (rest & -> & HF); exists rest;
      rewrite <-app_assoc; (split; [done|]); eapply Forall_impl; [done|];
      intros c [Hc'|Hc'] dl ->; [|done]; by destruct Hc' as (g' & -> & _ & Hd).
  - pose proof (layerwise_infer_spec proc_id device g num_classes nid m true
                  path batch_size w) as Hspec.
    unfold wp in Hspec.
    destruct (layerwise_infer _ _ _ _ _ _ true _ _ w) as [[[]|e] w']; cbn [snd].
    all: destruct Hspec as (rest & -> & HF); exists rest;
      rewrite <-app_assoc; (split; [done|]); eapply Forall_impl; [done|];
      intros c Hc'; (split; [by intros d ->; destruct Hc'|]);
      intros dl ->; destruct Hc' as [Hc'|Hc']; [|done];
      by destruct Hc' as (g' & -> & _ & Hd).
Qed.

End Claims.

Lemma main_one_worker_per_device_toy :
  ∃ workers w',
    @main toy four_gpus toy_env toy_world = (Ok workers, w') ∧
    length [0; 1; 2; 3] = S (Py.count "," "0,1,2,3") ∧
    length workers = 4%nat ∧
    ∀ p d, [0; 1; 2; 3] !! p = Some d →
      ∃ wk, workers !! p = Some wk ∧
            wk.1 = p ∧ wk.2.1.1.1 = 4%nat ∧ wk.2.1.1.2 = [0; 1; 2; 3] ∧
            ∀ w0, ∃ rest,
              calls (@worker_run toy wk w0).2 = calls w0 ++ CudaSetDevice d :: rest.
Proof.
  apply (@main_one_worker_per_device toy four_gpus toy_env toy_world [0]
           [0; 1; 2; 3] toy_graph []).
  - vm_compute. do 1 constructor.
  - reflexivity.
  - reflexivity.
  - reflexivity.
  - reflexivity.
Defined.

Lemma inference_is_full_graph_toy :
  ∃ y g' t,
    (@model_inference toy toy_sage toy_g 0 1024 true toy_ready).1 = Ok (y, g') ∧
    heap (@model_inference toy toy_sage toy_g 0 1024 true toy_ready).2 !! y = Some t ∧
    length (t_rows t) = 4%nat.
Proof.
  destruct (@inference_is_full_graph toy toy_sage toy_g 0 1024 true toy_ready)
    as (new & _ & _ & Hok).
  assert (∃ y g', (@model_inference toy toy_sage toy_g 0 1024 true toy_ready).1
                  = Ok (y, g')) as (y & g' & Hr)
    by (vm_compute; do 2 eexists; reflexivity).
  destruct (Hok y g' Hr) as (_ & t & Ht & Hlen).
  exists y, g', t. exact (conj Hr (conj Ht Hlen)).
Defined.

Lemma inference_restores_frame_toy :
  ∃ y g' w',
    @model_inference toy toy_sage toy_g 0 1024 true toy_ready = (Ok (y, g'), w') ∧
    g' = toy_g ∧
    heap w' !! 0%nat = Some (Tensor Cpu 2 [5; 6; 7; 8]).
Proof.
  assert (∃ y g' w', @model_inference toy toy_sage toy_g 0 1024 true toy_ready
                     = (Ok (y, g'), w')) as (y & g' & w' & Hr)
    by (vm_compute; do 3 eexists; reflexivity).
  exists y, g', w'. split; [exact Hr|].
  destruct (@inference_restores_frame toy toy_sage toy_g 0 1024 true toy_ready
              y g' w' Hr) as (_ & _ & _ & Hsame & Hheap & _).
  split; [by apply Hsame|]. by apply Hheap.
Defined.

Lemma model_selected_by_name_toy :
  @build_model toy (toy_args "sage" [0]) 2 2 0 toy_ready
    = (Ok (Some toy_sage),
       @World toy (heap toy_ready) (pg toy_ready) [ModuleTo toy_sage 0]) ∧
  ∃ self, @build_model toy (toy_args "gat" [2; 1]) 2 2 0 toy_ready
            = (Ok (Some (Gat self)),
               @World toy (heap toy_ready) (pg toy_ready) [ModuleTo (Gat self) 0]) ∧
          gat_hid_size self = 32 ∧ gat_out_size self = 2.
Proof.
  split.
  - by apply (@model_selected_by_name toy (toy_args "sage" [0]) 2 2 0 toy_ready).
  - destruct (@model_selected_by_name toy (toy_args "gat" [2; 1]) 2 2 0 toy_ready)
      as (_ & Hgat & _).
    specialize (Hgat eq_refl). cbn in Hgat. by eexists.
Defined.

Lemma gat_needs_last_head_one_toy :
  GAT_init 2 32 2 [2; 0] (Some relu_fn) (6 # 10) (6 # 10) = Raise AssertionError ∧
  (∃ p w1,
     @run_prepare toy 0 1 [0] toy_g (toy_args "gat" [0]) toy_loaded = (Ok p, w1) ∧
     @run toy 0 1 [0] toy_g (toy_args "gat" [0]) toy_loaded
       = (Raise AssertionError, w1)) ∧
  ∃ self, GAT_init 2 32 2 [2; 1] (Some relu_fn) (6 # 10) (6 # 10) = Ok self ∧
          length (gat_layers self) = 2%nat.
Proof.
  destruct (@gat_needs_last_head_one toy) as (Hassert & _ & _ & Hrun & Hok).
  split; [|split].
  - by apply (Hassert 2 32 2 [2; 0] (Some relu_fn) (6 # 10) (6 # 10) 0).
  - assert (∃ p w1, @run_prepare toy 0 1 [0] toy_g (toy_args "gat" [0]) toy_loaded
                    = (Ok p, w1)) as (p & w1 & Hp)
      by (vm_compute; do 2 eexists; reflexivity).
    exists p, w1. split; [exact Hp|].
    exact (Hrun 0%nat 1%nat [0] toy_g (toy_args "gat" [0]) toy_loaded p w1
             eq_refl eq_refl Hp).
  - destruct (Hok 2 32 2 [2; 1] (Some relu_fn) (6 # 10) (6 # 10) eq_refl)
      as (self & Hself & Hlen & _).
    by exists self.
Defined.

Lemma unknown_model_is_unbound_toy :
  ∃ p w1,
    @run_prepare toy 0 1 [0] toy_g (toy_args "gcn" [0]) toy_loaded = (Ok p, w1) ∧
    @run toy 0 1 [0] toy_g (toy_args "gcn" [0]) toy_loaded
      = (Raise UnboundLocalError, w1).
Proof.
  assert (∃ p w1, @run_prepare toy 0 1 [0] toy_g (toy_args "gcn" [0]) toy_loaded
                  = (Ok p, w1)) as (p & w1 & Hp)
    by (vm_compute; do 2 eexists; reflexivity).
  exists p, w1. split; [exact Hp|].
  destruct (@unknown_model_is_unbound toy (toy_args "gcn" [0])) as (_ & Hrun & _).
  - cbn. discriminate.
  - cbn. discriminate.
  - exact (Hrun _ _ _ _ _ p w1 Hp).
Defined.

(** * Further properties of the script *)

(** ** The command line and the main block *)

Lemma int_raises s e : Py.int s = Raise e → e = ValueError.
Proof. unfold Py.int, of_option. by repeat case_match; intros [= <-]. Qed.

Lemma mapR_raise {A B} (f : A → result B) xs x e :
  x ∈ xs → f x = Raise e → (∀ x' e', f x' = Raise e' → e' = e) →
  mapR f xs = Raise e.
Proof.
  intros Hx Hfx Hall. induction Hx as [x xs|x y xs Hx IH]; cbn.
  - by rewrite Hfx.
  - destruct (f y) as [b|e'] eqn:Hy; cbn; [by rewrite IH|].
    by rewrite (Hall y e' Hy).
Qed.

(** X2. A list on the command line with an empty field (an empty string, a
    leading, trailing or doubled comma) is refused with [ValueError]. *)
Theorem int_list_empty_field s :
  "" ∈ Py.split "," s → int_list s = Raise ValueError.
Proof.
  intros Hin. unfold int_list.
  apply (mapR_raise Py.int _ ""); [done|done|]. apply int_raises.
Qed.

Section MainBlock.
Context `{Library}.

Lemma materialise_quiet sg w :
  wp (materialise sg)
     (λ g w', num_nodes g = sg_nodes sg ∧ g_dev g = Cpu ∧
              calls w' = calls w ∧ pg w' = pg w)
     (λ _ _, False) w.
Proof.
  unfold materialise. wp_simp.
  eapply (wp_mono _ _ _ (λ _ _, False)).
  - apply (wp_mapM _ _ (λ w', calls w' = calls w ∧ pg w' = pg w)); [|done].
    intros kt wi _ Hwi. by wp_simp.
  - intros kls wi [_ Hwi]. by wp_simp.
  - done.
Qed.

Lemma main_returns_spec c e w :
  wp (main c e)
     (λ workers w', ∃ head devices g,
        cli_mode c ∈ mode_choices ∧
        int_list (cli_head c) = Ok head ∧
        int_list (cli_gpu c) = Ok devices ∧
        cuda_is_available e = true ∧
        workers = mp_spawn (length devices, devices, g,
                            Args (cli_mode c) (cli_gpu c) (cli_model c)
                                 (cli_num_epochs c) (cli_dataset_name c)
                                 (cli_dataset_dir c) (cli_num_workers c)
                                 (cli_hidden_dim c) head)
                           (length devices) ∧
        calls w' = calls w ++ main_calls (cli_dataset_name c) ∧
        pg w' = pg w)
     (λ _ _, True) w.
Proof.
  unfold main. destruct (decide (cli_mode c ∈ mode_choices)) as [Hmode|]; wp_simp;
    [|done].
  destruct (int_list (cli_head c)) as [head|] eqn:Hhead; [|done]. cbv zeta. wp_simp.
  cbn [gpu dataset_name].
  destruct (int_list (cli_gpu c)) as [devices|] eqn:Hgpu; [|done]. wp_simp.
  destruct (cuda_is_available e) eqn:Hcuda; cbn [Py.assert]; [|done]. wp_simp.
  destruct (load_graphs e _) as [dataset|]; [|done]. wp_simp.
  destruct (Py.index dataset 0) as [sg|]; [|done]. wp_simp.
  eapply wp_mono; [apply materialise_quiet| |done].
  intros g w1 (_ & _ & Hc & Hp). cbv beta. wp_simp. unfold main_calls.
  destruct (String.eqb (cli_dataset_name c) "mag240m"); wp_simp;
    destruct (String.eqb (cli_dataset_name c) "ogbn-arxiv"); wp_simp;
    cbn [calls pg]; rewrite Hc, Hp, <-?app_assoc; eauto 15.
Qed.

(** X3. Whenever the main block reaches [mp.spawn], there is at least one
    worker, the workers are the process ids [0 .. n-1] in this order, and
    every worker gets the same arguments: [nprocs = n], the [n] parsed
    device ids, one graph, and [args] with the parsed head list.  On the
    way the main block has called [create_formats_], and [to_bidirected]
    and [add_self_loop] exactly for ["ogbn-arxiv"], and has replaced the
    features exactly for ["mag240m"]. *)
Theorem main_spawn_shape c e w workers w' :
  main c e w = (Ok workers, w') →
  workers ≠ [] ∧
  fst <$> workers = seq 0 (length workers) ∧
  (∃ head devices g,
     int_list (cli_head c) = Ok head ∧ int_list (cli_gpu c) = Ok devices ∧
     length devices = length workers ∧
     ∀ wk, wk ∈ workers →
       wk.2 = (length workers, devices, g,
               Args (cli_mode c) (cli_gpu c) (cli_model c) (cli_num_epochs c)
                    (cli_dataset_name c) (cli_dataset_dir c)
                    (cli_num_workers c) (cli_hidden_dim c) head)) ∧
  calls w' = calls w ++ main_calls (cli_dataset_name c).
Proof.
  intros Hmain. pose proof (main_returns_spec c e w) as Hspec.
  unfold wp in Hspec. rewrite Hmain in Hspec.
  destruct Hspec as (head & devices & g & _ & Hhead & Hgpu & _ & -> & Hc & _).
  unfold worker in *. rewrite !mp_spawn_length.
  assert (length devices ≠ 0%nat) as Hn.
  { rewrite (int_list_length _ _ Hgpu). lia. }
  split. { intros Hnil%(f_equal length). by rewrite mp_spawn_length in Hnil. }
  split. { unfold mp_spawn. rewrite <-list_fmap_compose. apply list_fmap_id. }
  split; [|done]. exists head, devices, g. do 3 (split; [done|]).
  intros wk Hwk. unfold mp_spawn in Hwk.
  apply list_elem_of_fmap in Hwk as (i & -> & _). done.
Qed.

(** X4. The main block fails before it loads or changes anything: an
    unknown [--mode] ends the program, a malformed [--head] or [--gpu]
    raises [ValueError], in this order, and with well-formed arguments a
    missing CUDA runtime raises [AssertionError]. *)
Theorem main_fails_early c e w :
  (cli_mode c ∉ mode_choices → main c e w = (Raise SystemExit, w)) ∧
  (cli_mode c ∈ mode_choices →
   (∀ ex, int_list (cli_head c) = Raise ex →
          main c e w = (Raise ValueError, w)) ∧
   (∀ head, int_list (cli_head c) = Ok head →
      (∀ ex, int_list (cli_gpu c) = Raise ex →
             main c e w = (Raise ValueError, w)) ∧
      (∀ devices, int_list (cli_gpu c) = Ok devices →
         cuda_is_available e = false →
         main c e w = (Raise AssertionError, w)))).
Proof.
  assert (∀ s ex, int_list s = Raise ex → ex = ValueError) as Hval.
  { intros s ex. unfold int_list.
    induction (Py.split "," s) as [|x xs IH]; cbn; [done|].
    destruct (Py.int x) as [z|e'] eqn:Hx; cbn.
    - destruct (mapR Py.int xs); [done|]. cbn. intros [= <-]. by apply IH.
    - intros [= <-]. by eapply int_raises. }
  split.
  - intros Hmode. unfold main. by rewrite decide_False.
  - intros Hmode. split.
    + intros ex Hhead. rewrite (Hval _ _ Hhead) in Hhead.
      unfold main. rewrite decide_True by done.
      unfold mbind, M_bind, lift, raise. by rewrite Hhead.
    + intros head Hhead. split.
      * intros ex Hgpu. rewrite (Hval _ _ Hgpu) in Hgpu.
        unfold main. rewrite decide_True by done.
        unfold mbind, M_bind, lift, raise. rewrite Hhead. cbn [gpu]. by rewrite Hgpu.
      * intros devices Hgpu Hcuda.
        unfold main. rewrite decide_True by done.
        unfold mbind, M_bind, lift, raise. rewrite Hhead. cbn [gpu].
        by rewrite Hgpu, Hcuda.
Qed.

End MainBlock.

(** ** The models *)


Lemma GAT_init_inv in_size hid_size out_size n_heads act fd ad self :
  GAT_init in_size hid_size out_size n_heads act fd ad = Ok self →
  last n_heads = Some 1 ∧
  mapR (GAT_layer in_size hid_size out_size n_heads act fd ad)
       (seq 0 (length n_heads)) = Ok (gat_layers self) ∧
  self = MkGAT (length n_heads) hid_size out_size n_heads (gat_layers self).
Proof.
  unfold GAT_init, Py.index_last. destruct (last n_heads) as [h|]; [|done].
  cbn [of_option]. unfold mbind at 1, result_bind.
  destruct (Z.eqb_spec h 1) as [->|]; [|done]. cbn [Py.assert].
  unfold mbind at 1, result_bind.
  destruct (mapR _ _) as [layers|]; [|done].
  unfold mbind, result_bind. by intros [= <-].
Qed.


Section Models.
Context `{Library}.


End Models.

Section Forward.
Context `{Library}.

(** Before layer [n_layers - 1], [GAT.forward] flattens the heads. *)
Lemma GAT_forward_hidden (self : GAT) (zs : list (conv * block)) j h :
  (j + length zs < gat_n_layers self)%nat →
  foldl (λ h '(i, (layer, block)),
           let h := conv_apply layer block h in
           if (Z.of_nat i =? Z.of_nat (gat_n_layers self) - 1)%Z
           then mean1 h else flatten1 h)
        h (zip (seq j (length zs)) zs)
  = foldl (λ h lb, flatten1 (conv_apply lb.1 lb.2 h)) h zs.
Proof.
  revert j h. induction zs as [|[layer b] zs IH]; intros j h Hj; [done|].
  cbn [length seq zip zip_with foldl] in *. rewrite IH by lia. cbn.
  by destruct (Z.eqb_spec (Z.of_nat j) (Z.of_nat (gat_n_layers self) - 1)); [lia|].
Qed.

(** X6. [GAT.forward] of a model built by [GAT.__init__] walks the layers
    and the blocks in step.  Given at least as many blocks as layers, the
    heads are flattened after every layer but the last and averaged after
    the last, and further blocks are ignored; given fewer blocks than
    layers, the heads are flattened after every layer applied and never
    averaged. *)
Theorem GAT_forward_by_depth in_size hid_size out_size n_heads act fd ad self :
  GAT_init in_size hid_size out_size n_heads act fd ad = Ok self →
  (∀ ls last bs b_last more x,
     gat_layers self = ls ++ [last] → length bs = length ls →
     GAT_forward self (bs ++ b_last :: more) x
     = mean1 (conv_apply last b_last
                (foldl (λ h lb, flatten1 (conv_apply lb.1 lb.2 h)) x (zip ls bs)))) ∧
  (∀ bs x,
     (length bs < length n_heads)%nat →
     GAT_forward self bs x
     = foldl (λ h lb, flatten1 (conv_apply lb.1 lb.2 h)) x (zip (gat_layers self) bs)).
Proof.
  intros Hinit.
  pose proof (GAT_init_inv _ _ _ _ _ _ _ _ Hinit) as (_ & Hl & Hself).
  assert (length (gat_layers self) = length n_heads) as Hlen.
  { apply mapR_length in Hl. by rewrite length_seq in Hl. }
  assert (gat_n_layers self = length n_heads) as Hn by by rewrite Hself.
  split.
  - intros ls last bs b_last more x Hls Hbs. unfold GAT_forward, enumerate.
    assert (zip (gat_layers self) (bs ++ b_last :: more)
            = zip ls bs ++ [(last, b_last)]) as ->.
    { rewrite Hls. by rewrite zip_with_app. }
    rewrite length_app, Nat.add_1_r, seq_S.
    rewrite zip_with_app by by rewrite length_seq.
    rewrite foldl_app. cbn [zip_with foldl].
    rewrite Hls, length_app in Hlen. cbn in Hlen.
    rewrite GAT_forward_hidden.
    + rewrite length_zip, Hbs, Nat.min_id. cbn [Nat.add].
      by destruct (Z.eqb_spec (Z.of_nat (length ls))
                              (Z.of_nat (gat_n_layers self) - 1)); [|lia].
    + rewrite length_zip, Hbs, Nat.min_id. cbn. lia.
  - intros bs x Hbs. unfold GAT_forward, enumerate.
    apply GAT_forward_hidden. rewrite length_zip. lia.
Qed.

(** X7. [SAGE.forward] walks the layers and the blocks in step, whatever
    the number of layers.  Blocks beyond the last layer are ignored; given
    fewer blocks than layers, every layer applied is followed by ReLU and
    dropout, so that the result is not the output of the last layer. *)
Theorem SAGE_forward_by_depth (self : SAGE) :
  (∀ bs more x,
     length bs = length (sage_layers self) →
     SAGE_forward self (bs ++ more) x = SAGE_forward self bs x) ∧
  (∀ bs x,
     (length bs < length (sage_layers self))%nat →
     SAGE_forward self bs x
     = foldl (λ h lb, dropout (sage_dropout self) (relu (conv_apply lb.1 lb.2 h)))
             x (zip (sage_layers self) bs)).
Proof.
  split.
  - intros bs more x Hbs. unfold SAGE_forward.
    assert (zip (sage_layers self) (bs ++ more) = zip (sage_layers self) bs) as ->; [|done].
    rewrite <-(app_nil_r (sage_layers self)) at 1.
    rewrite zip_with_app by done. cbn. by rewrite app_nil_r.
  - intros bs x Hbs. unfold SAGE_forward, enumerate.
    apply SAGE_forward_hidden. rewrite length_zip. lia.
Qed.

End Forward.

(** ** Evaluation and training *)

Section Runs.
Context `{Library}.

(** From a weakest precondition to the run it speaks of, and back. *)
Lemma wp_run {A} (m : M A) rw w :
  wp m (λ a w2, (Ok a, w2) = rw) (λ e w2, (Raise e, w2) = rw) w →
  m w = rw.
Proof. unfold wp. by destruct (m w) as [[a|e] w2]. Qed.

Lemma wp_ok {A} (m : M A) Q E a w w' : m w = (Ok a, w') → wp m Q E w → Q a w'.
Proof. unfold wp. by intros ->. Qed.

Lemma wp_raised {A} (m : M A) Q E e w w' : m w = (Raise e, w') → wp m Q E w → E e w'.
Proof. unfold wp. by intros ->. Qed.

Lemma mapR_index_raises {A} (rows : list A) nodes e :
  mapR (Py.index rows) nodes = Raise e → e = IndexError.
Proof.
  induction nodes as [|i nodes IH]; cbn [mapR]; [done|].
  destruct (Py.index rows i) as [a|e'] eqn:Hi.
  - destruct (mapR _ nodes) as [rs|e'']; [done|]. intros [= ->]. by apply IH.
  - intros [= <-]. unfold Py.index in Hi. by destruct (rows !! i); inversion Hi.
Qed.

(** Reading the rows of a frame column changes nothing and fails in one of
    three ways. *)
Lemma wp_prefetched_same g key nodes w :
  wp (prefetched g key nodes) (λ _ w', w' = w)
     (λ e w', w' = w ∧ loader_error e) w.
Proof.
  unfold loader_error, prefetched. wp_simp. destruct (ndata g !! key); [|by split; [|right; right]].
  wp_simp. destruct (heap w !! _); [|by split; [|left]].
  destruct (mapR _ _) eqn:Hr; [done|]. split; [done|].
  right; left. by eapply mapR_index_raises.
Qed.

Lemma evaluate_frame device m g num_classes dl n w :
  let w1 := World (heap w) (pg w) (calls w ++ [ModelEval]) in
  wp (evaluate device m g num_classes dl n)
     (λ _ w', w' = World (heap w) (pg w) (calls w ++ [ModelEval; Accuracy num_classes]) ∧
              ∃ ws rank, pg w = Some (ws, rank) ∧ batches rank dl n ≠ [])
     (λ e w', w' = w1 ∧ loader_error e) w.
Proof.
  intros w1. unfold loader_error, evaluate. wp_simp. cbn [pg heap calls]. fold w1.
  destruct (pg w) as [[ws rank]|] eqn:Hpg; [|by split; [|left]]. wp_simp.
  cbn [snd].
  eapply (wp_mono _ (λ ys w', (length ys = length (batches rank dl n)) ∧ w' = w1)
                  _ (λ e w', w' = w1 ∧ (e = RuntimeError ∨ e = IndexError ∨ e = KeyError))).
  - apply (wp_mapM _ _ (λ w', w' = w1)); [|done].
    intros b wj _ ->. wp_simp.
    destruct (Py.index (blocks b) 0) as [b0|e] eqn:Hb0.
    2:{ split; [done|]. right; left. unfold Py.index, of_option in Hb0.
        destruct (blocks b !! _); by inversion Hb0. }
    wp_simp. eapply wp_mono; [apply wp_prefetched_same| |done].
    intros x wk ->. cbv beta. wp_simp.
    destruct (Py.index_last (blocks b)) as [bl|e] eqn:Hbl.
    2:{ split; [done|]. right; left. unfold Py.index_last, of_option in Hbl.
        destruct (last (blocks b)); by inversion Hbl. }
    wp_simp. eapply wp_mono; [apply wp_prefetched_same| |done].
    intros y wl ->. cbv beta. by wp_simp.
  - intros y_hats wj [Hlen ->]. cbv beta. wp_simp.
    destruct (decide (y_hats = [])) as [->|Hne]; wp_simp; [by split; [|left]|].
    unfold w1. cbn. rewrite <-app_assoc. split; [done|].
    exists ws, rank. split; [done|]. intros Hnil. rewrite Hnil in Hlen.
    by destruct y_hats.
  - done.
Qed.

(** X8. [evaluate] switches the model to evaluation mode, reads the items
    of the loader and computes the accuracy once, when it returns; it
    never changes a tensor or the process group.  A loader without items
    makes it raise [RuntimeError], as [torch.cat] refuses an empty list,
    and when it raises the accuracy was not computed. *)
Theorem evaluate_outcomes device m g num_classes dl n w :
  (∀ ws rank, pg w = Some (ws, rank) → batches rank dl n = [] →
     evaluate device m g num_classes dl n w
     = (Raise RuntimeError, World (heap w) (pg w) (calls w ++ [ModelEval]))) ∧
  (∀ r w', evaluate device m g num_classes dl n w = (r, w') →
     heap w' = heap w ∧ pg w' = pg w ∧
     match r with
     | Ok _ => calls w' = calls w ++ [ModelEval; Accuracy num_classes]
     | Raise e => calls w' = calls w ++ [ModelEval] ∧ loader_error e
     end).
Proof.
  split.
  - intros ws rank Hpg Hnil. unfold evaluate, iterate, get_rank, log, lift.
    unfold mbind, M_bind, mret, M_ret. cbn [pg heap calls]. rewrite Hpg. cbn.
    by rewrite Hnil.
  - intros r w' Hrun.
    pose proof (evaluate_frame device m g num_classes dl n w) as Hwp.
    destruct r as [[]|e].
    + by apply (wp_ok _ _ _ _ _ _ Hrun) in Hwp as [-> _].
    + by apply (wp_raised _ _ _ _ _ _ Hrun) in Hwp as [-> He].
Qed.

(** X9. With no epoch to run ([--num_epochs] 0 or negative), [train]
    builds its two loaders and the optimiser and goes straight to the final
    reduction: no item is read, the model is never switched to training
    mode, and only process 0 writes its line to the log file. *)
Theorem train_without_epochs proc_id nprocs device a g num_classes train_idx
    val_idx m use_uva w :
  (num_epochs a ≤ 0)%Z →
  let setup := train_setup_calls a g device train_idx val_idx use_uva in
  train proc_id nprocs device a g num_classes train_idx val_idx m use_uva w
  = if decide (proc_id = 0%nat) then
      match ids_len train_idx with
      | Ok _ => (Ok (), World (heap w) (pg w)
                          (calls w ++ setup ++ [Reduce 0; Report (log_path_of a nprocs)]))
      | Raise e => (Raise e, World (heap w) (pg w) (calls w ++ setup ++ [Reduce 0]))
      end
    else (Ok (), World (heap w) (pg w) (calls w ++ setup ++ [Reduce 0])).
Proof.
  intros Hep setup. apply wp_run. unfold train. cbv zeta.
  replace (Z.to_nat (num_epochs a)) with 0%nat by lia. cbn [seq foldM].
  wp_simp. cbn [heap pg calls]. unfold setup, train_setup_calls, train_sampler.
  destruct (decide (proc_id = 0%nat)); wp_simp.
  - destruct (ids_len train_idx); wp_simp; cbn [heap pg calls];
      by rewrite <-!app_assoc.
  - by rewrite <-!app_assoc.
Qed.

(** X10. The loss line of an epoch divides by [it + 1], and [it] is bound
    by the loop over the training items only.  So when the first pass over
    the training loader of process 0 yields no item and the evaluation
    that follows returns, [train] raises [UnboundLocalError] right after
    the reduction of the first epoch, before anything is written to the
    log file. *)
Theorem train_needs_an_item nprocs device a g num_classes train_idx val_idx m
    use_uva w ws rank w2 :
  (0 < num_epochs a)%Z →
  pg w = Some (ws, rank) →
  batches rank (DataLoader g train_idx (train_sampler a) device 1000 true false
                           (num_workers a) true use_uva) 0 = [] →
  evaluate device m g num_classes
           (DataLoader g val_idx (train_sampler a) device 1000 true false
                       (num_workers a) true use_uva) 0
           (World (heap w) (pg w)
              (calls w ++ train_setup_calls a g device train_idx val_idx use_uva
                       ++ [ModelTrain]))
  = (Ok (), w2) →
  train 0 nprocs device a g num_classes train_idx val_idx m use_uva w
  = (Raise UnboundLocalError, World (heap w2) (pg w2) (calls w2 ++ [Reduce 0])).
Proof.
  intros Hep Hpg Hnil Heval. apply wp_run. unfold train. cbv zeta.
  destruct (Z.to_nat (num_epochs a)) as [|k] eqn:Hk; [lia|].
  cbn [seq foldM]. wp_simp. cbn [heap pg calls]. rewrite Hpg. wp_simp.
  cbn [snd]. fold (train_sampler a). rewrite Hnil. cbn [enumerate length seq zip_with foldM].
  wp_simp.
  unfold train_setup_calls in Heval. cbn [app] in Heval. rewrite Hpg in Heval.
  rewrite <-!app_assoc. cbn [app].
  unfold wp at 1. rewrite Heval. rewrite decide_True by done. by wp_simp.
Qed.

End Runs.

(** ** One process, from [init_process_group] to [destroy_process_group] *)

Section InGroup.
Context `{Library}.
Variables (proc_id nprocs : nat) (d : Z) (path : string) (c0 : list call).

Lemma in_group_log w c :
  worker_call proc_id d path c →
  in_group proc_id nprocs d path c0 w →
  in_group proc_id nprocs d path c0 (World (heap w) (pg w) (calls w ++ [c])).
Proof. intros Hc [Hpg Hl]. split; [done|]. by apply logs_after_log. Qed.

Lemma in_group_log' w c h :
  worker_call proc_id d path c →
  in_group proc_id nprocs d path c0 w →
  in_group proc_id nprocs d path c0 (World h (Some (nprocs, proc_id)) (calls w ++ [c])).
Proof. intros Hc [Hpg Hl]. split; [done|]. by apply logs_after_log. Qed.

Lemma in_group_calls w w' cs :
  in_group proc_id nprocs d path c0 w →
  calls w' = calls w ++ cs → pg w' = pg w →
  Forall (worker_call proc_id d path) cs →
  in_group proc_id nprocs d path c0 w'.
Proof.
  intros [Hpg Hl] Hc Hp Hcs. split; [by rewrite Hp|]. by eapply logs_after_calls.
Qed.

Lemma in_group_heap w h :
  in_group proc_id nprocs d path c0 w →
  in_group proc_id nprocs d path c0 (World h (pg w) (calls w)).
Proof. done. Qed.

Lemma inference_call_worker n dv batch_size use_uva c :
  inference_call n dv d batch_size use_uva c → worker_call proc_id d path c.
Proof. destruct c; try done. by intros (g' & -> & _). Qed.

Lemma evaluate_in_group m g num_classes dl n w :
  in_group proc_id nprocs d path c0 w →
  wp (evaluate d m g num_classes dl n)
     (λ _, in_group proc_id nprocs d path c0)
     (λ _, in_group proc_id nprocs d path c0) w.
Proof.
  intros Hw.
  eapply wp_mono; [apply evaluate_frame|..].
  - intros [] w' [-> _]. eapply in_group_calls; [done..|]. by repeat constructor.
  - intros e w' [-> _]. by apply in_group_log.
Qed.

Lemma train_in_group a g num_classes train_idx val_idx m use_uva w :
  path = log_path_of a nprocs →
  in_group proc_id nprocs d path c0 w →
  wp (train proc_id nprocs d a g num_classes train_idx val_idx m use_uva)
     (λ _, in_group proc_id nprocs d path c0)
     (λ _, in_group proc_id nprocs d path c0) w.
Proof.
  intros Hpath Hw. unfold train. cbv zeta. wp_simp.
  set (J := in_group proc_id nprocs d path c0).
  eapply (wp_mono _ (λ _, J) _ (λ _, J)).
  - apply (wp_foldM _ _ (λ _, J)).
    2:{ do 3 (apply in_group_log; [done|]). done. }
    intros epoch it wi _ Hwi. wp_simp. cbn [pg heap calls].
    pose proof Hwi as [Hpi _]. rewrite Hpi. wp_simp.
    eapply (wp_mono _ (λ _, J) _ (λ _, J)).
    + apply (wp_foldM _ _ (λ _, J)); [|by apply in_group_log'].
      intros [i b] it' wj _ Hwj. wp_simp.
      destruct (Py.index (blocks b) 0); [|done]. wp_simp.
      eapply wp_mono; [by apply wp_prefetched_pure| |done].
      intros x wk Hwk. cbv beta. wp_simp.
      destruct (Py.index_last (blocks b)); [|done]. wp_simp.
      eapply wp_mono; [by apply wp_prefetched_pure| |done].
      intros y wl Hwl. cbv beta. wp_simp.
      by repeat (apply in_group_log; [done|]).
    + intros it' wj Hwj. cbv beta. wp_simp.
      eapply wp_mono; [by apply evaluate_in_group| |done].
      intros [] wk Hwk. cbv beta. wp_simp.
      assert (J (World (heap wk) (pg wk) (calls wk ++ [Reduce 0]))) as Hred
        by by apply in_group_log.
      destruct (decide (proc_id = 0%nat)); [destruct it'|]; wp_simp; try done.
      by apply in_group_log.
    + done.
  - intros it wi Hwi. cbv beta. wp_simp.
    assert (J (World (heap wi) (pg wi) (calls wi ++ [Reduce 0]))) as Hred
      by by apply in_group_log.
    destruct (decide (proc_id = 0%nat)); wp_simp; [|done].
    destruct (ids_len train_idx); wp_simp; [|done].
    by apply in_group_log.
  - done.
Qed.

Lemma layerwise_infer_in_group g num_classes nid m (use_uva : bool) batch_size w :
  in_group proc_id nprocs d path c0 w →
  wp (layerwise_infer proc_id d g num_classes nid m use_uva path batch_size)
     (λ _, in_group proc_id nprocs d path c0)
     (λ _, in_group proc_id nprocs d path c0) w.
Proof.
  intros Hw. unfold layerwise_infer. wp_simp.
  set (J := in_group proc_id nprocs d path c0).
  assert (J (World (heap w) (pg w) (calls w ++ [ModelEval]))) as Hw0
    by by apply in_group_log.
  eapply (wp_mono _ (λ _, J) _ (λ _, J)).
  - destruct use_uva; cbn [negb]; [by wp_simp|].
    eapply wp_mono; [apply graph_to_spec| |].
    + intros g1 w1 (_ & _ & Hc & Hp). eapply in_group_calls; [done..|].
      apply Forall_singleton. by left.
    + intros e w1 [Hc Hp]. eapply in_group_calls; [done..|].
      apply Forall_singleton. by left.
  - intros g1 w1 Hw1. rewrite wp_bind.
    eapply wp_mono; [apply model_inference_spec| |].
    + intros [pred g2] w2 (new & t & Hc & HF & _ & _ & _ & _ & _ & _ & _ & _ & Hp).
      cbv beta.
      assert (J w2) as Hw2.
      { eapply in_group_calls; [done..|]. eapply Forall_impl; [done|].
        intros c. apply inference_call_worker. }
      rewrite wp_bind. eapply wp_mono; [by apply wp_gather_pure| |done].
      intros rs3 w3 Hw3. cbv beta. wp_simp.
      destruct (ndata g2 !! "labels"); [|done].
      rewrite wp_bind. eapply wp_mono; [by apply wp_gather_pure| |done].
      intros rs4 w4 Hw4. cbv beta.
      destruct (decide (proc_id = 0%nat)); wp_simp; [|done].
      apply in_group_log; [done|]. by apply in_group_log.
    + intros e w2 [(new & Hc & HF) Hp].
      eapply in_group_calls; [done..|]. eapply Forall_impl; [done|].
      intros c. apply inference_call_worker.
  - done.
Qed.

End InGroup.

Section RunInGroup.
Context `{Library}.

Lemma run_prepare_in_group proc_id nprocs devices g a d path w :
  devices !! proc_id = Some d →
  wp (run_prepare proc_id nprocs devices g a)
     (λ p w', p_device p = d ∧
              in_group proc_id nprocs d path (calls w ++ run_start proc_id nprocs d) w')
     (λ _, in_group proc_id nprocs d path (calls w ++ run_start proc_id nprocs d)) w.
Proof.
  intros Hd. unfold run_prepare, Py.index. rewrite Hd. cbn [of_option].
  wp_simp. cbn [pg heap calls].
  set (J := in_group proc_id nprocs d path (calls w ++ run_start proc_id nprocs d)).
  assert (J (World (heap w) (Some (nprocs, proc_id))
     ((calls w ++ [CudaSetDevice d]) ++
      [InitProcessGroup "nccl" "tcp://127.0.0.1:12345" nprocs proc_id]))) as Hw0.
  { split; [done|]. unfold run_start. rewrite <-app_assoc. apply logs_after_start. }
  revert Hw0. generalize (World (heap w) (Some (nprocs, proc_id))
     ((calls w ++ [CudaSetDevice d]) ++
      [InitProcessGroup "nccl" "tcp://127.0.0.1:12345" nprocs proc_id])).
  intros w0 Hw0.
  destruct (ndata g !! "labels") as [labels|]; [|done]. wp_simp.
  eapply (wp_mono _ (λ _, J) _ (λ _, J)); [by apply wp_max_item_pure| |done].
  intros mx w1 Hw1. cbv beta. wp_simp.
  destruct (ndata g !! "train_mask") as [t1|]; [|done]. wp_simp.
  eapply (wp_mono _ (λ _, J) _ (λ _, J));
    [apply wp_nonzero_squeeze_pure; by apply in_group_log| |done].
  intros train_idx w2 Hw2. cbv beta. wp_simp. cbn [ndata].
  destruct (delete "train_mask" (ndata g) !! "val_mask") as [t2|]; [|done]. wp_simp.
  eapply (wp_mono _ (λ _, J) _ (λ _, J));
    [apply wp_nonzero_squeeze_pure; by apply in_group_log| |done].
  intros val_idx w3 Hw3. cbv beta. wp_simp. cbn [ndata].
  destruct (delete "val_mask" _ !! "test_mask") as [t3|]; [|done]. wp_simp.
  eapply (wp_mono _ (λ _, J) _ (λ _, J));
    [apply wp_nonzero_squeeze_pure; by apply in_group_log| |done].
  intros test_idx w4 Hw4. cbv beta. wp_simp.
  eapply (wp_mono _ (λ _, J) _ (λ _, J)).
  - destruct (negb _); wp_simp; [|done].
    eapply wp_mono; [apply graph_to_spec| |].
    + intros g1 w5 (_ & _ & Hc & Hp). wp_simp.
      eapply in_group_calls; [done..|]. apply Forall_singleton.
      destruct (String.eqb _ _); [by left|by right].
    + intros e w5 [Hc Hp]. eapply in_group_calls; [done..|]. apply Forall_singleton.
      destruct (String.eqb _ _); [by left|by right].
  - intros [[train_idx' val_idx'] g1] w5 Hw5. wp_simp.
    destruct (ndata g1 !! "features") as [features|]; [|done]. wp_simp.
    destruct (heap w5 !! features); [|done]. by wp_simp.
  - done.
Qed.

Lemma build_model_in_group proc_id nprocs a in_size num_classes d path c0 w :
  in_group proc_id nprocs d path c0 w →
  wp (build_model a in_size num_classes d)
     (λ _, in_group proc_id nprocs d path c0)
     (λ _, in_group proc_id nprocs d path c0) w.
Proof.
  intros Hw. unfold build_model.
  destruct (String.eqb (model_name a) "sage").
  - cbv zeta. wp_simp. by apply in_group_log.
  - destruct (String.eqb (model_name a) "gat"); [|by wp_simp].
    wp_simp. destruct (GAT_init _ _ _ _ _ _ _) as [self|e]; [|done]. wp_simp.
    by apply in_group_log.
Qed.

Lemma run_model_in_group proc_id nprocs a p om c0 w :
  let path := log_path_of a nprocs in
  in_group proc_id nprocs (p_device p) path c0 w →
  wp (run_model proc_id nprocs a p om)
     (λ _ w', pg w' = None ∧
              ∃ rest, calls w' = c0 ++ rest ++ [DestroyProcessGroup] ∧
                      Forall (worker_call proc_id (p_device p) path) rest)
     (λ _, in_group proc_id nprocs (p_device p) path c0) w.
Proof.
  intros path Hw. unfold run_model. destruct om as [m|]; wp_simp; [|done].
  set (J := in_group proc_id nprocs (p_device p) path c0).
  assert (J (World (heap w) (pg w)
               (calls w ++ [DistributedDataParallel m [p_device p] (p_device p)])))
    as Hw1 by by apply in_group_log.
  eapply (wp_mono _ (λ _, J) _ (λ _, J)); [by apply train_in_group| |done].
  intros [] w2 Hw2. rewrite wp_bind.
  eapply (wp_mono _ (λ _, J) _ (λ _, J)); [by apply layerwise_infer_in_group| |done].
  intros [] w3 [Hp (rest & Hc & HF)]. wp_simp. cbn [pg calls]. split; [done|].
  exists rest. by rewrite Hc, <-app_assoc.
Qed.

(** A run of [run] on its device: either it returns, having destroyed the
    process group as its last call, or it raises and is still a member of
    the group. *)
Lemma run_in_group proc_id nprocs devices g a d w :
  devices !! proc_id = Some d →
  let path := log_path_of a nprocs in
  wp (run proc_id nprocs devices g a)
     (λ _ w', pg w' = None ∧
              ∃ rest, calls w' = calls w ++ run_start proc_id nprocs d
                                   ++ rest ++ [DestroyProcessGroup] ∧
                      Forall (worker_call proc_id d path) rest)
     (λ _ w', pg w' = Some (nprocs, proc_id) ∧
              ∃ rest, calls w' = calls w ++ run_start proc_id nprocs d ++ rest ∧
                      Forall (worker_call proc_id d path) rest) w.
Proof.
  intros Hd path. unfold run. rewrite wp_bind.
  set (J := in_group proc_id nprocs d path (calls w ++ run_start proc_id nprocs d)).
  assert (∀ (e : exn) w', J w' →
            pg w' = Some (nprocs, proc_id) ∧
            ∃ rest, calls w' = calls w ++ run_start proc_id nprocs d ++ rest ∧
                    Forall (worker_call proc_id d path) rest) as HJ.
  { intros _ w' [Hp (rest & Hc & HF)]. split; [done|]. exists rest.
    by rewrite Hc, <-app_assoc. }
  eapply wp_mono; [exact (run_prepare_in_group proc_id nprocs devices g a d path w Hd)| |exact HJ].
  intros p w1 [<- Hw1]. cbv beta. rewrite wp_bind.
  eapply wp_mono; [by apply build_model_in_group| |exact HJ].
  intros om w2 Hw2. cbv beta.
  eapply wp_mono; [exact (run_model_in_group proc_id nprocs a p om _ w2 Hw2)| |exact HJ].
  intros [] w3 [Hp (rest & Hc & HF)]. split; [done|]. exists rest.
  by rewrite Hc, <-app_assoc.
Qed.

Lemma run_no_device proc_id nprocs devices g a w :
  devices !! proc_id = None →
  run proc_id nprocs devices g a w = (Raise IndexError, w).
Proof.
  intros Hd. unfold run, run_prepare, Py.index. rewrite Hd.
  by unfold mbind, M_bind, lift.
Qed.

(** X11. The process group of a worker.  [run] sets the device, then
    initialises the group with [nprocs] members and its own rank, and does
    not initialise it again.  When [run] returns, destroying the group was
    its last call, made once, and the process is in no group.  When [run]
    raises after that, the group was never destroyed and the process is
    still a member; a process id without a device makes [run] raise
    [IndexError] before it does anything. *)
Theorem run_process_group proc_id nprocs devices g a w r w' :
  run proc_id nprocs devices g a w = (r, w') →
  match devices !! proc_id with
  | None => r = Raise IndexError ∧ w' = w
  | Some d =>
      ∃ new,
        calls w' = calls w ++ CudaSetDevice d
                     :: InitProcessGroup "nccl" "tcp://127.0.0.1:12345" nprocs proc_id
                     :: new ∧
        (∀ backend init_method size rank,
           InitProcessGroup backend init_method size rank ∉ new) ∧
        match r with
        | Ok _ => pg w' = None ∧
                  ∃ rest, new = rest ++ [DestroyProcessGroup] ∧
                          DestroyProcessGroup ∉ rest
        | Raise _ => pg w' = Some (nprocs, proc_id) ∧ DestroyProcessGroup ∉ new
        end
  end.
Proof.
  intros Hrun. destruct (devices !! proc_id) as [d|] eqn:Hd.
  2:{ rewrite run_no_device in Hrun by done. by injection Hrun as <- <-. }
  pose proof (run_in_group proc_id nprocs devices g a d w Hd) as Hwp.
  destruct r as [[]|e].
  - apply (wp_ok _ _ _ _ _ _ Hrun) in Hwp as (Hp & rest & Hc & HF).
    rewrite Forall_forall in HF.
    exists (rest ++ [DestroyProcessGroup]). split; [done|]. split.
    + intros b i n k [Hin|Hin%list_elem_of_singleton]%elem_of_app; [|done].
      exact (HF _ Hin).
    + split; [done|]. exists rest. split; [done|]. intros Hin. exact (HF _ Hin).
  - apply (wp_raised _ _ _ _ _ _ Hrun) in Hwp as (Hp & rest & Hc & HF).
    rewrite Forall_forall in HF.
    exists rest. split; [done|]. split.
    + intros b i n k Hin. exact (HF _ Hin).
    + split; [done|]. intros Hin. exact (HF _ Hin).
Qed.

(** X12. Only process 0 writes to the log file, and always to the one
    file named after the dataset, the number of processes and the model;
    this holds whether [run] returns or raises. *)
Theorem run_reports_from_rank_zero proc_id nprocs devices g a w r w' :
  run proc_id nprocs devices g a w = (r, w') →
  ∃ new, calls w' = calls w ++ new ∧
         ∀ p, Report p ∈ new → proc_id = 0%nat ∧ p = log_path_of a nprocs.
Proof.
  intros Hrun. destruct (devices !! proc_id) as [d|] eqn:Hd.
  2:{ rewrite run_no_device in Hrun by done. injection Hrun as <- <-.
      exists []. rewrite app_nil_r. split; [done|]. by intros p Hin%elem_of_nil. }
  pose proof (run_in_group proc_id nprocs devices g a d w Hd) as Hwp.
  assert (∀ rest p, Forall (worker_call proc_id d (log_path_of a nprocs)) rest →
            Report p ∈ rest → proc_id = 0%nat ∧ p = log_path_of a nprocs) as Hrep.
  { intros rest p HF Hin. rewrite Forall_forall in HF. exact (HF _ Hin). }
  destruct r as [[]|e].
  - apply (wp_ok _ _ _ _ _ _ Hrun) in Hwp as (Hp & rest & Hc & HF).
    eexists. split; [done|]. intros p Hin.
    apply elem_of_app in Hin as [Hin|Hin]; [by repeat (apply elem_of_cons in Hin as [?|Hin]; [done|]); apply elem_of_nil in Hin|].
    apply elem_of_app in Hin as [Hin|Hin%list_elem_of_singleton]; [|done].
    by eapply Hrep.
  - apply (wp_raised _ _ _ _ _ _ Hrun) in Hwp as (Hp & rest & Hc & HF).
    eexists. split; [done|]. intros p Hin.
    apply elem_of_app in Hin as [Hin|Hin]; [by repeat (apply elem_of_cons in Hin as [?|Hin]; [done|]); apply elem_of_nil in Hin|].
    by eapply Hrep.
Qed.

(** X13. A worker stays on its own device [devices[proc_id]]: that is the
    device it selects, every data loader it builds, in training as in
    inference, is on that device, splits its ids between the processes
    ([use_ddp]) and keeps the last partial batch, the model is moved to
    that device and wrapped for it only, and the graph is moved nowhere
    but to that device or to the host. *)
Theorem run_stays_on_its_device proc_id nprocs devices g a d w r w' :
  devices !! proc_id = Some d →
  run proc_id nprocs devices g a w = (r, w') →
  ∃ new, calls w' = calls w ++ new ∧
    (∀ d', CudaSetDevice d' ∈ new → d' = d) ∧
    (∀ dl, NewDataLoader dl ∈ new →
       dl_device dl = d ∧ dl_use_ddp dl = true ∧ dl_drop_last dl = false) ∧
    (∀ m d', ModuleTo m d' ∈ new → d' = d) ∧
    (∀ m device_ids output_device,
       DistributedDataParallel m device_ids output_device ∈ new →
       device_ids = [d] ∧ output_device = d) ∧
    (∀ dv, GraphTo dv ∈ new → dv = Cuda d ∨ dv = Cpu).
Proof.
  intros Hd Hrun.
  pose proof (run_in_group proc_id nprocs devices g a d w Hd) as Hwp.
  set (path := log_path_of a nprocs) in Hwp.
  assert (∃ new, calls w' = calls w ++ new ∧
            ∀ c, c ∈ new →
              c = CudaSetDevice d ∨
              c = InitProcessGroup "nccl" "tcp://127.0.0.1:12345" nprocs proc_id ∨
              c = DestroyProcessGroup ∨ worker_call proc_id d path c)
    as (new & Hc & Hall).
  { destruct r as [[]|e].
    - apply (wp_ok _ _ _ _ _ _ Hrun) in Hwp as (_ & rest & Hc & HF).
      rewrite Forall_forall in HF. eexists. split; [exact Hc|].
      intros c [Hin|[Hin|Hin]%elem_of_app]%elem_of_app.
      + apply elem_of_cons in Hin as [->|Hin]; [by left|].
        apply list_elem_of_singleton in Hin as ->. by right; left.
      + do 3 right. by apply HF.
      + apply list_elem_of_singleton in Hin as ->. by right; right; left.
    - apply (wp_raised _ _ _ _ _ _ Hrun) in Hwp as (_ & rest & Hc & HF).
      rewrite Forall_forall in HF. eexists. split; [exact Hc|].
      intros c [Hin|Hin]%elem_of_app.
      + apply elem_of_cons in Hin as [->|Hin]; [by left|].
        apply list_elem_of_singleton in Hin as ->. by right; left.
      + do 3 right. by apply HF. }
  exists new. split; [done|]. split; [|split; [|split; [|split]]].
  - intros d' Hin. by destruct (Hall _ Hin) as [[= ->]|[?|[?|?]]].
  - intros dl Hin. by destruct (Hall _ Hin) as [?|[?|[?|?]]].
  - intros m d' Hin. by destruct (Hall _ Hin) as [?|[?|[?|?]]].
  - intros m ids out Hin. by destruct (Hall _ Hin) as [?|[?|[?|?]]].
  - intros dv Hin. by destruct (Hall _ Hin) as [?|[?|[?|?]]].
Qed.

End RunInGroup.

(** ** What inference returns *)

Section Output.
Context `{Library}.

Lemma last_enumerate {A} (xs : list A) l x :
  last (enumerate xs) = Some (l, x) → l = pred (length xs) ∧ last xs = Some x.
Proof.
  unfold enumerate. rewrite !last_lookup, length_zip, length_seq, Nat.min_id.
  intros (l' & x' & [= -> ->] & Hl & Hx)%lookup_zip_with_Some.
  by apply lookup_seq in Hl as [-> _].
Qed.

(** The tensor [inference] returns is the shared tensor of the last layer:
    it lives in host memory and has the width computed for that layer. *)
Lemma inference_layers_output layers width post g device batch_size use_uva w :
  wp (inference_layers layers width post g device batch_size use_uva)
     (λ r w', ∃ t, heap w' !! r.1 = Some t ∧ t_dev t = Cpu ∧
                   width (pred (length layers)) = Ok (t_dim1 t) ∧ layers ≠ [])
     (λ _ _, True) w.
Proof.
  unfold inference_layers. wp_simp.
  destruct (ndata g !! "features") as [feats|]; [|done]. wp_simp.
  set (I := λ (pre : list (nat * conv)) (s : option loc * graph) (wi : world),
    match s.1 with
    | Some y => ∃ t l layer, last pre = Some (l, layer) ∧ heap wi !! y = Some t ∧
                             t_dev t = Cpu ∧ width l = Ok (t_dim1 t)
    | None => True
    end).
  eapply (wp_mono _ _ _ (λ _ _, True)).
  - apply (wp_foldM_prefix _ _ I); [|done].
    intros pre [l layer] rest [yo gi] wi _ _. wp_simp.
    destruct (width l) as [c|e] eqn:Hc; [|done]. wp_simp.
    destruct (c <? 0)%Z; [done|]. wp_simp. cbn [pg heap calls].
    destruct (pg wi) as [[ws rank]|]; [|done]. wp_simp. cbn [pg heap calls snd].
    set (y := length (heap wi)).
    set (J := λ wj : world,
      ∃ t, heap wj !! y = Some t ∧ t_dev t = Cpu ∧ t_dim1 t = c).
    rewrite wp_bind.
    eapply (wp_mono _ (λ _, J) _ (λ _ _, True)).
    + apply wp_forM_.
      * intros b wj _ HJ. wp_simp.
        destruct (Py.index (blocks b) 0) as [blk|e]; [|done]. wp_simp.
        eapply (wp_mono _ (λ _, J) _ (λ _, J));
          [by apply wp_prefetched_pure| |done].
        intros x wj' (t & Hyt & Hdev & Hdim). cbv beta. wp_simp. rewrite Hyt.
        destruct (negb (forallb _ _)); [done|].
        destruct (negb (_ =? _)%nat); [done|].
        eexists. cbn [heap]. split.
        { apply list_lookup_insert_eq. by eapply lookup_lt_Some. }
        done.
      * eexists. cbn [heap]. split; [by apply list_lookup_middle|done].
    + intros [] wj (t & Hyt & Hdev & Hdim). wp_simp.
      assert (∀ a hp c', hp !! y = Some t →
        I (pre ++ [(l, layer)])
          (Some y, Graph (num_nodes gi) (g_dev gi) (<["h":=a]> (ndata gi)))
          (World hp (pg wj) c')) as Hfin.
      { intros a hp c' Hlook. exists t, l, layer. rewrite last_snoc.
        by rewrite Hdim. }
      destruct use_uva; wp_simp; cbn [heap pg calls]; [by apply Hfin|].
      rewrite Hyt. destruct (decide (t_dev t = Cuda device)); wp_simp.
      * by apply Hfin.
      * cbn [heap pg calls]. apply Hfin. rewrite lookup_app_l; [done|].
        by eapply lookup_lt_Some.
    + done.
  - intros [yo gf] wf HI. wp_simp.
    destruct (ndata gf !! "h"); [|done]. wp_simp.
    destruct yo as [y|]; wp_simp; [|done].
    destruct HI as (t & l & layer & Hlast & Hyt & Hdev & Hw). cbn.
    apply last_enumerate in Hlast as [-> Hlast]. exists t.
    do 3 (split; [done|]). by intros ->.
  - done.
Qed.

(** X14. The predictions come back in host memory, whatever the mode:
    the tensor [inference] returns is the shared tensor of the last layer,
    not its copy on the device.  It has one row per node of the graph and
    [out_size] columns, for every SAGE model and for every GAT model built
    by [GAT.__init__], whose last head count is 1. *)
Theorem inference_output_on_host g device batch_size use_uva w y g' w' :
  (∀ self,
     SAGE_inference self g device batch_size use_uva w = (Ok (y, g'), w') →
     ∃ t, heap w' !! y = Some t ∧ t_dev t = Cpu ∧
          length (t_rows t) = num_nodes g ∧ t_dim1 t = sage_out_size self) ∧
  (∀ in_size hid_size out_size n_heads act fd ad self,
     GAT_init in_size hid_size out_size n_heads act fd ad = Ok self →
     GAT_inference self g device batch_size use_uva w = (Ok (y, g'), w') →
     ∃ t, heap w' !! y = Some t ∧ t_dev t = Cpu ∧
          length (t_rows t) = num_nodes g ∧ t_dim1 t = out_size).
Proof.
  split.
  - intros self Hrun. unfold SAGE_inference in Hrun.
    pose proof (wp_ok _ _ _ _ _ _ Hrun (inference_layers_spec _ _ _ _ _ _ _ _))
      as (new & t & _ & _ & Hsets & Hdl & _ & _ & _ & Hyt & Hrows & _).
    pose proof (wp_ok _ _ _ _ _ _ Hrun (inference_layers_output _ _ _ _ _ _ _ _))
      as (t' & Hyt' & Hdev & Hw & Hne').
    cbn in Hyt, Hyt'. rewrite Hyt in Hyt'. injection Hyt' as <-.
    exists t. do 3 (split; [done|]).
    unfold not_last in Hw.
    destruct (Z.eqb_spec (Z.of_nat (pred (length (sage_layers self))))
                (Z.of_nat (length (sage_layers self)) - 1)) as [_|Hne];
      cbn in Hw; [by injection Hw|].
    destruct (sage_layers self); cbn in *; [done|lia].
  - intros in_size hid_size out_size n_heads act fd ad self Hinit Hrun.
    unfold GAT_inference in Hrun.
    pose proof (wp_ok _ _ _ _ _ _ Hrun (inference_layers_spec _ _ _ _ _ _ _ _))
      as (new & t & _ & _ & _ & _ & _ & _ & _ & Hyt & Hrows & _).
    pose proof (wp_ok _ _ _ _ _ _ Hrun (inference_layers_output _ _ _ _ _ _ _ _))
      as (t' & Hyt' & Hdev & Hw & Hne').
    cbn in Hyt, Hyt'. rewrite Hyt in Hyt'. injection Hyt' as <-.
    exists t. do 3 (split; [done|]).
    pose proof (GAT_init_inv _ _ _ _ _ _ _ _ Hinit) as (Hlast & Hl & Hself).
    assert (length (gat_layers self) = length n_heads) as Hlen.
    { apply mapR_length in Hl. by rewrite length_seq in Hl. }
    rewrite Hself in Hw. cbn [gat_n_heads gat_out_size gat_hid_size gat_layers] in Hw.
    rewrite Hlen in Hw. rewrite last_lookup in Hlast. unfold Py.index in Hw.
    rewrite Hlast in Hw. cbn in Hw. unfold not_last in Hw. rewrite Hlen in Hw.
    destruct (Z.eqb_spec (Z.of_nat (pred (length n_heads)))
                (Z.of_nat (length n_heads) - 1)) as [_|Hne].
    + cbn in Hw. injection Hw as <-. lia.
    + destruct n_heads; [done|]. cbn in Hne. lia.
Qed.

End Output.

(** ** What [run] prepares *)

Section Prepare.
Context `{Library}.

Lemma wp_mapM_rel {A B} (f : A → M B) (R : A → B → Prop) E xs w :
  (∀ x w, x ∈ xs → wp (f x) (λ y _, R x y) E w) →
  wp (mapM f xs) (λ ys _, Forall2 R xs ys) E w.
Proof.
  revert w. induction xs as [|x xs IH]; intros w Hf; simpl.
  - rewrite wp_ret. constructor.
  - rewrite wp_bind. eapply wp_mono; [apply Hf; by left| |done].
    intros y w' Hy. cbv beta. rewrite wp_bind.
    eapply wp_mono; [apply IH| |done].
    + intros x' w'' Hx'. apply Hf. by right.
    + intros ys w'' Hys. rewrite wp_ret. by constructor.
Qed.

Lemma Forall2_fst_eq {A B C} (xs : list (A * B)) (ys : list (A * C)) :
  Forall2 (λ x y, y.1 = x.1) xs ys → ys.*1 = xs.*1.
Proof. induction 1 as [|x y xs ys Hxy _ IH]; [done|]. cbn. by rewrite Hxy, IH. Qed.

Lemma is_Some_list_to_map {A} (kls : list (string * A)) k :
  is_Some ((list_to_map kls : gmap string A) !! k) ↔ k ∈ kls.*1.
Proof.
  rewrite <-not_eq_None_Some, <-not_elem_of_list_to_map.
  destruct (decide (k ∈ kls.*1)); naive_solver.
Qed.

Lemma elem_of_map_to_list_fst {A} (m : gmap string A) k :
  k ∈ (map_to_list m).*1 ↔ is_Some (m !! k).
Proof.
  rewrite list_elem_of_fmap. split.
  - intros ([k' l] & -> & Hin). apply elem_of_map_to_list in Hin. by eexists.
  - intros [l Hl]. exists (k, l). split; [done|]. by apply elem_of_map_to_list.
Qed.

(** [g.to(device)] keeps the nodes and the keys of the frame. *)
Lemma graph_to_frame g d w :
  wp (graph_to g d)
     (λ g' _, num_nodes g' = num_nodes g ∧ g_dev g' = d ∧
              ∀ k, is_Some (ndata g' !! k) ↔ is_Some (ndata g !! k))
     (λ _ _, True) w.
Proof.
  unfold graph_to. wp_simp. destruct (decide (g_dev g = d)); wp_simp; [done|].
  eapply wp_mono; [apply (wp_mapM_rel _ (λ x y, y.1 = x.1) (λ _ _, True))| |done].
  - intros [k l] wi _. wp_simp. cbn [snd fst].
    destruct (heap wi !! l) as [t|]; [|done].
    destruct (decide (t_dev t = d)); by wp_simp.
  - intros kls wi Hkls. wp_simp. cbn. do 2 (split; [done|]). intros k.
    by rewrite is_Some_list_to_map, (Forall2_fst_eq _ _ Hkls), elem_of_map_to_list_fst.
Qed.

(** The node ids [mask.nonzero().squeeze()] lists. *)
Lemma elem_of_nonzero_rows (rows : list row) d i :
  i ∈ ids_list (squeeze d (fst <$> filter (λ p, nonzero (snd p) = true)
                                          (enumerate rows)))
  ↔ ∃ r, rows !! i = Some r ∧ nonzero r = true.
Proof.
  assert (∀ ns, ids_list (squeeze d ns) = ns) as -> by by intros [|? []].
  rewrite list_elem_of_fmap. split.
  - intros ([i' r] & -> & [Hnz Hin]%list_elem_of_filter). cbn in *.
    exists r. split; [|done]. unfold enumerate in Hin.
    apply list_elem_of_lookup in Hin as [j Hj].
    apply lookup_zip_with_Some in Hj as (? & ? & [= <- <-] & Hs & Hr).
    by apply lookup_seq in Hs as [-> _].
  - intros (r & Hr & Hnz). exists (i, r). split; [done|].
    apply list_elem_of_filter. split; [done|]. unfold enumerate.
    apply list_elem_of_lookup. exists i. apply lookup_zip_with_Some.
    exists i, r. split; [done|]. split; [|done].
    apply lookup_seq. split; [done|]. by eapply lookup_lt_Some.
Qed.

Lemma foldl_max_le (z : Z) zs :
  (z ≤ foldl Z.max z zs)%Z ∧ Forall (λ x, (x ≤ foldl Z.max z zs)%Z) zs.
Proof.
  revert z. induction zs as [|x zs IH]; intros z; cbn; [by split|].
  destruct (IH (Z.max z x)) as [Hz HF]. split; [lia|].
  constructor; [lia|done].
Qed.

Lemma foldl_max_elem (z : Z) zs : foldl Z.max z zs ∈ z :: zs.
Proof.
  revert z. induction zs as [|x zs IH]; intros z; cbn; [by left|].
  specialize (IH (Z.max z x)). apply elem_of_cons in IH as [Hm|Hm].
  - rewrite Hm. destruct (Z.max_spec z x) as [[_ ->]|[_ ->]].
    + right. by left.
    + by left.
  - right. by right.
Qed.

Lemma run_prepare_result proc_id nprocs devices g a d w :
  devices !! proc_id = Some d →
  wp (run_prepare proc_id nprocs devices g a)
     (λ p w', ∃ ll lt tl tt vl vt sl st,
        (ndata g !! "labels" = Some ll ∧ heap w !! ll = Some lt) ∧
        (ndata g !! "train_mask" = Some tl ∧ heap w !! tl = Some tt) ∧
        (ndata g !! "val_mask" = Some vl ∧ heap w !! vl = Some vt) ∧
        (ndata g !! "test_mask" = Some sl ∧ heap w !! sl = Some st) ∧
        p_device p = d ∧
        (∃ r rs, t_rows lt = r :: rs ∧
                 p_num_classes p
                 = if String.eqb (dataset_name a) "ogb-paper100M" then 172
                   else foldl Z.max (item r) (item <$> rs) + 1) ∧
        (let nz t := squeeze (t_dev t)
                       (fst <$> filter (λ p, nonzero (snd p) = true)
                                       (enumerate (t_rows t))) in
         let move t := if String.eqb (mode a) "benchmark" then t
                       else ids_to (Cuda d) t in
         p_train_idx p = move (nz tt) ∧ p_val_idx p = move (nz vt) ∧
         p_test_idx p = nz st) ∧
        num_nodes (p_g p) = num_nodes g ∧
        g_dev (p_g p) = (if String.eqb (mode a) "benchmark" then g_dev g
                         else if String.eqb (mode a) "puregpu" then Cuda d
                         else Cpu) ∧
        ∀ k, is_Some (ndata (p_g p) !! k)
             ↔ is_Some (ndata g !! k) ∧
               k ≠ "train_mask" ∧ k ≠ "val_mask" ∧ k ≠ "test_mask")
     (λ _ _, True) w.
Proof.
  intros Hd. unfold run_prepare, Py.index, max_item, nonzero_squeeze.
  rewrite Hd. cbn [of_option]. wp_simp. cbn [pg heap calls].
  destruct (ndata g !! "labels") as [ll|] eqn:Hll; [|done]. wp_simp. cbn [heap].
  destruct (heap w !! ll) as [lt|] eqn:Hlt; [|done].
  destruct (t_rows lt) as [|r rs] eqn:Hrows; wp_simp; [done|].
  destruct (ndata g !! "train_mask") as [tl|] eqn:Htl; [|done]. wp_simp. cbn [heap].
  destruct (heap w !! tl) as [tt|] eqn:Htt; [|done]. wp_simp. cbn [ndata].
  destruct (delete "train_mask" (ndata g) !! "val_mask") as [vl|] eqn:Hvl; [|done].
  wp_simp. cbn [heap].
  destruct (heap w !! vl) as [vt|] eqn:Hvt; [|done]. wp_simp. cbn [ndata].
  destruct (delete "val_mask" _ !! "test_mask") as [sl|] eqn:Hsl; [|done].
  wp_simp. cbn [heap].
  destruct (heap w !! sl) as [st|] eqn:Hst; [|done]. wp_simp.
  rewrite lookup_delete_ne in Hvl by done.
  rewrite !lookup_delete_ne in Hsl by done.
  set (g3 := Graph _ _ _).
  assert (∀ k, is_Some (ndata g3 !! k)
               ↔ is_Some (ndata g !! k) ∧
                 k ≠ "train_mask" ∧ k ≠ "val_mask" ∧ k ≠ "test_mask") as Hkeys.
  { intros k. unfold g3. cbn [ndata].
    rewrite !lookup_delete_is_Some. intuition congruence. }
  set (Q := λ (r : ids * ids * graph) (_ : world),
    r.1.1 = (if String.eqb (mode a) "benchmark" then
               squeeze (t_dev tt) (fst <$> filter (λ p, nonzero (snd p) = true)
                                                  (enumerate (t_rows tt)))
             else ids_to (Cuda d)
                    (squeeze (t_dev tt) (fst <$> filter (λ p, nonzero (snd p) = true)
                                                        (enumerate (t_rows tt))))) ∧
    r.1.2 = (if String.eqb (mode a) "benchmark" then
               squeeze (t_dev vt) (fst <$> filter (λ p, nonzero (snd p) = true)
                                                  (enumerate (t_rows vt)))
             else ids_to (Cuda d)
                    (squeeze (t_dev vt) (fst <$> filter (λ p, nonzero (snd p) = true)
                                                        (enumerate (t_rows vt))))) ∧
    num_nodes r.2 = num_nodes g ∧
    g_dev r.2 = (if String.eqb (mode a) "benchmark" then g_dev g
                 else if String.eqb (mode a) "puregpu" then Cuda d else Cpu) ∧
    ∀ k, is_Some (ndata r.2 !! k)
         ↔ is_Some (ndata g !! k) ∧
           k ≠ "train_mask" ∧ k ≠ "val_mask" ∧ k ≠ "test_mask").
  eapply (wp_mono _ Q _ (λ _ _, True)).
  - unfold Q. destruct (String.eqb (mode a) "benchmark"); cbn [negb]; wp_simp; [done|].
    eapply wp_mono; [apply graph_to_frame| |done].
    intros g4 w4 (Hn & Hdev & Hk). wp_simp. cbn. do 2 (split; [done|]).
    split; [done|]. split; [done|]. intros k. by rewrite Hk, Hkeys.
  - intros [[ti vi] g4] w4 (Hti & Hvi & Hn & Hdev & Hk). cbn in Hti, Hvi, Hn, Hdev, Hk.
    wp_simp. destruct (ndata g4 !! "features") as [fl|]; [|done]. wp_simp.
    destruct (heap w4 !! fl) as [ft|]; [|done]. wp_simp.
    exists ll, lt, tl, tt, vl, vt, sl, st. cbn.
    do 5 (split; [done|]). split; [by exists r, rs|]. done.
  - done.
Qed.

(** X15. Where [run] puts things before it builds the model.  The graph
    stays where it was loaded in benchmark mode, goes to the worker's GPU
    in puregpu mode and to the host otherwise, with all its nodes.  The
    three mask columns are removed from its frame and no other column is.
    Outside benchmark mode the training and the validation ids are moved
    to the worker's GPU; the test ids stay on the device of the test
    mask. *)
Theorem run_prepare_placement proc_id nprocs devices g a d w p w' :
  devices !! proc_id = Some d →
  run_prepare proc_id nprocs devices g a w = (Ok p, w') →
  p_device p = d ∧
  num_nodes (p_g p) = num_nodes g ∧
  g_dev (p_g p) = (if String.eqb (mode a) "benchmark" then g_dev g
                   else if String.eqb (mode a) "puregpu" then Cuda d else Cpu) ∧
  (∀ k, is_Some (ndata (p_g p) !! k)
        ↔ is_Some (ndata g !! k) ∧
          k ≠ "train_mask" ∧ k ≠ "val_mask" ∧ k ≠ "test_mask") ∧
  (mode a ≠ "benchmark" →
   ids_dev (p_train_idx p) = Cuda d ∧ ids_dev (p_val_idx p) = Cuda d) ∧
  (∃ sl st, ndata g !! "test_mask" = Some sl ∧ heap w !! sl = Some st ∧
            ids_dev (p_test_idx p) = t_dev st).
Proof.
  intros Hd Hrun.
  pose proof (wp_ok _ _ _ _ _ _ Hrun
                (run_prepare_result proc_id nprocs devices g a d w Hd))
    as (ll & lt & tl & tt & vl & vt & sl & st & _ & _ & _ & [Hsl Hst] & Hdev & _
        & (Hti & Hvi & Hsi) & Hn & Hgd & Hk).
  assert (∀ dv ns, ids_dev (squeeze dv ns) = dv) as Hsq by by intros dv [|? []].
  assert (∀ dv t, ids_dev (ids_to dv t) = dv) as Hto by by intros dv [].
  do 4 (split; [done|]). split.
  - intros Hmode. apply String.eqb_neq in Hmode. rewrite Hmode in Hti, Hvi.
    by rewrite Hti, Hvi, !Hto.
  - exists sl, st. do 2 (split; [done|]). by rewrite Hsi, Hsq.
Qed.

(** X16. What [run] reads off the graph.  The number of classes is the
    largest label plus one, so that every label is below it, unless the
    dataset is ["ogb-paper100M"], for which it is 172 whatever the labels.
    The training, validation and test ids are exactly the nodes whose
    mask is set. *)
Theorem run_prepare_classes_and_ids proc_id nprocs devices g a w p w' :
  run_prepare proc_id nprocs devices g a w = (Ok p, w') →
  ∃ lt tt vt st,
    (∃ l, ndata g !! "labels" = Some l ∧ heap w !! l = Some lt) ∧
    (∃ l, ndata g !! "train_mask" = Some l ∧ heap w !! l = Some tt) ∧
    (∃ l, ndata g !! "val_mask" = Some l ∧ heap w !! l = Some vt) ∧
    (∃ l, ndata g !! "test_mask" = Some l ∧ heap w !! l = Some st) ∧
    (if String.eqb (dataset_name a) "ogb-paper100M" then p_num_classes p = 172
     else Forall (λ r, (item r < p_num_classes p)%Z) (t_rows lt) ∧
          ∃ r, r ∈ t_rows lt ∧ p_num_classes p = item r + 1) ∧
    ∀ i,
      (i ∈ ids_list (p_train_idx p) ↔ ∃ r, t_rows tt !! i = Some r ∧ nonzero r = true) ∧
      (i ∈ ids_list (p_val_idx p) ↔ ∃ r, t_rows vt !! i = Some r ∧ nonzero r = true) ∧
      (i ∈ ids_list (p_test_idx p) ↔ ∃ r, t_rows st !! i = Some r ∧ nonzero r = true).
Proof.
  intros Hrun. destruct (devices !! proc_id) as [d|] eqn:Hd.
  2:{ unfold run_prepare, Py.index in Hrun. rewrite Hd in Hrun. done. }
  pose proof (wp_ok _ _ _ _ _ _ Hrun
                (run_prepare_result proc_id nprocs devices g a d w Hd))
    as (ll & lt & tl & tt & vl & vt & sl & st & Hl & Ht & Hv & Hs & _
        & (r & rs & Hrows & Hnc) & (Hti & Hvi & Hsi) & _).
  exists lt, tt, vt, st.
  split; [by exists ll|]. split; [by exists tl|]. split; [by exists vl|].
  split; [by exists sl|]. split.
  - destruct (String.eqb (dataset_name a) "ogb-paper100M"); [done|].
    rewrite Hrows, Hnc. destruct (foldl_max_le (item r) (item <$> rs)) as [Hr Hrs].
    split.
    + constructor; [lia|]. rewrite Forall_fmap in Hrs.
      eapply Forall_impl; [exact Hrs|]. cbn. intros; lia.
    + assert (foldl Z.max (item r) (item <$> rs) ∈ item <$> (r :: rs)) as Hin
        by apply foldl_max_elem.
      apply list_elem_of_fmap in Hin as (r' & Heq & Hin). exists r'.
      split; [done|]. by rewrite Heq.
  - assert (∀ t, ids_list (ids_to (Cuda d) t) = ids_list t) as Hto by by intros [].
    intros i. rewrite Hti, Hvi, Hsi.
    destruct (String.eqb (mode a) "benchmark"); rewrite ?Hto;
      by rewrite !elem_of_nonzero_rows.
Qed.

End Prepare.

(** ** The calls of a training run *)

Ltac app_norm :=
  repeat (progress (rewrite <-?app_assoc, ?app_nil_r; cbn [app])).

Section Trace.
Context `{Library}.

(** X17. The calls of a run of [train] that returns, in full: the two
    loaders and the optimiser; then for every epoch, in order, the switch
    to training mode, the four calls of an optimisation step (loss,
    [zero_grad], [backward], [step]) once for every item of that epoch's
    pass over the training loader, one evaluation, one reduction to rank 0
    and, on process 0 only, one line in the log file; and at the end one
    more reduction and, on process 0, one more line.  Training changes no
    tensor of the graph and leaves the process group alone. *)
Theorem train_trace proc_id nprocs device a g num_classes train_idx val_idx m
    use_uva w ws rank w' :
  pg w = Some (ws, rank) →
  train proc_id nprocs device a g num_classes train_idx val_idx m use_uva w
  = (Ok (), w') →
  calls w' = calls w ++ train_calls proc_id nprocs device a g num_classes
                          train_idx val_idx use_uva rank ∧
  heap w' = heap w ∧ pg w' = pg w.
Proof.
  intros Hpg Hrun.
  enough (wp (train proc_id nprocs device a g num_classes train_idx val_idx m use_uva)
            (λ _ w', calls w' = calls w ++ train_calls proc_id nprocs device a g
                                   num_classes train_idx val_idx use_uva rank ∧
                     heap w' = heap w ∧ pg w' = pg w)
            (λ _ _, True) w) as Hwp by exact (wp_ok _ _ _ _ _ _ Hrun Hwp).
  clear Hrun w'. unfold train, train_calls. cbv zeta. wp_simp.
  fold (train_sampler a).
  set (tdl := DataLoader g train_idx (train_sampler a) device 1000 true false
                         (num_workers a) true use_uva).
  set (vdl := DataLoader g val_idx (train_sampler a) device 1000 true false
                         (num_workers a) true use_uva).
  set (path := log_path_of a nprocs).
  set (epoch_of := λ epoch, epoch_calls proc_id path num_classes
                              (length (batches rank tdl epoch))).
  set (I := λ (pre : list nat) (_ : option nat) (wi : world),
    calls wi = calls w ++ train_setup_calls a g device train_idx val_idx use_uva
                 ++ concat (epoch_of <$> pre) ∧
    heap wi = heap w ∧ pg wi = pg w).
  eapply (wp_mono _ _ _ (λ _ _, True)).
  - apply (wp_foldM_prefix _ _ I).
    2:{ unfold I. split; [|done]. cbn [fmap list_fmap concat calls]. by app_norm. }
    intros pre epoch post it wi _ (Hc & Hh & Hp). wp_simp. cbn [pg heap calls].
    rewrite Hp, Hpg. wp_simp. cbn [snd].
    set (items := batches rank tdl epoch).
    set (J := λ (seen : list (nat * batch block)) (_ : option nat) (wj : world),
      calls wj = calls wi ++ ModelTrain :: concat (replicate (length seen) step_calls) ∧
      heap wj = heap w ∧ pg wj = pg w).
    eapply (wp_mono _ _ _ (λ _ _, True)).
    + apply (wp_foldM_prefix _ _ J); [|by unfold J; rewrite Hpg].
      intros seen [i b] rest it' wj _ (Hcj & Hhj & Hpj). wp_simp.
      destruct (Py.index (blocks b) 0); [|done]. wp_simp.
      eapply (wp_mono _ (λ _ w2, w2 = wj) _ (λ _ _, True));
        [|intros x ? ->|done].
      { eapply wp_mono; [apply wp_prefetched_same|done|done]. }
      cbv beta. wp_simp.
      destruct (Py.index_last (blocks b)); [|done]. wp_simp.
      eapply (wp_mono _ (λ _ w2, w2 = wj) _ (λ _ _, True));
        [|intros y ? ->|done].
      { eapply wp_mono; [apply wp_prefetched_same|done|done]. }
      cbv beta. wp_simp. unfold J. split; [|done]. cbn [calls].
      rewrite Hcj, length_app. cbn [length]. rewrite Nat.add_1_r.
      rewrite replicate_S_end, concat_app. cbn [concat step_calls]. by app_norm.
    + intros it' wj (Hcj & Hhj & Hpj). cbv beta. wp_simp.
      eapply wp_mono; [apply evaluate_frame| |done].
      intros [] wk [-> _]. cbv beta. wp_simp. cbn [pg heap calls].
      unfold enumerate in Hcj. rewrite length_zip, length_seq, Nat.min_id in Hcj.
      fold items in Hcj.
      unfold I. rewrite fmap_app, concat_app. cbn [fmap list_fmap concat].
      unfold epoch_of at 2, epoch_calls. fold items.
      destruct (decide (proc_id = 0%nat)); [destruct it'|]; wp_simp; [|done|].
      * cbn [calls heap pg]. split; [|done]. rewrite Hcj, Hc. by app_norm.
      * cbn [calls heap pg]. split; [|done]. rewrite Hcj, Hc. by app_norm.
    + done.
  - intros it wi (Hc & Hh & Hp). cbv beta. wp_simp.
    destruct (decide (proc_id = 0%nat)); wp_simp.
    + destruct (ids_len train_idx); wp_simp; [|done]. cbn [calls heap pg].
      split; [|done]. rewrite Hc. by app_norm.
    + cbn [calls heap pg]. split; [|done]. rewrite Hc. by app_norm.
  - done.
Qed.

End Trace.

(** ** Inference returns, for GAT *)

Section GatReturns.
Context `{Library}.


End GatReturns.

(** ** From the main block to the workers *)

Section Spawned.
Context `{Library}.

(** X19. The workers the main block spawns form one process group: every
    one of them finds its device in the list of [--gpu], selects it, and
    initialises the group with the number of workers as its size and its
    own index as its rank, whatever happens to it afterwards. *)
Theorem spawned_workers_join_one_group c e w workers w' :
  main c e w = (Ok workers, w') →
  ∃ devices,
    int_list (cli_gpu c) = Ok devices ∧
    ∀ wk w0 r w1,
      wk ∈ workers → worker_run wk w0 = (r, w1) →
      ∃ d new,
        devices !! wk.1 = Some d ∧
        calls w1 = calls w0 ++ CudaSetDevice d
                     :: InitProcessGroup "nccl" "tcp://127.0.0.1:12345"
                                         (length workers) wk.1
                     :: new.
Proof.
  intros Hmain.
  pose proof (wp_ok _ _ _ _ _ _ Hmain (main_returns_spec c e w))
    as (head & devices & g & _ & _ & Hgpu & _ & -> & _).
  exists devices. split; [done|]. intros wk w0 r w1 Hwk Hrun.
  unfold worker in *. rewrite mp_spawn_length.
  unfold mp_spawn in Hwk. apply list_elem_of_fmap in Hwk as (i & -> & Hi).
  apply elem_of_seq in Hi as [_ Hi]. cbn in Hi, Hrun |- *.
  destruct (lookup_lt_is_Some_2 devices i Hi) as [d Hd].
  exists d. destruct r as [[]|ex].
  - pose proof (wp_ok _ _ _ _ _ _ Hrun (run_in_group _ _ _ _ _ d _ Hd))
      as (_ & rest & Hc & _).
    eexists. split; [done|]. exact Hc.
  - pose proof (wp_raised _ _ _ _ _ _ Hrun (run_in_group _ _ _ _ _ d _ Hd))
      as (_ & rest & Hc & _).
    eexists. split; [done|]. exact Hc.
Qed.

End Spawned.

(** ** The further properties on small inputs *)

Lemma int_list_device_ids_three : int_list "0,1,12" = Ok [0; 1; 12].
Proof.
  apply (int_list_device_ids ["0"; "1"; "12"]).
  - discriminate.
  - repeat constructor; discriminate.
Defined.

Lemma int_list_empty_field_trailing : int_list "0,1," = Raise ValueError.
Proof. apply int_list_empty_field. vm_compute. repeat constructor. Defined.

Lemma main_spawn_shape_toy :
  ∃ workers w',
    @main toy four_gpus toy_env toy_world = (Ok workers, w') ∧
    fst <$> workers = seq 0 (length workers) ∧
    calls w' = [CreateFormats; SetEnv "OMP_NUM_THREADS"].
Proof.
  assert (∃ workers w', @main toy four_gpus toy_env toy_world = (Ok workers, w'))
    as (workers & w' & Hmain) by (vm_compute; do 2 eexists; reflexivity).
  exists workers, w'.
  destruct (@main_spawn_shape toy four_gpus toy_env toy_world workers w' Hmain)
    as (_ & Hids & _ & Hcalls).
  exact (conj Hmain (conj Hids Hcalls)).
Defined.


Lemma GAT_forward_by_depth_toy :
  @GAT_forward toy toy_gat [(); ()] [5; 6] = [5; 6] ∧
  @GAT_forward toy toy_gat [()] [5; 6] = [5; 6].
Proof.
  destruct (@GAT_forward_by_depth toy 2 32 2 [2; 1] (Some relu_fn) (6 # 10) (6 # 10)
              toy_gat eq_refl) as [Hfull Hshort].
  split.
  - exact (Hfull [GATConv 2 32 2 (6 # 10) (6 # 10) (Some relu_fn) true]
                 (GATConv 64 2 1 (6 # 10) (6 # 10) None true)
                 [()] () [] [5; 6] eq_refl eq_refl).
  - apply (Hshort [()] [5; 6]). cbn. lia.
Defined.

Lemma train_without_epochs_toy :
  (@train toy 1 2 0 toy_no_epochs toy_g 2 (Ids1 (Cuda 0) [0; 1]%nat)
          (Ids1 (Cuda 0) [1; 2]%nat) toy_sage true toy_ready).1 = Ok ().
Proof.
  rewrite (@train_without_epochs toy 1 2 0 toy_no_epochs toy_g 2
             (Ids1 (Cuda 0) [0; 1]%nat) (Ids1 (Cuda 0) [1; 2]%nat) toy_sage true
             toy_ready (Z.le_refl 0)).
  reflexivity.
Defined.

Lemma train_needs_an_item_toy4 :
  ∃ w',
    @train toy4 0 1 0 (toy_args "sage" [0]) toy_g 2 (Ids1 (Cuda 0) [])
           (Ids1 (Cuda 0) [1; 2]%nat) toy_sage true toy4_ready
    = (Raise UnboundLocalError, w').
Proof.
  assert (∃ w2,
            @evaluate toy4 0 toy_sage toy_g 2
              (DataLoader toy_g (Ids1 (Cuda 0) [1; 2]%nat)
                          (train_sampler (toy_args "sage" [0])) 0 1000 true false
                          (num_workers (toy_args "sage" [0])) true true) 0
              (@World toy4 (heap toy4_ready) (pg toy4_ready)
                 (calls toy4_ready
                  ++ train_setup_calls (toy_args "sage" [0]) toy_g 0
                       (Ids1 (Cuda 0) []) (Ids1 (Cuda 0) [1; 2]%nat) true
                  ++ [ModelTrain]))
            = (Ok (), w2)) as [w2 Heval]
    by (vm_compute; eexists; reflexivity).
  eexists.
  exact (@train_needs_an_item toy4 1 0 (toy_args "sage" [0]) toy_g 2
           (Ids1 (Cuda 0) []) (Ids1 (Cuda 0) [1; 2]%nat) toy_sage true toy4_ready
           1%nat 0%nat w2 eq_refl eq_refl eq_refl Heval).
Defined.

Lemma run_process_group_toy :
  ∃ w', @run toy 0 1 [0] toy_g (toy_args "sage" [0]) toy_loaded = (Ok (), w') ∧
        pg w' = None.
Proof.
  assert (∃ w', @run toy 0 1 [0] toy_g (toy_args "sage" [0]) toy_loaded = (Ok (), w'))
    as [w' Hrun] by (vm_compute; eexists; reflexivity).
  exists w'. split; [exact Hrun|].
  destruct (@run_process_group toy 0 1 [0] toy_g (toy_args "sage" [0]) toy_loaded
              (Ok ()) w' Hrun) as (new & _ & _ & Hpg & _).
  exact Hpg.
Defined.

Lemma run_reports_from_rank_zero_toy :
  ∃ r w' new,
    @run toy 1 2 [0; 1] toy_g (toy_args "sage" [0]) toy_loaded = (r, w') ∧
    calls w' = new ∧ ∀ p, Report p ∉ new.
Proof.
  assert (∃ r w', @run toy 1 2 [0; 1] toy_g (toy_args "sage" [0]) toy_loaded = (r, w'))
    as (r & w' & Hrun) by (vm_compute; do 2 eexists; reflexivity).
  destruct (@run_reports_from_rank_zero toy 1 2 [0; 1] toy_g (toy_args "sage" [0])
              toy_loaded r w' Hrun) as (new & Hc & Hrep).
  exists r, w', new. split; [exact Hrun|]. split; [exact Hc|].
  intros p Hin. by destruct (Hrep p Hin).
Defined.

Lemma run_stays_on_its_device_toy :
  ∃ r w' new,
    @run toy 1 2 [0; 7] toy_g (toy_args "sage" [0]) toy_loaded = (r, w') ∧
    calls w' = new ∧ ∀ dl, NewDataLoader dl ∈ new → dl_device dl = 7.
Proof.
  assert (∃ r w', @run toy 1 2 [0; 7] toy_g (toy_args "sage" [0]) toy_loaded = (r, w'))
    as (r & w' & Hrun) by (vm_compute; do 2 eexists; reflexivity).
  destruct (@run_stays_on_its_device toy 1 2 [0; 7] toy_g (toy_args "sage" [0]) 7
              toy_loaded r w' eq_refl Hrun) as (new & Hc & _ & Hdl & _).
  exists r, w', new. split; [exact Hrun|]. split; [exact Hc|].
  intros dl Hin. by destruct (Hdl dl Hin).
Defined.

Lemma run_prepare_placement_toy :
  ∃ p w',
    @run_prepare toy 0 1 [0] toy_g (toy_args "sage" [0]) toy_loaded = (Ok p, w') ∧
    g_dev (p_g p) = Cpu ∧ ndata (p_g p) !! "train_mask" = None ∧
    ids_dev (p_train_idx p) = Cuda 0.
Proof.
  assert (∃ p w', @run_prepare toy 0 1 [0] toy_g (toy_args "sage" [0]) toy_loaded
                  = (Ok p, w')) as (p & w' & Hrun)
    by (vm_compute; do 2 eexists; reflexivity).
  destruct (@run_prepare_placement toy 0 1 [0] toy_g (toy_args "sage" [0]) 0
              toy_loaded p w' eq_refl Hrun) as (_ & _ & Hdev & Hk & Hidx & _).
  exists p, w'. split; [exact Hrun|]. split; [exact Hdev|]. split.
  - apply eq_None_not_Some. intros Hs. apply Hk in Hs. by destruct Hs as (_ & ? & _).
  - apply Hidx. discriminate.
Defined.

Lemma run_prepare_classes_and_ids_toy :
  ∃ p w',
    @run_prepare toy 0 1 [0] toy_g (toy_args "sage" [0]) toy_loaded = (Ok p, w') ∧
    ∃ lt, Forall (λ r, (r < p_num_classes p)%Z) (t_rows lt).
Proof.
  assert (∃ p w', @run_prepare toy 0 1 [0] toy_g (toy_args "sage" [0]) toy_loaded
                  = (Ok p, w')) as (p & w' & Hrun)
    by (vm_compute; do 2 eexists; reflexivity).
  destruct (@run_prepare_classes_and_ids toy 0 1 [0] toy_g (toy_args "sage" [0])
              toy_loaded p w' Hrun) as (lt & tt & vt & st & _ & _ & _ & _ & Hnc & _).
  cbn in Hnc. exists p, w'. split; [exact Hrun|]. exists lt. exact (proj1 Hnc).
Defined.

Lemma train_trace_toy :
  ∃ w',
    @train toy 0 1 0 (toy_args "sage" [0]) toy_g 2 (Ids1 (Cuda 0) [0; 1]%nat)
           (Ids1 (Cuda 0) [1; 2]%nat) toy_sage true toy_ready = (Ok (), w') ∧
    heap w' = heap toy_ready.
Proof.
  assert (∃ w',
            @train toy 0 1 0 (toy_args "sage" [0]) toy_g 2 (Ids1 (Cuda 0) [0; 1]%nat)
                   (Ids1 (Cuda 0) [1; 2]%nat) toy_sage true toy_ready = (Ok (), w'))
    as [w' Hrun] by (vm_compute; eexists; reflexivity).
  exists w'. split; [exact Hrun|].
  destruct (@train_trace toy 0 1 0 (toy_args "sage" [0]) toy_g 2
              (Ids1 (Cuda 0) [0; 1]%nat) (Ids1 (Cuda 0) [1; 2]%nat) toy_sage true
              toy_ready 1%nat 0%nat w' eq_refl Hrun) as (_ & Hheap & _).
  exact Hheap.
Defined.




Lemma spawned_workers_join_one_group_toy :
  ∃ workers w' devices,
    @main toy four_gpus toy_env toy_world = (Ok workers, w') ∧
    int_list "0,1,2,3" = Ok devices ∧
    ∀ wk w0 r w1,
      wk ∈ workers → @worker_run toy wk w0 = (r, w1) →
      ∃ d new,
        devices !! wk.1 = Some d ∧
        calls w1 = calls w0 ++ CudaSetDevice d
                     :: InitProcessGroup "nccl" "tcp://127.0.0.1:12345"
                                         (length workers) wk.1
                     :: new.
Proof.
  assert (∃ workers w', @main toy four_gpus toy_env toy_world = (Ok workers, w'))
    as (workers & w' & Hmain) by (vm_compute; do 2 eexists; reflexivity).
  destruct (@spawned_workers_join_one_group toy four_gpus toy_env toy_world
              workers w' Hmain) as (devices & Hdev & Hall).
  exists workers, w', devices. exact (conj Hmain (conj Hdev Hall)).
Defined.
